(** * Conflict-resolution RAG application: chunking, citations, batch
      indexing and response assembly

    A shallow embedding of [pdf_processor.py], [citation_generator.py],
    [batch_indexer.py] and [rag_engine.py], and the properties of the
    specification that concern them.

    Conventions of the embedding:
    - a Python [str] is a [string]; its characters are the 256 values of
      [ascii], and whitespace, case mapping, digits and word characters are
      those of the ASCII range; the Czech messages of the code are kept as
      the bytes of their UTF-8 form;
    - a Python [int] is a [Z], a length or a counter that starts at 0 and
      only grows is a [nat];
    - a Python [dict] is an association list in insertion order;
    - dictionaries that the code shares or copies live in a store and are
      named by their index in it;
    - code that can raise runs in a state-and-exception monad, where a
      raised exception keeps the store as it was when it was raised;
    - the PDF reader, the vector store and the generation service are
      parameters of the sections that use them. *)

From Stdlib Require Import String Ascii List ZArith Lia Bool Arith DecimalString.
From Stdlib Require Import DecimalNat.
Import ListNotations.
Open Scope string_scope.

(* ===================================================================== *)
(** * Python string primitives                                            *)
(* ===================================================================== *)

Module Py.

(** [str.isspace] on one character, ASCII range: TAB, LF, VT, FF, CR,
    FS, GS, RS, US and SPACE. *)
Definition isspace (c : ascii) : bool :=
  let n := nat_of_ascii c in
  (((9 <=? n) && (n <=? 13)) || ((28 <=? n) && (n <=? 32)))%nat.

Definition nonempty (s : string) : bool :=
  match s with EmptyString => false | String _ _ => true end.

(** [s.lstrip()] *)
Fixpoint lstrip (s : string) : string :=
  match s with
  | EmptyString => EmptyString
  | String c s' => if isspace c then lstrip s' else s
  end.

(** [s.rstrip()] *)
Fixpoint rstrip (s : string) : string :=
  match s with
  | EmptyString => EmptyString
  | String c s' =>
      match rstrip s' with
      | EmptyString => if isspace c then EmptyString else String c EmptyString
      | r => String c r
      end
  end.

(** [s.strip()] *)
Definition strip (s : string) : string := lstrip (rstrip s).

Fixpoint drop (n : nat) (s : string) : string :=
  match n, s with
  | O, _ => s
  | S _, EmptyString => EmptyString
  | S n', String _ s' => drop n' s'
  end.

(** [s[start:]], with Python's treatment of a negative or too large
    index. *)
Definition slice_from (start : Z) (s : string) : string :=
  let n := Z.of_nat (String.length s) in
  let i := if (start <? 0)%Z then Z.max 0 (start + n) else Z.min start n in
  drop (Z.to_nat i) s.

(** [s.split(sep)] for a non-empty [sep]: the leftmost occurrences of
    [sep], not overlapping.  [cur] collects the characters of the piece
    being read; [skip] counts the characters of a separator found
    that are still to be passed over. *)
Fixpoint split_aux (sep : string) (s : string) (cur : string) (skip : nat)
  : list string :=
  match s with
  | EmptyString => [cur]
  | String c s' =>
      match skip with
      | S k => split_aux sep s' cur k
      | O =>
          if prefix sep s
          then cur :: split_aux sep s' EmptyString (String.length sep - 1)
          else split_aux sep s' (cur ++ String c EmptyString) 0
      end
  end.

Definition split (sep : string) (s : string) : list string :=
  split_aux sep s EmptyString 0.

(** [s.split()]: the maximal runs of characters that are not whitespace. *)
Fixpoint split_ws_aux (s : string) (cur : string) : list string :=
  match s with
  | EmptyString => if nonempty cur then [cur] else []
  | String c s' =>
      if isspace c
      then ((if nonempty cur then [cur] else []) ++ split_ws_aux s' EmptyString)%list
      else split_ws_aux s' (cur ++ String c EmptyString)
  end.

Definition split_ws (s : string) : list string := split_ws_aux s EmptyString.

(** [sep.join(l)] *)
Definition join (sep : string) (l : list string) : string := String.concat sep l.

(** [s.replace(old, new)] for a non-empty [old]: Python replaces the
    leftmost occurrences, not overlapping, which are the ones [split]
    cuts at. *)
Definition replace (old new : string) (s : string) : string :=
  join new (split old s).

(** [sub in s] *)
Fixpoint contains (sub : string) (s : string) : bool :=
  prefix sub s ||
  match s with
  | EmptyString => false
  | String _ s' => contains sub s'
  end.

Definition is_upper (c : ascii) : bool :=
  let n := nat_of_ascii c in ((65 <=? n) && (n <=? 90))%nat.
Definition is_lower (c : ascii) : bool :=
  let n := nat_of_ascii c in ((97 <=? n) && (n <=? 122))%nat.
Definition is_digit (c : ascii) : bool :=
  let n := nat_of_ascii c in ((48 <=? n) && (n <=? 57))%nat.

Definition lower_char (c : ascii) : ascii :=
  if is_upper c then ascii_of_nat (nat_of_ascii c + 32) else c.
Definition upper_char (c : ascii) : ascii :=
  if is_lower c then ascii_of_nat (nat_of_ascii c - 32) else c.

(** [s.lower()], for the letters of the ASCII range; Python lowers the
    letters outside it as well. *)
Fixpoint lower (s : string) : string :=
  match s with
  | EmptyString => EmptyString
  | String c s' => String (lower_char c) (lower s')
  end.

(** [s.capitalize()], for the letters of the ASCII range; Python also
    maps a first letter outside it to its title case, which can be more
    than one character. *)
Definition capitalize (s : string) : string :=
  match s with
  | EmptyString => EmptyString
  | String c s' => String (upper_char c) (lower s')
  end.

(** [str(n)] for an [int] *)
Definition str_of_Z (z : Z) : string := NilZero.string_of_int (Z.to_int z).
Definition str_of_nat (n : nat) : string := NilZero.string_of_uint (Nat.to_uint n).

(** The values stored in the dictionaries of this program: metadata fields
    are strings, [chunk_index] is an integer. *)
Inductive value : Type :=
| VStr (s : string)
| VInt (z : Z).

(** [str(v)], which is what an f-string field prints. *)
Definition str (v : value) : string :=
  match v with
  | VStr s => s
  | VInt z => str_of_Z z
  end.

(** The truth value of [v] in a condition. *)
Definition truthy (v : value) : bool :=
  match v with
  | VStr s => nonempty s
  | VInt z => negb (z =? 0)%Z
  end.

Definition value_eqb (a b : value) : bool :=
  match a, b with
  | VStr s, VStr t => String.eqb s t
  | VInt x, VInt y => (x =? y)%Z
  | _, _ => false
  end.

(** ** Dictionaries with string keys *)

Definition dict : Type := list (string * value).

(** [d.get(k)] *)
Fixpoint get (k : string) (d : dict) : option value :=
  match d with
  | [] => None
  | (k', v) :: d' => if String.eqb k k' then Some v else get k d'
  end.

(** [d.get(k, default)] *)
Definition get_default (k : string) (default : value) (d : dict) : value :=
  match get k d with Some v => v | None => default end.

(** [k in d] *)
Definition mem (k : string) (d : dict) : bool :=
  match get k d with Some _ => true | None => false end.

(** [d[k] = v]: an existing key keeps its place, a new key goes last. *)
Fixpoint set (k : string) (v : value) (d : dict) : dict :=
  match d with
  | [] => [(k, v)]
  | (k', v') :: d' =>
      if String.eqb k k' then (k, v) :: d' else (k', v') :: set k v d'
  end.

(** ** Exceptions *)

Inductive exn_class : Type :=
| KeyError | AttributeError | IndexError | ValueError | FileNotFoundError
| OtherException.

(** An exception, with the text that [str(e)] gives. *)
Record exn : Type := Exn { exn_cls : exn_class; exn_str : string }.

Definition LF : string := String "010" EmptyString.

End Py.

(* ===================================================================== *)
(** * Computations over a state that may raise                            *)
(* ===================================================================== *)

Definition M (S A : Type) : Type := S -> (Py.exn + A) * S.

Definition ret {S A} (a : A) : M S A := fun s => (inr a, s).

Definition raise {S A} (e : Py.exn) : M S A := fun s => (inl e, s).

Definition bind {S A B} (c : M S A) (f : A -> M S B) : M S B :=
  fun s =>
    match c s with
    | (inr a, s') => f a s'
    | (inl e, s') => (inl e, s')
    end.

(** [try: c except Exception as e: handler e] *)
Definition try_except {S A} (c : M S A) (handler : Py.exn -> M S A) : M S A :=
  fun s =>
    match c s with
    | (inr a, s') => (inr a, s')
    | (inl e, s') => handler e s'
    end.

(** The value of a computation that cannot touch the state. *)
Definition lift_result {S A} (r : Py.exn + A) : M S A := fun s => (r, s).

Declare Scope monad_scope.
Delimit Scope monad_scope with monad.
Notation "x <- c ;; k" := (bind c (fun x => k))
  (at level 61, c at next level, right associativity) : monad_scope.
Notation "c ;;; k" := (bind c (fun _ => k))
  (at level 61, right associativity) : monad_scope.
Open Scope monad_scope.

(** [for x in l: a = body a x], the loop variables being [a]. *)
Fixpoint for_each {S A B} (body : A -> B -> M S A) (l : list B) (a : A)
  : M S A :=
  match l with
  | [] => ret a
  | x :: l' => a' <- body a x ;; for_each body l' a'
  end.

(* ===================================================================== *)
(** * The store of shared dictionaries                                    *)
(* ===================================================================== *)

Definition loc : Type := nat.
Definition heap : Type := list Py.dict.

(** A new dictionary object. *)
Definition alloc (d : Py.dict) : M heap loc :=
  fun h => (inr (List.length h), (h ++ [d])%list).

(** The present contents of a dictionary object.  A reference that names
    no object does not occur in Python; the embedding reads it as empty. *)
Definition deref (l : loc) : M heap Py.dict :=
  fun h => (inr (nth l h []), h).

(** [d[k]] on the object at [l] *)
Definition getitem (l : loc) (k : string) : M heap Py.value :=
  d <- deref l ;;
  match Py.get k d with
  | Some v => ret v
  | None => raise (Py.Exn Py.KeyError ("'" ++ k ++ "'"))
  end.

(** [d.copy()] on the object at [l] *)
Definition dict_copy (l : loc) : M heap loc :=
  d <- deref l ;; alloc d.

(** [d[k] = v] on the object at [l] *)
Definition setitem (l : loc) (k : string) (v : Py.value) : M heap unit :=
  fun h =>
    (inr tt, (firstn l h ++ match nth_error h l with
                            | Some d => Py.set k v d :: skipn (S l) h
                            | None => []
                            end)%list).

(* ===================================================================== *)
(** * pdf_processor.py                                                    *)
(* ===================================================================== *)

Module PDFProcessor.

(** The fields of a [PDFProcessor] that the code below reads; they are set
    from the configuration. *)
Record t : Type := {
  chunk_size : Z;
  chunk_overlap : Z
}.

Definition is_word_char (c : ascii) : bool :=
  Py.is_upper c || Py.is_lower c || Py.is_digit c || Ascii.eqb c "_".

(** Whether [(19|20)\d{2}\b] matches at the start of [s]. *)
Definition year_at (s : string) : bool :=
  match s with
  | String a (String b (String c (String d rest))) =>
      ((Ascii.eqb a "1" && Ascii.eqb b "9") || (Ascii.eqb a "2" && Ascii.eqb b "0"))
      && Py.is_digit c && Py.is_digit d
      && match rest with
         | EmptyString => true
         | String e _ => negb (is_word_char e)
         end
  | _ => false
  end.

(** [re.search(r'\b(19|20)\d{2}\b', name)], giving [group()] of the
    leftmost match; [prev_word] tells whether the character before [s] is a
    word character. *)
Fixpoint search_year (prev_word : bool) (s : string) : option string :=
  match s with
  | EmptyString => None
  | String c s' =>
      if negb prev_word && year_at s then Some (substring 0 4 s)
      else search_year (is_word_char c) s'
  end.

Definition extract_metadata_from_filename (filename : string) : Py.dict :=
  let name := Py.replace ".pdf" "" filename in
  let metadata : Py.dict :=
    [ ("filename", Py.VStr filename);
      ("title", Py.VStr name);
      ("author", Py.VStr "Unknown");
      ("year", Py.VStr "Unknown");
      ("source_type", Py.VStr "document") ] in
  let metadata :=
    if Py.contains "_" name then
      let parts := Py.split "_" name in
      if (2 <=? List.length parts)%nat then
        let potential_author := nth 0 parts "" in
        if (List.length (Py.split_ws potential_author) <=? 3)%nat then
          Py.set "title"
            (Py.VStr (Py.replace "_" " " (Py.join "_" (tl parts))))
            (Py.set "author" (Py.VStr (Py.replace "_" " " potential_author))
               metadata)
        else metadata
      else metadata
    else metadata in
  let metadata :=
    if Py.contains "," name && negb (Py.contains "_" name) then
      let parts := Py.split "," name in
      if (2 <=? List.length parts)%nat then
        Py.set "title" (Py.VStr (Py.strip (nth 1 parts "")))
          (Py.set "author" (Py.VStr (Py.strip (nth 0 parts ""))) metadata)
      else metadata
    else metadata in
  match search_year false name with
  | Some year => Py.set "year" (Py.VStr year) metadata
  | None => metadata
  end.

(** A chunk, the dictionary with the keys [id], [text], [metadata] and
    [chunk_index]; [metadata] is a reference to a dictionary object. *)
Record Chunk : Type := {
  c_id : string;
  c_text : string;
  c_metadata : loc;
  c_chunk_index : nat
}.

(** The variables of the loop of [chunk_text]. *)
Record loop_vars : Type := {
  chunks : list Chunk;
  current_chunk : string;
  chunk_id : nat
}.

(** The dictionary display that [chunk_text] appends, its entries
    evaluated in order. *)
Definition new_chunk (metadata : loc) (current_chunk : string) (chunk_id : nat)
  : M heap Chunk :=
  filename <- getitem metadata "filename" ;;
  md <- dict_copy metadata ;;
  ret {| c_id := Py.str filename ++ "_chunk_" ++ Py.str_of_nat chunk_id;
         c_text := Py.strip current_chunk;
         c_metadata := md;
         c_chunk_index := chunk_id |}.

Definition overlap_text (self : t) (current_chunk : string) : string :=
  if (Z.of_nat (String.length current_chunk) >? chunk_overlap self)%Z
  then Py.slice_from (- chunk_overlap self) current_chunk
  else current_chunk.

Definition chunk_text_body (self : t) (metadata : loc)
  (v : loop_vars) (paragraph : string) : M heap loop_vars :=
  if ((Z.of_nat (String.length (current_chunk v))
       + Z.of_nat (String.length paragraph)
       >? chunk_size self)%Z
      && Py.nonempty (current_chunk v))%bool
  then
    c <- new_chunk metadata (current_chunk v) (chunk_id v) ;;
    ret {| chunks := (chunks v ++ [c])%list;
           current_chunk :=
             overlap_text self (current_chunk v) ++ Py.LF ++ Py.LF ++ paragraph;
           chunk_id := S (chunk_id v) |}
  else
    ret {| chunks := chunks v;
           current_chunk :=
             if Py.nonempty (current_chunk v)
             then current_chunk v ++ Py.LF ++ Py.LF ++ paragraph
             else paragraph;
           chunk_id := chunk_id v |}.

(** [[p.strip() for p in text.split('\n\n') if p.strip()]] *)
Definition paragraphs_of (text : string) : list string :=
  map Py.strip
    (filter (fun p => Py.nonempty (Py.strip p)) (Py.split (Py.LF ++ Py.LF) text)).

Definition chunk_text (self : t) (text : string) (metadata : loc)
  : M heap (list Chunk) :=
  if negb (Py.nonempty (Py.strip text)) then ret []
  else
    v <- for_each (chunk_text_body self metadata) (paragraphs_of text)
           {| chunks := []; current_chunk := ""; chunk_id := 0 |} ;;
    if Py.nonempty (Py.strip (current_chunk v))
    then
      c <- new_chunk metadata (current_chunk v) (chunk_id v) ;;
      ret (chunks v ++ [c])%list
    else ret (chunks v).

(** ** The buffers of [chunk_text]

    [chunk_text] keeps the buffer [current_chunk] to itself and returns its
    stripped text only.  [buffers_loop] runs the same loop on the buffer
    alone: it gives the buffers that the loop closes, in order, and the
    buffer it ends with. *)
Fixpoint buffers_loop (self : t) (paragraphs : list string)
  (current_chunk : string) : list string * string :=
  match paragraphs with
  | [] => ([], current_chunk)
  | paragraph :: rest =>
      if ((Z.of_nat (String.length current_chunk)
           + Z.of_nat (String.length paragraph)
           >? chunk_size self)%Z
          && Py.nonempty current_chunk)%bool
      then
        let '(closed, final) :=
          buffers_loop self rest
            (overlap_text self current_chunk ++ Py.LF ++ Py.LF ++ paragraph) in
        (current_chunk :: closed, final)
      else
        buffers_loop self rest
          (if Py.nonempty current_chunk
           then current_chunk ++ Py.LF ++ Py.LF ++ paragraph
           else paragraph)
  end.

(** The buffer behind each chunk that [chunk_text] emits, in order. *)
Definition chunk_buffers (self : t) (text : string) : list string :=
  if negb (Py.nonempty (Py.strip text)) then []
  else
    let '(closed, final) := buffers_loop self (paragraphs_of text) "" in
    if Py.nonempty (Py.strip final) then (closed ++ [final])%list else closed.

(** The last [n] characters of [s], all of [s] when it has fewer. *)
Definition last_chars (n : nat) (s : string) : string :=
  Py.drop (String.length s - n) s.

(** The chunks built from the buffers [bufs], the first of them with the
    index [i] and the metadata object [l]. *)
Fixpoint chunks_of_buffers (filename : Py.value) (l : loc) (i : nat)
  (bufs : list string) : list Chunk :=
  match bufs with
  | [] => []
  | b :: bufs' =>
      {| c_id := Py.str filename ++ "_chunk_" ++ Py.str_of_nat i;
         c_text := Py.strip b;
         c_metadata := l;
         c_chunk_index := i |}
      :: chunks_of_buffers filename (S l) (S i) bufs'
  end.

(** [os.path.basename] *)
Definition basename (path : string) : string :=
  last (Py.split "/" path) "".

End PDFProcessor.

(* ===================================================================== *)
(** * Code that may raise and has no state                                *)
(* ===================================================================== *)

Definition result (A : Type) : Type := (Py.exn + A)%type.

Definition rbind {A B} (c : result A) (f : A -> result B) : result B :=
  match c with
  | inr a => f a
  | inl e => inl e
  end.

Notation "x <~ c ;; k" := (rbind c (fun x => k))
  (at level 61, c at next level, right associativity) : monad_scope.

(** [try: c except Exception as e: handler e] *)
Definition rtry {A} (c : result A) (handler : Py.exn -> result A) : result A :=
  match c with
  | inr a => inr a
  | inl e => handler e
  end.

Fixpoint rfor_each {A B} (body : A -> B -> result A) (l : list B) (a : A)
  : result A :=
  match l with
  | [] => inr a
  | x :: l' => a' <~ body a x ;; rfor_each body l' a'
  end.

(** The receiver of a [str] method: an [int] has none of them. *)
Definition str_method (method : string) (v : Py.value) : result string :=
  match v with
  | Py.VStr s => inr s
  | Py.VInt _ =>
      inl (Py.Exn Py.AttributeError
             ("'int' object has no attribute '" ++ method ++ "'"))
  end.

(** [enumerate(l, start)] *)
Definition enumerate {A} (l : list A) (start : nat) : list (nat * A) :=
  combine (seq start (List.length l)) l.

(* ===================================================================== *)
(** * citation_generator.py                                               *)
(* ===================================================================== *)

Module CitationGenerator.

Definition clean_author_name (author : Py.value) : result string :=
  if negb (Py.truthy author) || Py.value_eqb author (Py.VStr "Unknown")
  then inr "Unknown Author"
  else
    a <~ str_method "split" author ;;
    let author := Py.join " " (Py.split_ws a) in
    if Py.contains "," author then
      let authors := map Py.strip (Py.split "," author) in
      if (1 <? List.length authors)%nat
      then inr (nth 0 authors "" ++ ", " ++ Py.join ", " (tl authors))
      else inr author
    else inr author.

Definition lowercase_words : list string :=
  ["a"; "an"; "and"; "as"; "at"; "but"; "by"; "for"; "if"; "in"; "nor";
   "of"; "on"; "or"; "so"; "the"; "to"; "up"; "yet"].

Definition title_case (text : string) : string :=
  let words := Py.split_ws text in
  Py.join " "
    (map (fun '(i, word) =>
            if ((i =? 0) || (i =? List.length words - 1))%nat
            then Py.capitalize word
            else if existsb (String.eqb (Py.lower word)) lowercase_words
            then Py.lower word
            else Py.capitalize word)
         (enumerate words 0)).

Definition clean_title (title : Py.value) : result string :=
  if negb (Py.truthy title) then inr "Untitled Document"
  else
    t <~ str_method "replace" title ;;
    let title := Py.replace ".pdf" "" t in
    let title := Py.replace "_" " " title in
    let title := Py.join " " (Py.split_ws title) in
    inr (title_case title).

Definition generate_reference_citation (metadata : Py.dict) : result string :=
  author <~ clean_author_name
              (Py.get_default "author" (Py.VStr "Unknown") metadata) ;;
  title <~ clean_title (Py.get_default "title" (Py.VStr "Untitled") metadata) ;;
  let year := Py.get_default "year" (Py.VStr "n.d.") metadata in
  let filename := Py.get_default "filename" (Py.VStr "") metadata in
  let citation := author ++ " (" ++ Py.str year ++ "). " ++ title ++ "." in
  if Py.mem "file_path" metadata
  then inr (citation ++ " Retrieved from " ++ Py.str filename)
  else inr citation.

Definition generate_in_text_citation (metadata : Py.dict) : result string :=
  author <~ clean_author_name
              (Py.get_default "author" (Py.VStr "Unknown") metadata) ;;
  let year := Py.get_default "year" (Py.VStr "n.d.") metadata in
  inr ("(" ++ author ++ ", " ++ Py.str year ++ ")").

(** The dictionary [unique_citations]: its keys are filenames as found in
    the sources, its values citations, in insertion order. *)
Definition citation_dict : Type := list (Py.value * string).

Definition has_key (k : Py.value) (d : citation_dict) : bool :=
  existsb (fun kv => Py.value_eqb k (fst kv)) d.

(** The header of the list of sources. *)
Definition citations_header : string :=
  Py.LF ++ Py.LF ++ "**Použité zdroje:**" ++ Py.LF.

(** The body of the loop that fills [unique_citations]. *)
Definition unique_citations_body (unique_citations : citation_dict)
  (source : Py.dict) : result citation_dict :=
  let filename := Py.get_default "filename" (Py.VStr "Unknown") source in
  if negb (has_key filename unique_citations) then
    citation <~ generate_reference_citation source ;;
    inr (unique_citations ++ [(filename, citation)])%list
  else inr unique_citations.

Definition format_citations_for_response (used_sources : list Py.dict)
  : result string :=
  match used_sources with
  | [] => inr ""
  | _ =>
      unique_citations <~
        rfor_each unique_citations_body used_sources [] ;;
      inr (fold_left
             (fun citations_text '(i, citation) =>
                citations_text ++ Py.str_of_nat i ++ ". " ++ citation ++ Py.LF)
             (enumerate (map snd unique_citations) 1)
             citations_header)
  end.

End CitationGenerator.

(** A LangChain [Document]. *)
Record Document : Type := {
  page_content : string;
  doc_metadata : Py.dict
}.

(* ===================================================================== *)
(** * batch_indexer.py                                                    *)
(* ===================================================================== *)

Module BatchIndexer.

(** [range(0, stop, step)] for [0 <= stop]; a zero step raises. *)
Fixpoint range_from (fuel : nat) (i stop step : Z) : list Z :=
  match fuel with
  | O => []
  | S fuel' =>
      if (i <? stop)%Z then i :: range_from fuel' (i + step)%Z stop step
      else []
  end.

Definition range0 (stop : nat) (step : Z) : result (list Z) :=
  if (step =? 0)%Z
  then inl (Py.Exn Py.ValueError "range() arg 3 must not be zero")
  else if (step <? 0)%Z then inr []
  else inr (range_from stop 0 (Z.of_nat stop) step).

(** [l[i:j]] for [0 <= i] and [0 <= j] *)
Definition slice {A} (l : list A) (i j : Z) : list A :=
  firstn (Z.to_nat (j - i)) (skipn (Z.to_nat i) l).

(** The state of a [BatchIndexer] and of the objects it reaches. *)
Record state : Type := {
  store : heap;
  processed_files : list string;
  failed_files : list string
}.

Definition on_store {A} (c : M heap A) : M state A :=
  fun s =>
    let '(r, h) := c (store s) in
    (r, {| store := h;
           processed_files := processed_files s;
           failed_files := failed_files s |}).

Definition append_processed (f : string) : M state unit :=
  fun s =>
    (inr tt, {| store := store s;
                processed_files := (processed_files s ++ [f])%list;
                failed_files := failed_files s |}).

Definition append_failed (f : string) : M state unit :=
  fun s =>
    (inr tt, {| store := store s;
                processed_files := processed_files s;
                failed_files := (failed_files s ++ [f])%list |}).

(** The dictionary [batch_results]. *)
Record batch_results : Type := {
  processed : nat;
  failed : nat;
  total_chunks : nat;
  errors : list string
}.

(** The dictionary [total_results]. *)
Record total_results : Type := {
  tr_total_processed : nat;
  tr_total_failed : nat;
  tr_total_chunks : nat;
  all_errors : list string
}.

(** The report that [index_all_documents] returns; a key that a report
    does not have is [None]. *)
Record report : Type := {
  success : bool;
  error : option string;
  total_processed : nat;
  total_failed : nat;
  r_total_chunks : nat;
  r_errors : option (list string);
  r_processed_files : option (list string);
  r_failed_files : option (list string)
}.

Section WithServices.

(** The indexer's fields. *)
Variable batch_size : Z.
Variable pdf_processor : PDFProcessor.t.

(** [PDFProcessor.extract_text_from_pdf]: the text that the PDF library
    reads from a path, and the empty string when reading fails. *)
Variable extract_text_from_pdf : string -> string.

(** The vector store's [add_documents], which may raise. *)
Variable vector_db_add_documents : list Document -> result unit.

(** Whether the directory of sources exists, and its [*.pdf] files. *)
Variable pdf_dir_exists : bool.
Variable pdf_dir_glob : list string.
Variable pdf_dir_name : string.

(** [time.sleep(self.delay_between_batches)], which raises for a negative
    delay. *)
Variable time_sleep : result unit.

Definition extract_text_and_metadata (pdf_path : string)
  : M heap (string * loc) :=
  let text := extract_text_from_pdf pdf_path in
  let filename := PDFProcessor.basename pdf_path in
  metadata <- alloc (PDFProcessor.extract_metadata_from_filename filename) ;;
  setitem metadata "file_path" (Py.VStr pdf_path) ;;;
  ret (text, metadata).

(** [RAGEngine.add_documents_to_vectorstore] *)
Definition add_documents_to_vectorstore (documents : list Document) : bool :=
  match documents with
  | [] => true
  | _ =>
      match vector_db_add_documents documents with
      | inr _ => true
      | inl _ => false
      end
  end.

Definition get_pdf_files : result (list string) :=
  if negb pdf_dir_exists
  then inl (Py.Exn Py.FileNotFoundError
              ("Složka " ++ pdf_dir_name ++ " neexistuje"))
  else inr pdf_dir_glob.

(** The [Document] built from one chunk. *)
Definition document_of_chunk (chunk : PDFProcessor.Chunk) : M heap Document :=
  filename <- getitem (PDFProcessor.c_metadata chunk) "filename" ;;
  author <- getitem (PDFProcessor.c_metadata chunk) "author" ;;
  title <- getitem (PDFProcessor.c_metadata chunk) "title" ;;
  year <- getitem (PDFProcessor.c_metadata chunk) "year" ;;
  ret {| page_content := PDFProcessor.c_text chunk;
         doc_metadata :=
           [ ("id", Py.VStr (PDFProcessor.c_id chunk));
             ("filename", filename);
             ("author", author);
             ("title", title);
             ("year", year);
             ("chunk_index",
              Py.VInt (Z.of_nat (PDFProcessor.c_chunk_index chunk))) ] |}.

(** The body of the loop of [process_batch].  Every statement of the [try]
    block that can raise comes before its updates of [batch_results], so
    the handler starts from the [batch_results] the iteration started
    with. *)
Definition process_batch_body (br : batch_results) (pdf_file : string)
  : M state batch_results :=
  try_except
    (tm <- on_store (extract_text_and_metadata pdf_file) ;;
     let '(text, metadata) := tm in
     if negb (Py.nonempty (Py.strip text)) then
       append_failed pdf_file ;;;
       ret {| processed := processed br;
              failed := failed br + 1;
              total_chunks := total_chunks br;
              errors := errors br |}
     else
       chunks <- on_store
                   (PDFProcessor.chunk_text pdf_processor text metadata) ;;
       match chunks with
       | [] => ret br
       | _ =>
           documents <- on_store
                          (for_each
                             (fun documents chunk =>
                                doc <- document_of_chunk chunk ;;
                                ret (documents ++ [doc])%list)
                             chunks []) ;;
           let _ := add_documents_to_vectorstore documents in
           append_processed pdf_file ;;;
           ret {| processed := processed br + 1;
                  failed := failed br;
                  total_chunks := total_chunks br + List.length chunks;
                  errors := errors br |}
       end)
    (fun e =>
       let error_msg :=
         "Chyba při zpracování " ++ PDFProcessor.basename pdf_file ++ ": "
         ++ Py.exn_str e in
       append_failed pdf_file ;;;
       ret {| processed := processed br;
              failed := failed br + 1;
              total_chunks := total_chunks br;
              errors := (errors br ++ [error_msg])%list |}).

Definition process_batch (pdf_files : list string) : M state batch_results :=
  for_each process_batch_body pdf_files
    {| processed := 0; failed := 0; total_chunks := 0; errors := [] |}.

(** [[pdf_files[i:i + batch_size] for i in range(0, len(pdf_files),
    batch_size)]] *)
Definition batches_of (pdf_files : list string) : result (list (list string)) :=
  starts <~ range0 (List.length pdf_files) batch_size ;;
  inr (map (fun i => slice pdf_files i (i + batch_size)) starts).

(** What the handler of the loop over the batches does. *)
Definition record_batch_error (i : nat) (e : Py.exn) (tr : total_results)
  : total_results :=
  let error_msg :=
    "Chyba při zpracování dávky " ++ Py.str_of_nat i ++ ": " ++ Py.exn_str e in
  {| tr_total_processed := tr_total_processed tr;
     tr_total_failed := tr_total_failed tr;
     tr_total_chunks := tr_total_chunks tr;
     all_errors := (all_errors tr ++ [error_msg])%list |}.

(** The body of the loop over [enumerate(batches, 1)].  The delay is the
    last statement of the [try] block: when it raises, the handler finds
    the totals already updated. *)
Definition index_body (n_batches : nat) (tr : total_results)
  (ib : nat * list string) : M state total_results :=
  let '(i, batch) := ib in
  try_except
    (br <- process_batch batch ;;
     let tr' :=
       {| tr_total_processed := tr_total_processed tr + processed br;
          tr_total_failed := tr_total_failed tr + failed br;
          tr_total_chunks := tr_total_chunks tr + total_chunks br;
          all_errors := (all_errors tr ++ errors br)%list |} in
     if (i <? n_batches)%nat then
       match time_sleep with
       | inr _ => ret tr'
       | inl e => ret (record_batch_error i e tr')
       end
     else ret tr')
    (fun e => ret (record_batch_error i e tr)).

Definition failure_report (msg : string) : report :=
  {| success := false;
     error := Some msg;
     total_processed := 0;
     total_failed := 0;
     r_total_chunks := 0;
     r_errors := None;
     r_processed_files := None;
     r_failed_files := None |}.

Definition index_all_documents : M state report :=
  match get_pdf_files with
  | inl e =>
      match Py.exn_cls e with
      | Py.FileNotFoundError => ret (failure_report (Py.exn_str e))
      | _ => raise e
      end
  | inr pdf_files =>
      match pdf_files with
      | [] => ret (failure_report "Nebyly nalezeny žádné PDF soubory")
      | _ =>
          batches <- lift_result (batches_of pdf_files) ;;
          tr <- for_each (index_body (List.length batches))
                  (enumerate batches 1)
                  {| tr_total_processed := 0;
                     tr_total_failed := 0;
                     tr_total_chunks := 0;
                     all_errors := [] |} ;;
          let success := (0 <? tr_total_processed tr)%nat in
          fun s =>
            (inr {| success := success;
                    error := None;
                    total_processed := tr_total_processed tr;
                    total_failed := tr_total_failed tr;
                    r_total_chunks := tr_total_chunks tr;
                    r_errors := Some (all_errors tr);
                    r_processed_files := Some (processed_files s);
                    r_failed_files := Some (failed_files s) |}, s)
      end
  end.

End WithServices.

End BatchIndexer.

(* ===================================================================== *)
(** * rag_engine.py                                                       *)
(* ===================================================================== *)

Module RAGEngine.

(** The values of the dictionary that [generate_response] returns. *)
Inductive field : Type :=
| FStr (s : string)
| FSources (l : list Py.dict)
| FInt (n : nat).

Definition response_dict : Type := list (string * field).

Definition keys (d : response_dict) : list string := map fst d.

Fixpoint lookup (k : string) (d : response_dict) : option field :=
  match d with
  | [] => None
  | (k', v) :: d' => if String.eqb k k' then Some v else lookup k d'
  end.

Definition no_match_message : string :=
  "Omlouvám se, ale nenašel jsem relevantní informace v dostupných dokumentech o transformativním přístupu ke konfliktům.".

Section WithServices.

(** [self.vector_db.similarity_search(query, k=top_k)] with the configured
    [top_k], which may raise. *)
Variable similarity_search : string -> result (list Document).

(** [self.system_prompt.format(context=context, query=query)]; the
    template has these two fields only. *)
Variable system_prompt_format : string -> string -> string.

(** [self.openai_client.chat.completions.create] on the system and the
    user message, giving the [message.content] of each of [choices]; it
    may raise. *)
Variable chat_completions_create : string -> string -> result (list string).

Definition search_relevant_documents (query : string) : list Document :=
  match similarity_search query with
  | inr results => results
  | inl _ => []
  end.

(** The loop over the documents found: the context, and the list
    [used_sources]. *)
Definition context_of (relevant_docs : list Document) : string :=
  let context_parts :=
    map (fun doc =>
           let metadata := doc_metadata doc in
           let title := Py.get_default "title" (Py.VStr "Neznámý") metadata in
           let author :=
             Py.get_default "author" (Py.VStr "Neznámý autor") metadata in
           "Zdroj: " ++ Py.str title ++ " (" ++ Py.str author ++ ")"
           ++ Py.LF ++ page_content doc)
        relevant_docs in
  Py.join (Py.LF ++ Py.LF ++ "---" ++ Py.LF ++ Py.LF) context_parts.

Definition used_sources_of (relevant_docs : list Document) : list Py.dict :=
  map doc_metadata relevant_docs.

Definition generate_response (query : string) : result response_dict :=
  rtry
    (let relevant_docs := search_relevant_documents query in
     match relevant_docs with
     | [] =>
         inr [ ("response", FStr no_match_message);
               ("sources", FSources []);
               ("citations", FStr "") ]
     | _ =>
         let context := context_of relevant_docs in
         let used_sources := used_sources_of relevant_docs in
         choices <~ chat_completions_create
                      (system_prompt_format context query) query ;;
         response_text <~
           match choices with
           | c :: _ => inr c
           | [] => inl (Py.Exn Py.IndexError "list index out of range")
           end ;;
         citations <~
           rtry (CitationGenerator.format_citations_for_response used_sources)
                (fun _ => inr "") ;;
         inr [ ("response", FStr response_text);
               ("sources", FSources used_sources);
               ("citations", FStr citations);
               ("num_sources", FInt (List.length used_sources)) ]
     end)
    (fun e =>
       inr [ ("response",
              FStr ("Chyba při generování odpovědi: " ++ Py.exn_str e));
             ("sources", FSources []);
             ("citations", FStr "") ]).

(** ** The outcome of the generation service for a query

    [generation query] is [None] when no document is found, and otherwise
    what the service answers: the text of its first choice, or the
    exception that the call or the access to that choice raises. *)
Definition generation (query : string) : option (result string) :=
  match search_relevant_documents query with
  | [] => None
  | docs =>
      Some (match chat_completions_create
                    (system_prompt_format (context_of docs) query) query with
            | inl e => inl e
            | inr [] => inl (Py.Exn Py.IndexError "list index out of range")
            | inr (c :: _) => inr c
            end)
  end.

End WithServices.

End RAGEngine.

(* ===================================================================== *)
(** * pdf_processor.py: reading and processing files                      *)
(* ===================================================================== *)

Module PDFFiles.

(** The line that [extract_text_from_pdf] puts before the text of a
    page. *)
Definition page_header (page_num : nat) : string :=
  Py.LF ++ "--- Stránka " ++ Py.str_of_nat (page_num + 1) ++ " ---" ++ Py.LF.

(** The body of the loop over the pages; [get_text] is what
    [page.get_text()] gives for the page, or the exception it raises. *)
Definition extract_text_body (text : string) (page : nat * result string)
  : result string :=
  let '(page_num, get_text) := page in
  page_text <~ get_text ;;
  if Py.nonempty (Py.strip page_text)
  then inr (text ++ page_header page_num ++ page_text)
  else inr text.

(** [extract_text_from_pdf]: [opened] is what [fitz.open] gives, the pages
    of the document or an exception. *)
Definition extract_text_from_pdf (opened : result (list (result string)))
  : string :=
  match rtry
          (pages <~ opened ;;
           text <~ rfor_each extract_text_body (enumerate pages 0) "" ;;
           inr (Py.strip text))
          (fun _ => inr "") with
  | inr text => text
  | inl _ => ""
  end.

Section WithReader.

Variable self : PDFProcessor.t.

(** The text of each path, as [extract_text_from_pdf] returns it. *)
Variable text_of : string -> string.

(** Whether [sources_dir] exists, and its [*.pdf] files. *)
Variable sources_dir_exists : bool.
Variable sources_dir_glob : list string.
Variable sources_dir_name : string.

Definition process_single_pdf (pdf_path : string)
  : M heap (list PDFProcessor.Chunk) :=
  let text := text_of pdf_path in
  if negb (Py.nonempty text) then ret []
  else
    let filename := PDFProcessor.basename pdf_path in
    metadata <- alloc (PDFProcessor.extract_metadata_from_filename filename) ;;
    setitem metadata "file_path" (Py.VStr pdf_path) ;;;
    PDFProcessor.chunk_text self text metadata.

Definition process_all_pdfs : M heap (list PDFProcessor.Chunk) :=
  if negb sources_dir_exists
  then raise (Py.Exn Py.FileNotFoundError
                ("Sources directory not found: " ++ sources_dir_name))
  else
    match sources_dir_glob with
    | [] => ret []
    | pdf_files =>
        for_each
          (fun all_chunks pdf_file =>
             try_except
               (chunks <- process_single_pdf pdf_file ;;
                ret (all_chunks ++ chunks)%list)
               (fun _ => ret all_chunks))
          pdf_files []
    end.

End WithReader.

End PDFFiles.

(* ===================================================================== *)
(** * app_cloud.py: the query endpoint                                    *)
(* ===================================================================== *)

Module App.

(** What the handler returns: the object given to [jsonify], and the
    status. *)
Definition reply : Type := (RAGEngine.response_dict * nat)%type.

(** [result[k]] *)
Definition item (k : string) (d : RAGEngine.response_dict)
  : result RAGEngine.field :=
  match RAGEngine.lookup k d with
  | Some v => inr v
  | None => inl (Py.Exn Py.KeyError ("'" ++ k ++ "'"))
  end.

(** [len(result.get('sources', []))] *)
Definition sources_len (d : RAGEngine.response_dict) : result nat :=
  match RAGEngine.lookup "sources" d with
  | None => inr 0
  | Some (RAGEngine.FSources l) => inr (List.length l)
  | Some (RAGEngine.FStr s) => inr (String.length s)
  | Some (RAGEngine.FInt _) =>
      inl (Py.Exn Py.OtherException "object of type 'int' has no len()")
  end.

Section WithEngine.

(** Whether [get_rag_engine] gives an engine, and its
    [generate_response]. *)
Variable engine_available : bool.
Variable generate_response : string -> result RAGEngine.response_dict.

(** The handler of [/api/query].  [data] is what [request.get_json()]
    gives: [None] for no JSON object, and otherwise the value of its key
    [query], if it has one. *)
Definition query (data : option (option string)) : reply :=
  match
    rtry
      (data <~ match data with
               | Some d => inr d
               | None =>
                   inl (Py.Exn Py.AttributeError
                          "'NoneType' object has no attribute 'get'")
               end ;;
       let query_text :=
         Py.strip (match data with Some q => q | None => "" end) in
       if negb (Py.nonempty query_text) then
         inr ([ ("error", RAGEngine.FStr "Prázdný dotaz");
                ("response",
                 RAGEngine.FStr
                   "Zadejte prosím dotaz o transformativním přístupu ke konfliktům.") ],
              400)
       else if negb engine_available then
         inr ([ ("error", RAGEngine.FStr "RAG engine není dostupný");
                ("response",
                 RAGEngine.FStr
                   "Systém není připraven. Zkontrolujte konfiguraci.") ],
              500)
       else
         result <~ generate_response query_text ;;
         response <~ item "response" result ;;
         sources <~ item "sources" result ;;
         citations <~ item "citations" result ;;
         n <~ sources_len result ;;
         let num_sources :=
           match RAGEngine.lookup "num_sources" result with
           | Some v => v
           | None => RAGEngine.FInt n
           end in
         inr ([ ("response", response);
                ("sources", sources);
                ("citations", citations);
                ("num_sources", num_sources) ],
              200))
      (fun e =>
         inr ([ ("error",
                 RAGEngine.FStr
                   ("Chyba při zpracování dotazu: " ++ Py.exn_str e));
                ("response",
                 RAGEngine.FStr
                   "Omlouvám se, ale došlo k chybě při zpracování vašeho dotazu.") ],
              500))
  with
  | inr r => r
  | inl _ => ([], 500)
  end.

End WithEngine.

End App.

(* ===================================================================== *)
(** * Inputs of the examples                                              *)
(* ===================================================================== *)

Module Examples.

Definition blank_line : string := Py.LF ++ Py.LF.

Definition metadata_a : Py.dict := [("filename", Py.VStr "a.pdf")].

(** Two paragraphs, a size of 10 and an overlap of 4: the overlap taken
    from the first buffer starts with a space. *)
Definition overlap_cfg : PDFProcessor.t :=
  {| PDFProcessor.chunk_size := 10; PDFProcessor.chunk_overlap := 4 |}.
Definition overlap_document : string := "abcde fgh" ++ blank_line ++ "xyz".
Definition overlap_chunk0 : PDFProcessor.Chunk :=
  {| PDFProcessor.c_id := "a.pdf_chunk_0";
     PDFProcessor.c_text := "abcde fgh";
     PDFProcessor.c_metadata := 1;
     PDFProcessor.c_chunk_index := 0 |}.
Definition overlap_chunk1 : PDFProcessor.Chunk :=
  {| PDFProcessor.c_id := "a.pdf_chunk_1";
     PDFProcessor.c_text := "fgh" ++ blank_line ++ "xyz";
     PDFProcessor.c_metadata := 2;
     PDFProcessor.c_chunk_index := 1 |}.

(** Two paragraphs of 6 characters, a size of 8 and an overlap of 3. *)
Definition size_cfg : PDFProcessor.t :=
  {| PDFProcessor.chunk_size := 8; PDFProcessor.chunk_overlap := 3 |}.
Definition size_document : string := "aaaaaa" ++ blank_line ++ "bbbbbb".
Definition size_chunk0 : PDFProcessor.Chunk :=
  {| PDFProcessor.c_id := "a.pdf_chunk_0";
     PDFProcessor.c_text := "aaaaaa";
     PDFProcessor.c_metadata := 1;
     PDFProcessor.c_chunk_index := 0 |}.
Definition size_chunk1 : PDFProcessor.Chunk :=
  {| PDFProcessor.c_id := "a.pdf_chunk_1";
     PDFProcessor.c_text := "aaa" ++ blank_line ++ "bbbbbb";
     PDFProcessor.c_metadata := 2;
     PDFProcessor.c_chunk_index := 1 |}.

(** Sources of citations. *)
Definition source_x1 : Py.dict :=
  [("filename", Py.VStr "X.pdf"); ("author", Py.VStr "Bush");
   ("title", Py.VStr "the_promise_of_mediation"); ("year", Py.VStr "2005")].
Definition source_x2 : Py.dict :=
  [("filename", Py.VStr "X.pdf"); ("chunk", Py.VStr "second")].
Definition source_bad_author : Py.dict :=
  [("filename", Py.VStr "Y.pdf"); ("author", Py.VInt 7)].

(** The metadata of the first two chunks of one file, with the keys and
    the integer [chunk_index] that [process_batch] stores. *)
Definition indexed_chunk0 : Py.dict :=
  [("id", Py.VStr "X.pdf_chunk_0"); ("filename", Py.VStr "X.pdf");
   ("author", Py.VStr "Bush"); ("title", Py.VStr "the promise of mediation");
   ("year", Py.VStr "2005"); ("chunk_index", Py.VInt 0)].
Definition indexed_chunk1 : Py.dict :=
  [("id", Py.VStr "X.pdf_chunk_1"); ("filename", Py.VStr "X.pdf");
   ("author", Py.VStr "Bush"); ("title", Py.VStr "the promise of mediation");
   ("year", Py.VStr "2005"); ("chunk_index", Py.VInt 1)].

(** A directory of seven files, one of them without text, and the
    configured sizes. *)
Definition seven_files : list string :=
  ["/pdf/a.pdf"; "/pdf/b.pdf"; "/pdf/c.pdf"; "/pdf/d.pdf"; "/pdf/e.pdf";
   "/pdf/f.pdf"; "/pdf/g.pdf"].
Definition configured : PDFProcessor.t :=
  {| PDFProcessor.chunk_size := 400; PDFProcessor.chunk_overlap := 100 |}.
Definition text_of_file (path : string) : string :=
  if String.eqb path "/pdf/c.pdf" then "" else "Conflict and recognition.".
Definition store_accepts (documents : list Document) : result unit := inr tt.
Definition fresh_indexer : BatchIndexer.state :=
  {| BatchIndexer.store := [];
     BatchIndexer.processed_files := [];
     BatchIndexer.failed_files := [] |}.

(** A vector store with one document, whose author is not a string, and a
    generation service that answers. *)
Definition search_one (query : string) : result (list Document) :=
  inr [ {| page_content := "Empowerment and recognition.";
           doc_metadata := source_bad_author |} ].
Definition prompt_of (context query : string) : string :=
  "Kontext: " ++ context ++ " Dotaz: " ++ query.
Definition service_answers (system user : string) : result (list string) :=
  inr ["Transformative mediation."].

End Examples.

(* ===================================================================== *)
(** * Further inputs of the examples                                      *)
(* ===================================================================== *)

Module MoreExamples.

(** An overlap of 0 with a size of 8. *)
Definition zero_overlap_cfg : PDFProcessor.t :=
  {| PDFProcessor.chunk_size := 8; PDFProcessor.chunk_overlap := 0 |}.
Definition accumulated_chunk0 : PDFProcessor.Chunk :=
  {| PDFProcessor.c_id := "a.pdf_chunk_0";
     PDFProcessor.c_text := "aaaaaa";
     PDFProcessor.c_metadata := 1;
     PDFProcessor.c_chunk_index := 0 |}.
Definition accumulated_chunk1 : PDFProcessor.Chunk :=
  {| PDFProcessor.c_id := "a.pdf_chunk_1";
     PDFProcessor.c_text := "aaaaaa" ++ Examples.blank_line ++ "bbbbbb";
     PDFProcessor.c_metadata := 2;
     PDFProcessor.c_chunk_index := 1 |}.

(** One paragraph, longer than the size of 8. *)
Definition long_paragraph : string := "  one paragraph and no blank line ".

(** A vector store that cannot be reached. *)
Definition search_fails (query : string) : result (list Document) :=
  inl (Py.Exn Py.OtherException "connection refused").

End MoreExamples.

(* ===================================================================== *)
(** * Vocabulary of the properties                                        *)
(* ===================================================================== *)

(** [blank s]: every character of [s] is whitespace. *)
Fixpoint blank (s : string) : bool :=
  match s with
  | EmptyString => true
  | String c s' => Py.isspace c && blank s'
  end.

(** [tight s]: [s] is not empty and does not end with whitespace. *)
Definition tight (s : string) : Prop :=
  Py.nonempty s = true /\ Py.rstrip s = s.

(** [trimmed s]: [s] is not empty and neither starts nor ends with
    whitespace, as a paragraph of [chunk_text] is. *)
Definition trimmed (s : string) : Prop :=
  tight s /\ Py.lstrip s = s.

(** [follows self b b']: the buffer [b'] starts with the overlap that
    [chunk_text] takes from [b], then a blank line. *)
Definition follows (self : PDFProcessor.t) (b b' : string) : Prop :=
  exists rest,
    b' = PDFProcessor.overlap_text self b ++ Py.LF ++ Py.LF ++ rest.

(** All the buffers of a run of the loop of [chunk_text], the last one
    included. *)
Definition bseq (self : PDFProcessor.t) (ps : list string) (cur : string)
  : list string :=
  (fst (PDFProcessor.buffers_loop self ps cur)
   ++ [snd (PDFProcessor.buffers_loop self ps cur)])%list.

(** [chain R l]: [R] relates each element of [l] to the next. *)
Fixpoint chain {A} (R : A -> A -> Prop) (l : list A) : Prop :=
  match l with
  | a :: (b :: _) as l' => R a b /\ chain R l'
  | _ => True
  end.

(** The length of the longest string of [l]. *)
Definition longest (l : list string) : nat :=
  fold_right (fun p n => Nat.max (String.length p) n) 0 l.

(** [occurs_in p s]: [p] is a run of consecutive characters of [s]. *)
Definition occurs_in (p s : string) : Prop :=
  exists before after, s = before ++ p ++ after.

(** ** Citations *)

(** [str_or_false v]: the value [v] of a key is missing, a string, or the
    integer 0, which a condition takes as false like the empty string.  Any
    other integer is true in a condition and has no method [split] or
    [replace]. *)
Definition str_or_false (v : option Py.value) : bool :=
  match v with
  | Some (Py.VInt z) => (z =? 0)%Z
  | _ => true
  end.

(** [citable source]: the author and the title of [source], where it has
    them, can be cleaned.  The other keys, [filename], [year] and
    [chunk_index] among them, may be missing or hold any value. *)
Definition citable (source : Py.dict) : bool :=
  str_or_false (Py.get "author" source)
  && str_or_false (Py.get "title" source).

(** [ascii_text s]: every character of [s] is in the ASCII range, where the
    case mapping and the whitespace of the embedding are those of Python. *)
Fixpoint ascii_text (s : string) : bool :=
  match s with
  | EmptyString => true
  | String c s' => (nat_of_ascii c <? 128)%nat && ascii_text s'
  end.

(** The filename that a source is known by, [Unknown] when it has none. *)
Definition filename_of (source : Py.dict) : Py.value :=
  Py.get_default "filename" (Py.VStr "Unknown") source.

(** The sources without those whose filename an earlier source has, in the
    order of the list; [seen] holds the filenames met so far. *)
Fixpoint first_seen_from (seen : list Py.value) (sources : list Py.dict)
  : list Py.dict :=
  match sources with
  | [] => []
  | source :: rest =>
      if existsb (Py.value_eqb (filename_of source)) seen
      then first_seen_from seen rest
      else source :: first_seen_from (seen ++ [filename_of source]) rest
  end.

Definition first_seen (sources : list Py.dict) : list Py.dict :=
  first_seen_from [] sources.

(** The lines [i. citation], numbered from [i] on. *)
Fixpoint numbered_from (i : nat) (citations : list string) : string :=
  match citations with
  | [] => ""
  | c :: rest =>
      Py.str_of_nat i ++ ". " ++ c ++ Py.LF ++ numbered_from (S i) rest
  end.

(** ** Batch indexing *)

(** [has_text extract f]: the text read from the file [f] is not blank. *)
Definition has_text (extract_text_from_pdf : string -> string) (f : string)
  : bool :=
  Py.nonempty (Py.strip (extract_text_from_pdf f)).

(** The metadata object that [extract_text_and_metadata] makes for a
    path. *)
Definition metadata_of_path (pdf_path : string) : Py.dict :=
  Py.set "file_path" (Py.VStr pdf_path)
    (PDFProcessor.extract_metadata_from_filename
       (PDFProcessor.basename pdf_path)).

(** The number of chunks that [chunk_text] makes of the text of [f]. *)
Definition chunk_count (pdf_processor : PDFProcessor.t)
  (extract_text_from_pdf : string -> string) (f : string) : nat :=
  List.length
    (PDFProcessor.chunk_buffers pdf_processor (extract_text_from_pdf f)).

(* ===================================================================== *)
(** * Facts about strings                                                 *)
(* ===================================================================== *)

Section StringFacts.

Lemma append_nil_r (a : string) : a ++ "" = a.
Proof. induction a as [|c a IH]; simpl; [reflexivity | now rewrite IH]. Qed.

Lemma append_assoc (a b c : string) : (a ++ b) ++ c = a ++ (b ++ c).
Proof. induction a as [|x a IH]; simpl; [reflexivity | now rewrite IH]. Qed.

Lemma length_append (a b : string) :
  String.length (a ++ b) = String.length a + String.length b.
Proof. induction a as [|x a IH]; simpl; [reflexivity | now rewrite IH]. Qed.

Lemma nonempty_false (s : string) : Py.nonempty s = false -> s = "".
Proof. destruct s; simpl; congruence. Qed.

Lemma nonempty_append_r (a b : string) :
  Py.nonempty b = true -> Py.nonempty (a ++ b) = true.
Proof. destruct a; simpl; auto. Qed.

Lemma blank_append (a b : string) : blank (a ++ b) = blank a && blank b.
Proof.
  induction a as [|c a IH]; simpl; [reflexivity|].
  now rewrite IH, andb_assoc.
Qed.

Lemma rstrip_empty_blank (s : string) : Py.rstrip s = "" <-> blank s = true.
Proof.
  induction s as [|c s IH]; simpl; [tauto|].
  destruct (Py.rstrip s) eqn:E.
  - destruct (Py.isspace c); simpl.
    + split; intros _; [now apply IH | reflexivity].
    + split; discriminate.
  - split; [discriminate|].
    intros H. apply andb_true_iff in H as [_ H].
    apply IH in H. discriminate.
Qed.

Lemma lstrip_empty_blank (s : string) : Py.lstrip s = "" <-> blank s = true.
Proof.
  induction s as [|c s IH]; simpl; [tauto|].
  destruct (Py.isspace c); simpl; [exact IH|].
  split; discriminate.
Qed.

Lemma lstrip_blank_append (a b : string) :
  blank a = true -> Py.lstrip (a ++ b) = Py.lstrip b.
Proof.
  induction a as [|c a IH]; simpl; [reflexivity|].
  intros H. apply andb_true_iff in H as [Hc Ha].
  rewrite Hc. now apply IH.
Qed.

Lemma lstrip_append (a b : string) :
  blank a = false -> Py.lstrip (a ++ b) = Py.lstrip a ++ b.
Proof.
  induction a as [|c a IH]; simpl; [discriminate|].
  destruct (Py.isspace c); simpl; [exact IH | reflexivity].
Qed.

Lemma lstrip_length (s : string) :
  String.length (Py.lstrip s) <= String.length s.
Proof.
  induction s as [|c s IH]; simpl; [lia|].
  destruct (Py.isspace c); simpl; lia.
Qed.

Lemma rstrip_length (s : string) :
  String.length (Py.rstrip s) <= String.length s.
Proof.
  induction s as [|c s IH]; simpl; [lia|].
  destruct (Py.rstrip s); [destruct (Py.isspace c)|]; simpl in *; lia.
Qed.

Lemma strip_length (s : string) :
  String.length (Py.strip s) <= String.length s.
Proof.
  unfold Py.strip.
  pose proof (lstrip_length (Py.rstrip s)). pose proof (rstrip_length s). lia.
Qed.

Lemma lstrip_idem (s : string) : Py.lstrip (Py.lstrip s) = Py.lstrip s.
Proof.
  induction s as [|c s IH]; simpl; [reflexivity|].
  destruct (Py.isspace c) eqn:E; [exact IH|].
  simpl. now rewrite E.
Qed.

Lemma rstrip_tail (c : ascii) (s : string) :
  Py.rstrip (String c s) = String c s -> Py.rstrip s = s.
Proof.
  simpl. destruct (Py.rstrip s) eqn:E.
  - destruct (Py.isspace c); [discriminate|]. now intros [= <-].
  - now intros [= <-].
Qed.

Lemma rstrip_lstrip_fixed (s : string) :
  Py.rstrip s = s -> Py.rstrip (Py.lstrip s) = Py.lstrip s.
Proof.
  induction s as [|c s IH]; [reflexivity|].
  intros H. cbn [Py.lstrip].
  destruct (Py.isspace c); [|exact H].
  apply IH. now apply rstrip_tail in H.
Qed.

Lemma rstrip_idem (s : string) : Py.rstrip (Py.rstrip s) = Py.rstrip s.
Proof.
  induction s as [|c s IH]; simpl; [reflexivity|].
  destruct (Py.rstrip s) eqn:E.
  - destruct (Py.isspace c) eqn:Ec; simpl; [reflexivity | now rewrite Ec].
  - cbn [Py.rstrip] in *. now rewrite IH.
Qed.

Lemma strip_tight (s : string) :
  Py.nonempty (Py.strip s) = true -> tight (Py.strip s).
Proof.
  intros H. split; [exact H|].
  unfold Py.strip. apply rstrip_lstrip_fixed, rstrip_idem.
Qed.

Lemma tight_not_blank (s : string) : tight s -> blank s = false.
Proof.
  intros [Hn Hr]. destruct (blank s) eqn:E; [|reflexivity].
  apply rstrip_empty_blank in E. rewrite E in Hr. subst s. discriminate.
Qed.

Lemma rstrip_append_tight (a b : string) :
  tight b -> Py.rstrip (a ++ b) = a ++ b.
Proof.
  intros [Hn Hr]. induction a as [|c a IH]; simpl; [exact Hr|].
  rewrite IH. destruct (a ++ b) eqn:E; [|reflexivity].
  destruct a; simpl in E; [subst b|]; discriminate.
Qed.

Lemma tight_append (a b : string) : tight b -> tight (a ++ b).
Proof.
  intros H. split.
  - apply nonempty_append_r, H.
  - now apply rstrip_append_tight.
Qed.

Lemma strip_of_tight (s : string) : tight s -> Py.strip s = Py.lstrip s.
Proof. intros [_ H]. unfold Py.strip. now rewrite H. Qed.

Lemma tight_strip_nonempty (s : string) :
  tight s -> Py.nonempty (Py.strip s) = true.
Proof.
  intros H. rewrite (strip_of_tight _ H).
  destruct (Py.lstrip s) eqn:E; [|reflexivity].
  apply lstrip_empty_blank in E. now rewrite (tight_not_blank _ H) in E.
Qed.

Lemma strip_nonempty_blank (s : string) :
  Py.nonempty (Py.strip s) = false <-> blank s = true.
Proof.
  unfold Py.strip. split.
  - intros H. apply nonempty_false in H.
    apply lstrip_empty_blank in H.
    destruct (blank s) eqn:E; [reflexivity|].
    assert (Ht : tight (Py.rstrip s)).
    { split; [|apply rstrip_idem].
      destruct (Py.rstrip s) eqn:E'; [|reflexivity].
      apply rstrip_empty_blank in E'. congruence. }
    now rewrite (tight_not_blank _ Ht) in H.
  - intros H. apply rstrip_empty_blank in H. now rewrite H.
Qed.

Lemma prefix_append (a b : string) : prefix a (a ++ b) = true.
Proof.
  induction a as [|c a IH]; simpl; [now destruct b|].
  destruct (ascii_dec c c); [exact IH | congruence].
Qed.

Lemma prefix_split (a s : string) :
  prefix a s = true -> s = a ++ Py.drop (String.length a) s.
Proof.
  revert s. induction a as [|c a IH]; intros s H; [reflexivity|].
  destruct s as [|d s]; simpl in H; [discriminate|].
  destruct (ascii_dec c d); [subst d | discriminate].
  simpl. f_equal. now apply IH.
Qed.

Lemma drop_length (n : nat) (s : string) :
  String.length (Py.drop n s) = String.length s - n.
Proof.
  revert s. induction n as [|n IH]; intros [|c s]; simpl; auto with arith.
Qed.

Lemma drop_append_length (a b : string) :
  Py.drop (String.length a) (a ++ b) = b.
Proof. induction a as [|c a IH]; simpl; [reflexivity | exact IH]. Qed.

Lemma drop_suffix (n : nat) (s : string) :
  exists a, s = a ++ Py.drop n s /\ String.length a = Nat.min n (String.length s).
Proof.
  revert s. induction n as [|n IH]; intros s.
  - exists "". destruct s; simpl; auto.
  - destruct s as [|c s]; [exists ""; simpl; auto|].
    destruct (IH s) as (a & E & L).
    exists (String c a). simpl. split; [now rewrite <- E | now rewrite L].
Qed.

Lemma tight_drop (n : nat) (s : string) :
  tight s -> n < String.length s -> tight (Py.drop n s).
Proof.
  revert s. induction n as [|n IH]; intros s H Hn.
  - destruct s; exact H.
  - destruct s as [|c s]; simpl in *; [lia|].
    apply IH; [|lia].
    destruct H as [_ H]. split; [destruct s; simpl in *; [lia | reflexivity]|].
    now apply rstrip_tail in H.
Qed.

End StringFacts.

(* ===================================================================== *)
(** * What a run of [chunk_text] returns and leaves in the store          *)
(* ===================================================================== *)

Section ChunkTextRun.

Import PDFProcessor.

Variable self : PDFProcessor.t.
Variable metadata : loc.

Lemma key_in_store (k : string) (l : loc) (h : heap) (v : Py.value) :
  Py.get k (nth l h []) = Some v -> l < List.length h.
Proof.
  intros H. destruct (Nat.lt_ge_cases l (List.length h)) as [|Hge]; [assumption|].
  rewrite (nth_overflow h [] Hge) in H. discriminate.
Qed.

Lemma nth_store_grows (l : loc) (h extra : heap) :
  l < List.length h -> nth l (h ++ extra)%list [] = nth l h [].
Proof. intros H. now apply app_nth1. Qed.

Lemma new_chunk_ok (h : heap) (fn : Py.value) (cur : string) (i : nat) :
  Py.get "filename" (nth metadata h []) = Some fn ->
  new_chunk metadata cur i h =
  (inr {| c_id := Py.str fn ++ "_chunk_" ++ Py.str_of_nat i;
          c_text := Py.strip cur;
          c_metadata := List.length h;
          c_chunk_index := i |},
   (h ++ [nth metadata h []])%list).
Proof.
  intros H. unfold new_chunk, getitem, dict_copy, deref, alloc, bind, ret.
  now rewrite H.
Qed.

Lemma new_chunk_raises (h : heap) (cur : string) (i : nat) :
  Py.get "filename" (nth metadata h []) = None ->
  new_chunk metadata cur i h = (inl (Py.Exn Py.KeyError "'filename'"), h).
Proof.
  intros H. unfold new_chunk, getitem, dict_copy, deref, alloc, bind, ret, raise.
  now rewrite H.
Qed.

Lemma chunks_of_buffers_app (fn : Py.value) (a b : list string) :
  forall l i,
    chunks_of_buffers fn l i (a ++ b) =
    (chunks_of_buffers fn l i a
     ++ chunks_of_buffers fn (l + List.length a) (i + List.length a) b)%list.
Proof.
  induction a as [|x a IH]; intros l i; simpl.
  - now rewrite !Nat.add_0_r.
  - rewrite IH. now rewrite !Nat.add_succ_r.
Qed.

Lemma chunks_of_buffers_length (fn : Py.value) (bufs : list string) :
  forall l i, List.length (chunks_of_buffers fn l i bufs) = List.length bufs.
Proof. induction bufs as [|b bufs IH]; intros l i; simpl; [|rewrite IH]; reflexivity. Qed.

Lemma chunks_of_buffers_nth (fn : Py.value) (bufs : list string) :
  forall l i n c,
    nth_error (chunks_of_buffers fn l i bufs) n = Some c ->
    exists b,
      nth_error bufs n = Some b /\
      c = {| c_id := Py.str fn ++ "_chunk_" ++ Py.str_of_nat (i + n);
             c_text := Py.strip b;
             c_metadata := l + n;
             c_chunk_index := i + n |}.
Proof.
  induction bufs as [|b bufs IH]; intros l i [|n] c H; simpl in H; try discriminate.
  - injection H as <-. exists b. now rewrite !Nat.add_0_r.
  - apply IH in H as (b' & Hb & ->). exists b'. split; [exact Hb|].
    now rewrite !Nat.add_succ_r.
Qed.

Lemma loop_ok (fn : Py.value) (ps : list string) :
  forall (v : loop_vars) (h : heap),
    Py.get "filename" (nth metadata h []) = Some fn ->
    for_each (chunk_text_body self metadata) ps v h =
    (inr {| chunks :=
              (chunks v
               ++ chunks_of_buffers fn (List.length h) (chunk_id v)
                    (fst (buffers_loop self ps (current_chunk v))))%list;
            current_chunk := snd (buffers_loop self ps (current_chunk v));
            chunk_id :=
              chunk_id v
              + List.length (fst (buffers_loop self ps (current_chunk v))) |},
     (h ++ repeat (nth metadata h [])
             (List.length (fst (buffers_loop self ps (current_chunk v)))))%list).
Proof.
  induction ps as [|p ps IH]; intros v h Hfn.
  - cbn [for_each buffers_loop fst snd List.length repeat chunks_of_buffers].
    unfold ret. rewrite !app_nil_r, Nat.add_0_r. now destruct v.
  - cbn [for_each buffers_loop]. unfold bind at 1.
    unfold chunk_text_body.
    destruct ((_ >? _)%Z && _)%bool.
    + unfold bind at 1. rewrite (new_chunk_ok _ fn _ _ Hfn). unfold ret at 1.
      pose proof (key_in_store _ _ _ _ Hfn) as Hlt.
      rewrite IH by (rewrite nth_store_grows; assumption).
      cbn [chunks current_chunk chunk_id].
      rewrite nth_store_grows by assumption.
      destruct (buffers_loop self ps _) as [closed final].
      cbn [fst snd List.length repeat chunks_of_buffers].
      rewrite length_app. cbn [List.length].
      rewrite <- !app_assoc. cbn [app].
      now rewrite Nat.add_1_r, Nat.add_succ_r.
    + unfold ret at 1. rewrite IH by assumption. reflexivity.
Qed.

Lemma loop_raises (ps : list string) :
  forall (v : loop_vars) (h : heap),
    Py.get "filename" (nth metadata h []) = None ->
    for_each (chunk_text_body self metadata) ps v h =
    match fst (buffers_loop self ps (current_chunk v)) with
    | [] =>
        (inr {| chunks := chunks v;
                current_chunk := snd (buffers_loop self ps (current_chunk v));
                chunk_id := chunk_id v |}, h)
    | _ :: _ => (inl (Py.Exn Py.KeyError "'filename'"), h)
    end.
Proof.
  induction ps as [|p ps IH]; intros v h Hfn.
  - cbn [for_each buffers_loop fst snd]. unfold ret. now destruct v.
  - cbn [for_each buffers_loop]. unfold bind at 1.
    unfold chunk_text_body.
    destruct ((_ >? _)%Z && _)%bool.
    + unfold bind at 1. rewrite (new_chunk_raises _ _ _ Hfn).
      now destruct (buffers_loop self ps _).
    + unfold ret at 1. rewrite IH by assumption. reflexivity.
Qed.

(** With a [filename] in the metadata, [chunk_text] returns the chunks of
    the buffers, and leaves one new copy of the metadata for each. *)
Lemma chunk_text_ok (text : string) (h : heap) (fn : Py.value) :
  Py.get "filename" (nth metadata h []) = Some fn ->
  chunk_text self text metadata h =
  (inr (chunks_of_buffers fn (List.length h) 0 (chunk_buffers self text)),
   (h ++ repeat (nth metadata h []) (List.length (chunk_buffers self text)))%list).
Proof.
  intros Hfn. unfold chunk_text, chunk_buffers.
  destruct (Py.nonempty (Py.strip text)); cbn [negb].
  - unfold bind at 1. rewrite (loop_ok fn) by assumption.
    cbn [chunks current_chunk chunk_id app].
    pose proof (key_in_store _ _ _ _ Hfn) as Hlt.
    destruct (buffers_loop self (paragraphs_of text) "") as [closed final].
    cbn [fst snd].
    destruct (Py.nonempty (Py.strip final)); [|reflexivity].
    unfold bind at 1.
    rewrite (new_chunk_ok _ fn) by (rewrite nth_store_grows; assumption).
    unfold ret. rewrite nth_store_grows by assumption.
    rewrite chunks_of_buffers_app. cbn [chunks_of_buffers].
    rewrite !length_app, repeat_length. cbn [List.length].
    rewrite repeat_app, app_assoc. reflexivity.
  - unfold ret. cbn. now rewrite app_nil_r.
Qed.

(** Without one, it raises as soon as it has a chunk to emit, before it
    touches the store. *)
Lemma chunk_text_raises (text : string) (h : heap) :
  Py.get "filename" (nth metadata h []) = None ->
  chunk_text self text metadata h =
  match chunk_buffers self text with
  | [] => (inr [], h)
  | _ :: _ => (inl (Py.Exn Py.KeyError "'filename'"), h)
  end.
Proof.
  intros Hfn. unfold chunk_text, chunk_buffers.
  destruct (Py.nonempty (Py.strip text)); cbn [negb]; [|reflexivity].
  unfold bind at 1. rewrite loop_raises by assumption.
  cbn [chunks current_chunk chunk_id].
  destruct (buffers_loop self (paragraphs_of text) "") as [closed final].
  cbn [fst snd].
  destruct closed as [|b closed]; [|now destruct (Py.nonempty (Py.strip final))].
  cbn [chunks current_chunk chunk_id app].
  destruct (Py.nonempty (Py.strip final)); [|reflexivity].
  unfold bind at 1. now rewrite new_chunk_raises.
Qed.

End ChunkTextRun.

(* ===================================================================== *)
(** * The paragraphs and the buffers of [chunk_text]                      *)
(* ===================================================================== *)

Section Buffers.

Import PDFProcessor.

Lemma split_aux_all_blank (sep : string) :
  Py.nonempty sep = true -> blank sep = true ->
  forall s cur skip,
    Forall (fun p => blank p = true) (Py.split_aux sep s cur skip) ->
    blank cur = true /\ blank (Py.drop skip s) = true.
Proof.
  intros Hne Hsep. induction s as [|c s IH]; intros cur skip H.
  - cbn [Py.split_aux] in H. inversion H; subst. now destruct skip.
  - cbn [Py.split_aux] in H. destruct skip as [|k].
    + destruct (prefix sep (String c s)) eqn:E.
      * inversion H as [|? ? Hcur Hrest]; subst. split; [exact Hcur|].
        apply IH in Hrest as [_ Hrest].
        apply prefix_split in E.
        destruct sep as [|c0 sep']; [discriminate|].
        replace (String.length (String c0 sep') - 1)
          with (String.length sep') in Hrest by (simpl; lia).
        cbn [String.length Py.drop] in E.
        cbn [Py.drop]. rewrite E, blank_append, Hsep. exact Hrest.
      * apply IH in H as [Hcur Hs]. rewrite blank_append in Hcur.
        apply andb_true_iff in Hcur as [Hcur Hc].
        split; [exact Hcur|].
        cbn [Py.drop] in *. simpl in Hc. simpl.
        rewrite andb_true_r in Hc. rewrite Hc. now destruct s.
    + apply IH in H. exact H.
Qed.

Lemma filter_nil_all {A} (f : A -> bool) (l : list A) :
  filter f l = [] -> Forall (fun x => f x = false) l.
Proof.
  induction l as [|x l IH]; simpl; [constructor|].
  destruct (f x) eqn:E; [discriminate|]. intros H. constructor; auto.
Qed.

Lemma paragraphs_nonempty (text : string) :
  blank text = false -> paragraphs_of text <> [].
Proof.
  intros Hb Hnil. unfold paragraphs_of in Hnil.
  apply map_eq_nil in Hnil. apply filter_nil_all in Hnil.
  assert (H : Forall (fun p => blank p = true) (Py.split (Py.LF ++ Py.LF) text)).
  { eapply Forall_impl; [|exact Hnil]. intros p Hp. now apply strip_nonempty_blank. }
  apply split_aux_all_blank in H as [_ H]; [|reflexivity|reflexivity].
  assert (Py.drop 0 text = text) as E by now destruct text.
  congruence.
Qed.

Lemma paragraphs_trimmed (text : string) :
  Forall trimmed (paragraphs_of text).
Proof.
  apply Forall_forall. intros p Hp. unfold paragraphs_of in Hp.
  apply in_map_iff in Hp as (q & <- & Hq).
  apply filter_In in Hq as [_ Hq].
  split; [now apply strip_tight | apply lstrip_idem].
Qed.

Variable self : PDFProcessor.t.

Lemma bseq_nil (cur : string) : bseq self [] cur = [cur].
Proof. reflexivity. Qed.

Lemma bseq_close (p : string) (ps : list string) (cur : string) :
  ((Z.of_nat (String.length cur) + Z.of_nat (String.length p)
    >? chunk_size self)%Z && Py.nonempty cur)%bool = true ->
  bseq self (p :: ps) cur =
  cur :: bseq self ps (overlap_text self cur ++ Py.LF ++ Py.LF ++ p).
Proof.
  intros H. unfold bseq. cbn [buffers_loop]. rewrite H.
  now destruct (buffers_loop self ps _).
Qed.

Lemma bseq_extend (p : string) (ps : list string) (cur : string) :
  ((Z.of_nat (String.length cur) + Z.of_nat (String.length p)
    >? chunk_size self)%Z && Py.nonempty cur)%bool = false ->
  bseq self (p :: ps) cur =
  bseq self ps (if Py.nonempty cur then cur ++ Py.LF ++ Py.LF ++ p else p).
Proof. intros H. unfold bseq. cbn [buffers_loop]. now rewrite H. Qed.

Lemma bseq_cons (ps : list string) (cur : string) :
  exists b t, bseq self ps cur = b :: t.
Proof.
  unfold bseq. destruct (fst (buffers_loop self ps cur)); cbn; eauto.
Qed.

Lemma tight_after_blank_line (a p : string) :
  tight p -> tight (a ++ Py.LF ++ Py.LF ++ p).
Proof. intros H. now repeat apply tight_append. Qed.

(** The buffers are tight, each starts with the overlap taken from the one
    before it, the first one starts with the buffer the loop started with,
    and every paragraph stands whole in one of them. *)
Lemma bseq_props (ps : list string) :
  forall cur,
    Forall trimmed ps -> tight cur ->
    Forall tight (bseq self ps cur)
    /\ chain (follows self) (bseq self ps cur)
    /\ (exists rest, hd "" (bseq self ps cur) = cur ++ rest)
    /\ (forall p, In p ps -> exists b, In b (bseq self ps cur) /\ occurs_in p b).
Proof.
  induction ps as [|p ps IH]; intros cur Hps Hcur.
  - rewrite bseq_nil. repeat split.
    + now constructor.
    + exists "". cbn. now rewrite append_nil_r.
    + intros p [].
  - inversion Hps as [|? ? Hp Hps']; subst.
    destruct ((Z.of_nat (String.length cur) + Z.of_nat (String.length p)
               >? chunk_size self)%Z && Py.nonempty cur)%bool eqn:Hc.
    + rewrite (bseq_close _ _ _ Hc).
      destruct (IH (overlap_text self cur ++ Py.LF ++ Py.LF ++ p) Hps')
        as (Ht & Hch & (rest & Hhd) & Hcov).
      { apply tight_after_blank_line, Hp. }
      destruct (bseq_cons ps (overlap_text self cur ++ Py.LF ++ Py.LF ++ p))
        as (b & t & E).
      rewrite E in *. cbn [hd] in Hhd. repeat split.
      * now constructor.
      * exists (p ++ rest). rewrite Hhd. now rewrite !append_assoc.
      * exact Hch.
      * exists "". cbn [hd]. now rewrite append_nil_r.
      * intros q [<- | Hq].
        -- exists b. split; [right; now left|].
           exists (overlap_text self cur ++ Py.LF ++ Py.LF), rest.
           rewrite Hhd. now rewrite !append_assoc.
        -- destruct (Hcov q Hq) as (b' & Hin & Hocc).
           exists b'. split; [now right | exact Hocc].
    + rewrite (bseq_extend _ _ _ Hc).
      destruct Hcur as [Hne Hr]. rewrite Hne.
      destruct (IH (cur ++ Py.LF ++ Py.LF ++ p) Hps')
        as (Ht & Hch & (rest & Hhd) & Hcov).
      { apply tight_after_blank_line, Hp. }
      repeat split; try assumption.
      * exists (Py.LF ++ Py.LF ++ p ++ rest). rewrite Hhd.
        now rewrite !append_assoc.
      * intros q [<- | Hq]; [|now apply Hcov].
        destruct (bseq_cons ps (cur ++ Py.LF ++ Py.LF ++ p)) as (b & t & E).
        rewrite E in *. cbn [hd] in Hhd.
        exists b. split; [now left|].
        exists (cur ++ Py.LF ++ Py.LF), rest.
        rewrite Hhd. now rewrite !append_assoc.
Qed.

(** The buffers behind the chunks of a text that is not blank: the loop
    run from the first paragraph. *)
Lemma chunk_buffers_bseq (text : string) :
  blank text = false ->
  exists p ps,
    paragraphs_of text = p :: ps /\ chunk_buffers self text = bseq self ps p.
Proof.
  intros Hb. pose proof (paragraphs_nonempty _ Hb) as Hne.
  pose proof (paragraphs_trimmed text) as Htr.
  destruct (paragraphs_of text) as [|p ps] eqn:E; [congruence|].
  exists p, ps. split; [reflexivity|].
  inversion Htr as [|? ? [Hp _] Hps]; subst.
  unfold chunk_buffers. rewrite E.
  destruct (Py.nonempty (Py.strip text)) eqn:Hs.
  2:{ apply strip_nonempty_blank in Hs. congruence. }
  cbn [negb buffers_loop Py.nonempty]. rewrite andb_false_r.
  destruct (bseq_props ps p Hps Hp) as (Ht & _).
  unfold bseq in *.
  destruct (buffers_loop self ps p) as [closed final]. cbn [fst snd] in *.
  apply Forall_app in Ht as [_ Ht]. inversion Ht; subst.
  now rewrite tight_strip_nonempty.
Qed.

Lemma chunk_buffers_blank (text : string) :
  blank text = true -> chunk_buffers self text = [].
Proof.
  intros Hb. unfold chunk_buffers.
  apply strip_nonempty_blank in Hb. now rewrite Hb.
Qed.

Lemma chunk_buffers_nonempty (text : string) :
  blank text = false -> chunk_buffers self text <> [].
Proof.
  intros Hb. destruct (chunk_buffers_bseq _ Hb) as (p & ps & _ & ->).
  destruct (bseq_cons ps p) as (b & t & ->). discriminate.
Qed.

Lemma chain_nth {A} (R : A -> A -> Prop) (l : list A) :
  chain R l ->
  forall i a b, nth_error l i = Some a -> nth_error l (S i) = Some b -> R a b.
Proof.
  induction l as [|x l IH]; intros Hch i a b Ha Hb; [now destruct i|].
  destruct l as [|y l]; [now destruct i|].
  destruct Hch as [Hxy Hch].
  destruct i as [|i]; cbn in Ha, Hb.
  - congruence.
  - eapply IH; eauto.
Qed.

(** ** The overlap *)

Lemma overlap_text_last_chars (cur : string) :
  (1 <= chunk_overlap self)%Z ->
  overlap_text self cur = last_chars (Z.to_nat (chunk_overlap self)) cur.
Proof.
  intros Ho. unfold overlap_text, last_chars, Py.slice_from.
  destruct (Z.gtb_spec (Z.of_nat (String.length cur)) (chunk_overlap self)).
  - destruct (Z.ltb_spec (- chunk_overlap self) 0); [|lia].
    f_equal. lia.
  - replace (String.length cur - Z.to_nat (chunk_overlap self)) with 0 by lia.
    now destruct cur.
Qed.

Lemma last_chars_length (n : nat) (s : string) :
  String.length (last_chars n s) <= n.
Proof. unfold last_chars. rewrite drop_length. lia. Qed.

Lemma last_chars_tight (n : nat) (s : string) :
  0 < n -> tight s -> tight (last_chars n s).
Proof.
  intros Hn Hs. unfold last_chars. apply tight_drop; [exact Hs|].
  destruct Hs as [Hne _]. destruct s; [discriminate|].
  cbn [String.length]. lia.
Qed.

(** ** The length of a buffer *)

Lemma longest_ge (l : list string) (p : string) :
  In p l -> String.length p <= longest l.
Proof.
  induction l as [|x l IH]; intros []; subst; simpl; [lia|].
  specialize (IH H). lia.
Qed.

Lemma LF_length : String.length Py.LF = 1.
Proof. reflexivity. Qed.

Lemma bseq_bound (L : Z) (ps : list string) :
  (1 <= chunk_overlap self)%Z ->
  forall cur,
    Forall (fun p => (Z.of_nat (String.length p) <= L)%Z) ps ->
    (Z.of_nat (String.length cur)
     <= Z.max (chunk_size self) (chunk_overlap self + L) + 2)%Z ->
    Forall (fun b => (Z.of_nat (String.length b)
                      <= Z.max (chunk_size self) (chunk_overlap self + L) + 2)%Z)
      (bseq self ps cur).
Proof.
  intros Ho. induction ps as [|p ps IH]; intros cur Hps Hlen.
  - rewrite bseq_nil. now constructor.
  - inversion Hps as [|? ? Hp Hps']; subst.
    destruct ((Z.of_nat (String.length cur) + Z.of_nat (String.length p)
               >? chunk_size self)%Z && Py.nonempty cur)%bool eqn:Hc.
    + rewrite (bseq_close _ _ _ Hc). constructor; [exact Hlen|].
      apply IH; [exact Hps'|].
      rewrite !length_append, LF_length, overlap_text_last_chars by exact Ho.
      pose proof (last_chars_length (Z.to_nat (chunk_overlap self)) cur). lia.
    + rewrite (bseq_extend _ _ _ Hc).
      apply IH; [exact Hps'|].
      destruct (Py.nonempty cur); [|lia].
      rewrite andb_true_r in Hc.
      rewrite !length_append, LF_length.
      destruct (Z.gtb_spec (Z.of_nat (String.length cur)
                            + Z.of_nat (String.length p)) (chunk_size self));
        [discriminate | lia].
Qed.

End Buffers.

(* ===================================================================== *)
(** * Properties of [PDFProcessor.chunk_text]                             *)
(* ===================================================================== *)

Section ChunkTextProperties.

Import PDFProcessor.

Lemma split_aux_blank_pieces (sep : string) :
  forall s cur skip,
    blank s = true -> blank cur = true ->
    Forall (fun p => blank p = true) (Py.split_aux sep s cur skip).
Proof.
  induction s as [|c s IH]; intros cur skip Hs Hcur; cbn [Py.split_aux].
  - now constructor.
  - cbn [blank] in Hs. apply andb_true_iff in Hs as [Hc Hs].
    destruct skip; [|now apply IH].
    destruct (prefix sep (String c s)).
    + constructor; [exact Hcur | now apply IH].
    + apply IH; [exact Hs|].
      rewrite blank_append, Hcur. cbn. now rewrite Hc.
Qed.

Lemma paragraphs_blank (text : string) :
  blank text = true -> paragraphs_of text = [].
Proof.
  intros Hb. unfold paragraphs_of, Py.split.
  pose proof (split_aux_blank_pieces (Py.LF ++ Py.LF) text "" 0 Hb eq_refl) as H.
  induction H as [|p l Hp _ IH]; [reflexivity|].
  cbn [filter]. apply strip_nonempty_blank in Hp. now rewrite Hp.
Qed.

Lemma chunks_of_buffers_indices (fn : Py.value) (bufs : list string) :
  forall l i,
    map c_chunk_index (chunks_of_buffers fn l i bufs) = seq i (List.length bufs).
Proof.
  induction bufs as [|b bufs IH]; intros l i; cbn; [reflexivity|].
  now rewrite IH.
Qed.

Lemma chunks_of_buffers_in (fn : Py.value) (bufs : list string) (b : string) :
  forall l i,
    In b bufs ->
    exists c, In c (chunks_of_buffers fn l i bufs) /\ c_text c = Py.strip b.
Proof.
  induction bufs as [|x bufs IH]; intros l i []; subst; cbn [chunks_of_buffers].
  - eexists. split; [now left | reflexivity].
  - destruct (IH (S l) (S i) H) as (c & Hc & E). exists c. split; [now right | exact E].
Qed.

Lemma occurs_in_strip (p b : string) :
  trimmed p -> tight b -> occurs_in p b -> occurs_in p (Py.strip b).
Proof.
  intros [Hp Hl] Hb (x & y & ->). rewrite (strip_of_tight _ Hb).
  destruct (blank x) eqn:Hx.
  - rewrite lstrip_blank_append by exact Hx.
    rewrite lstrip_append by now apply tight_not_blank.
    rewrite Hl. now exists "", y.
  - rewrite lstrip_append by exact Hx. now exists (Py.lstrip x), y.
Qed.

(** What a successful run returns, whatever the metadata holds. *)
Lemma chunk_text_returns (self : t) (text : string) (metadata : loc)
  (h : heap) (chunks : list Chunk) (h' : heap) :
  chunk_text self text metadata h = (inr chunks, h') ->
  (exists fn,
     Py.get "filename" (nth metadata h []) = Some fn
     /\ chunks = chunks_of_buffers fn (List.length h) 0 (chunk_buffers self text)
     /\ h' = (h ++ repeat (nth metadata h [])
                     (List.length (chunk_buffers self text)))%list)
  \/ (blank text = true /\ chunks = [] /\ h' = h).
Proof.
  intros H. destruct (Py.get "filename" (nth metadata h [])) as [fn|] eqn:Hfn.
  - left. exists fn. rewrite (chunk_text_ok _ _ _ _ _ Hfn) in H.
    injection H as <- <-. auto.
  - right. rewrite (chunk_text_raises _ _ _ _ Hfn) in H.
    destruct (blank text) eqn:Hb.
    + rewrite chunk_buffers_blank in H by exact Hb. injection H as <- <-. auto.
    + pose proof (chunk_buffers_nonempty self _ Hb).
      destruct (chunk_buffers self text); [congruence | discriminate].
Qed.

(** C1, as amended: the text of every chunk after the first starts with
    the last [chunk_overlap] characters of the buffer behind the chunk
    before it (all of that buffer when it is shorter, none for an overlap
    below 1), less the whitespace that these characters start with: the
    text of a chunk is its buffer stripped. *)
Theorem chunk_text_overlap_prefix (self : t) (text : string) (metadata : loc)
  (h : heap) (chunks : list Chunk) (h' : heap) :
  chunk_text self text metadata h = (inr chunks, h') ->
  forall i c d,
    nth_error chunks i = Some c ->
    nth_error chunks (S i) = Some d ->
    exists buf,
      nth_error (chunk_buffers self text) i = Some buf
      /\ c_text c = Py.strip buf
      /\ prefix
           (Py.lstrip (last_chars (Z.to_nat (chunk_overlap self)) buf))
           (c_text d) = true.
Proof.
  intros Hrun i c d Hc Hd.
  apply chunk_text_returns in Hrun as [(fn & _ & -> & _) | (_ & -> & _)];
    [|now destruct i].
  apply chunks_of_buffers_nth in Hc as (b & Hb & ->).
  apply chunks_of_buffers_nth in Hd as (b' & Hb' & ->).
  exists b. cbn [c_text]. repeat split; [exact Hb|].
  destruct (Z.le_gt_cases 1 (chunk_overlap self)) as [Ho|Ho].
  2:{ replace (Z.to_nat (chunk_overlap self)) with 0 by lia.
      unfold last_chars. rewrite Nat.sub_0_r.
      replace (Py.drop (String.length b) b) with ""
        by (clear; induction b; cbn; auto).
      cbn. now destruct (Py.strip b'). }
  destruct (blank text) eqn:Hblank.
  { rewrite chunk_buffers_blank in Hb by exact Hblank. now destruct i. }
  destruct (chunk_buffers_bseq self _ Hblank) as (p & ps & Hps & E).
  rewrite E in Hb, Hb'.
  pose proof (paragraphs_trimmed text) as Htr. rewrite Hps in Htr.
  inversion Htr as [|? ? [Hp _] Hps']; subst.
  destruct (bseq_props self ps p Hps' Hp) as (Ht & Hch & _).
  destruct (chain_nth _ _ Hch _ _ _ Hb Hb') as (rest & ->).
  rewrite Forall_forall in Ht.
  pose proof (Ht _ (nth_error_In _ _ Hb)) as Htb.
  pose proof (Ht _ (nth_error_In _ _ Hb')) as Htb'.
  rewrite (strip_of_tight _ Htb').
  rewrite overlap_text_last_chars in * by exact Ho.
  rewrite lstrip_append.
  - apply prefix_append.
  - apply tight_not_blank, last_chars_tight; [lia | exact Htb].
Qed.

(** C2, as amended: when [chunk_text] runs with an overlap of at least one
    character, the text of every chunk is at most
    [max chunk_size (chunk_overlap + L) + 2] characters long, [L] being the
    length of the longest paragraph of the text; and every paragraph
    stands whole in the text of some chunk. *)
Theorem chunk_text_length_bound (self : t) (text : string) (metadata : loc)
  (h : heap) (chunks : list Chunk) (h' : heap) :
  (1 <= chunk_overlap self)%Z ->
  chunk_text self text metadata h = (inr chunks, h') ->
  (forall c,
     In c chunks ->
     (Z.of_nat (String.length (c_text c))
      <= Z.max (chunk_size self)
           (chunk_overlap self + Z.of_nat (longest (paragraphs_of text))) + 2)%Z)
  /\ (forall p,
        In p (paragraphs_of text) ->
        exists c, In c chunks /\ occurs_in p (c_text c)).
Proof.
  intros Ho Hrun.
  destruct (blank text) eqn:Hblank.
  { rewrite (paragraphs_blank _ Hblank).
    apply chunk_text_returns in Hrun as [(fn & _ & -> & _) | (_ & -> & _)].
    - rewrite chunk_buffers_blank by exact Hblank. split; intros ? [].
    - split; intros ? []. }
  apply chunk_text_returns in Hrun as [(fn & _ & -> & _) | (Hb & _)];
    [|congruence].
  destruct (chunk_buffers_bseq self _ Hblank) as (p0 & ps & Hps & E).
  rewrite E, Hps.
  pose proof (paragraphs_trimmed text) as Htr. rewrite Hps in Htr.
  inversion Htr as [|? ? Hp0 Hps']; subst.
  destruct (bseq_props self ps p0 Hps' (proj1 Hp0))
    as (Ht & _ & (rest & Hhd) & Hcov).
  rewrite Forall_forall in Ht.
  split.
  - intros c Hc. apply In_nth_error in Hc as (n & Hn).
    apply chunks_of_buffers_nth in Hn as (b & Hb & ->). cbn [c_text].
    assert (Hall : Forall (fun q => (Z.of_nat (String.length q)
                     <= Z.of_nat (longest (p0 :: ps)))%Z) (p0 :: ps)).
    { apply Forall_forall. intros q Hq. apply longest_ge in Hq. lia. }
    inversion Hall as [|? ? H0 Hrest]; subst.
    pose proof (bseq_bound self _ ps Ho p0 Hrest) as Hbound.
    rewrite Forall_forall in Hbound.
    specialize (Hbound ltac:(lia) b (nth_error_In _ _ Hb)).
    pose proof (strip_length b). lia.
  - intros p Hp.
    assert (Hb : exists b, In b (bseq self ps p0) /\ occurs_in p b).
    { destruct Hp as [<- | Hp]; [|now apply Hcov].
      destruct (bseq_cons self ps p0) as (b & t & Eb).
      rewrite Eb in *. cbn [hd] in Hhd.
      exists b. split; [now left|]. now exists "", rest. }
    destruct Hb as (b & Hin & Hocc).
    destruct (chunks_of_buffers_in fn _ b (List.length h) 0 Hin) as (c & Hc & Etxt).
    exists c. split; [exact Hc|]. rewrite Etxt.
    apply occurs_in_strip; [|now apply Ht|exact Hocc].
    rewrite Forall_forall in Htr. apply Htr.
    destruct Hp as [<- | Hp]; [now left | now right].
Qed.

(** C3: the chunks that [chunk_text] returns carry the indices 0, 1, ...,
    n-1 in order, and the id of each is the metadata's filename, then
    [_chunk_], then its index; a text that is empty or all whitespace gives
    the empty list and no error; and [chunk_text] does return a list
    whenever the metadata holds a filename. *)
Theorem chunk_text_indices_and_ids (self : t) (text : string)
  (metadata : loc) (h : heap) :
  (blank text = true -> chunk_text self text metadata h = (inr [], h))
  /\ (forall chunks h',
        chunk_text self text metadata h = (inr chunks, h') ->
        map c_chunk_index chunks = seq 0 (List.length chunks)
        /\ forall c,
             In c chunks ->
             exists filename,
               Py.get "filename" (nth metadata h []) = Some filename
               /\ c_id c
                  = Py.str filename ++ "_chunk_"
                    ++ Py.str_of_nat (c_chunk_index c))
  /\ (forall filename,
        Py.get "filename" (nth metadata h []) = Some filename ->
        exists chunks h',
          chunk_text self text metadata h = (inr chunks, h')).
Proof.
  repeat split.
  - intros Hb. unfold chunk_text.
    apply strip_nonempty_blank in Hb. now rewrite Hb.
  - apply chunk_text_returns in H as [(fn & _ & -> & _) | (_ & -> & _)];
      [|reflexivity].
    now rewrite chunks_of_buffers_indices, chunks_of_buffers_length.
  - intros c Hc.
    apply chunk_text_returns in H as [(fn & Hfn & -> & _) | (_ & -> & _)];
      [|destruct Hc].
    exists fn. split; [exact Hfn|].
    apply In_nth_error in Hc as (n & Hn).
    now apply chunks_of_buffers_nth in Hn as (b & _ & ->).
  - intros fn Hfn. rewrite (chunk_text_ok _ _ _ _ _ Hfn). eauto.
Qed.

(** ** Writing to one dictionary of the store *)

Lemma setitem_other (k : string) (v : Py.value) :
  forall l h m,
    m <> l -> nth m (snd (setitem l k v h)) [] = nth m h [].
Proof.
  unfold setitem. cbn [snd].
  induction l as [|l IH]; intros [|d h] m Hm; cbn; try reflexivity.
  - destruct m; [congruence | reflexivity].
  - destruct m as [|m]; [reflexivity|]. apply IH. congruence.
Qed.

Lemma setitem_same (k : string) (v : Py.value) :
  forall l h,
    l < List.length h ->
    nth l (snd (setitem l k v h)) [] = Py.set k v (nth l h []).
Proof.
  unfold setitem. cbn [snd].
  induction l as [|l IH]; intros [|d h] Hl; cbn in *; try lia.
  - reflexivity.
  - apply IH. lia.
Qed.

(** C9: [chunk_text] leaves the dictionary it is given as it was; each
    chunk it returns holds a dictionary object of its own, with the contents
    of the one given; and an assignment to a key of the metadata of one
    returned chunk changes that object, and neither the dictionary given nor
    the metadata of any other returned chunk. *)
Theorem chunk_text_metadata_copies (self : t) (text : string)
  (metadata : loc) (h : heap) (r : Py.exn + list Chunk) (h' : heap) :
  chunk_text self text metadata h = (r, h') ->
  nth metadata h' [] = nth metadata h []
  /\ forall chunks,
       r = inr chunks ->
       forall i c,
         nth_error chunks i = Some c ->
         c_metadata c <> metadata
         /\ nth (c_metadata c) h' [] = nth metadata h []
         /\ forall k v,
              nth (c_metadata c) (snd (setitem (c_metadata c) k v h')) []
              = Py.set k v (nth metadata h [])
              /\ nth metadata (snd (setitem (c_metadata c) k v h')) []
                 = nth metadata h []
              /\ forall j c',
                   j <> i ->
                   nth_error chunks j = Some c' ->
                   c_metadata c' <> c_metadata c
                   /\ nth (c_metadata c') (snd (setitem (c_metadata c) k v h')) []
                      = nth (c_metadata c') h' [].
Proof.
  intros Hrun.
  destruct (Py.get "filename" (nth metadata h [])) as [fn|] eqn:Hfn.
  - rewrite (chunk_text_ok _ _ _ _ _ Hfn) in Hrun. injection Hrun as <- <-.
    pose proof (key_in_store _ _ _ _ Hfn) as Hlt.
    split; [now apply nth_store_grows|].
    intros chunks [= <-] i c Hc.
    pose proof (proj1 (nth_error_Some _ _) ltac:(rewrite Hc; discriminate)) as Hi.
    rewrite chunks_of_buffers_length in Hi.
    apply chunks_of_buffers_nth in Hc as (b & Hb & ->). cbn [c_metadata].
    assert (Hcopy : nth (List.length h + i)
                      (h ++ repeat (nth metadata h [])
                              (List.length (chunk_buffers self text)))%list []
                    = nth metadata h []).
    { rewrite app_nth2 by lia.
      replace (List.length h + i - List.length h) with i by lia.
      apply nth_repeat_lt. exact Hi. }
    split; [lia|]. split; [exact Hcopy|].
    intros k v. split; [|split].
    + rewrite setitem_same by (rewrite length_app, repeat_length; lia).
      now rewrite Hcopy.
    + rewrite setitem_other by lia. now apply nth_store_grows.
    + intros j c' Hj Hc'.
      apply chunks_of_buffers_nth in Hc' as (b' & Hb' & ->). cbn [c_metadata].
      split; [lia|]. apply setitem_other. lia.
  - rewrite (chunk_text_raises _ _ _ _ Hfn) in Hrun.
    destruct (chunk_buffers self text); injection Hrun as <- <-.
    + split; [reflexivity|]. intros chunks [= <-] i c Hc. now destruct i.
    + split; [reflexivity|]. discriminate.
Qed.

End ChunkTextProperties.

(* ===================================================================== *)
(** * Properties of [CitationGenerator]                                   *)
(* ===================================================================== *)

Section CitationProperties.

Import CitationGenerator.

(** Under [str_or_false] the value read with a string for default is a
    string or the integer 0. *)
Lemma get_default_str_or_false (k dflt : string) (d : Py.dict) :
  str_or_false (Py.get k d) = true ->
  (exists s, Py.get_default k (Py.VStr dflt) d = Py.VStr s)
  \/ Py.get_default k (Py.VStr dflt) d = Py.VInt 0.
Proof.
  unfold Py.get_default.
  destruct (Py.get k d) as [[s|z]|]; cbn; intros H; eauto.
  apply Z.eqb_eq in H. subst. now right.
Qed.

Lemma get_default_number (k dflt : string) (d : Py.dict) :
  str_or_false (Py.get k d) = false ->
  exists z, z <> 0%Z /\ Py.get_default k (Py.VStr dflt) d = Py.VInt z.
Proof.
  unfold Py.get_default.
  destruct (Py.get k d) as [[s|z]|]; cbn; try discriminate.
  intros H. apply Z.eqb_neq in H. eauto.
Qed.

Lemma clean_author_name_str (a : string) :
  exists c, clean_author_name (Py.VStr a) = inr c.
Proof.
  unfold clean_author_name.
  destruct (negb _ || _); [eauto|].
  cbn [str_method rbind].
  destruct (Py.contains _ _); [|eauto].
  destruct (_ <? _)%nat; eauto.
Qed.

Lemma clean_title_str (t : string) :
  exists c, clean_title (Py.VStr t) = inr c.
Proof.
  unfold clean_title. destruct (negb _); cbn [str_method rbind]; eauto.
Qed.

Lemma clean_author_name_number (z : Z) :
  z <> 0%Z -> exists e, clean_author_name (Py.VInt z) = inl e.
Proof.
  intros Hz. unfold clean_author_name. cbn [Py.truthy Py.value_eqb].
  apply Z.eqb_neq in Hz. rewrite Hz. cbn. eauto.
Qed.

Lemma clean_title_number (z : Z) :
  z <> 0%Z -> exists e, clean_title (Py.VInt z) = inl e.
Proof.
  intros Hz. unfold clean_title. cbn [Py.truthy].
  apply Z.eqb_neq in Hz. rewrite Hz. cbn. eauto.
Qed.

(** A citable dictionary, with or without the keys that a citation is made
    of, and whatever it holds under the other keys, has a reference
    citation. *)
Lemma generate_reference_citation_total (d : Py.dict) :
  citable d = true -> exists c, generate_reference_citation d = inr c.
Proof.
  unfold citable. intros Hd. apply andb_true_iff in Hd as (Ha & Ht).
  unfold generate_reference_citation.
  assert (Hca : exists ca,
            clean_author_name (Py.get_default "author" (Py.VStr "Unknown") d)
            = inr ca).
  { destruct (get_default_str_or_false "author" "Unknown" d Ha) as [(a & ->) | ->];
      [apply clean_author_name_str | eexists; reflexivity]. }
  assert (Hct : exists ct,
            clean_title (Py.get_default "title" (Py.VStr "Untitled") d)
            = inr ct).
  { destruct (get_default_str_or_false "title" "Untitled" d Ht) as [(t & ->) | ->];
      [apply clean_title_str | eexists; reflexivity]. }
  destruct Hca as (ca & ->). destruct Hct as (ct & ->).
  cbn [rbind]. destruct (Py.mem _ _); eauto.
Qed.

(** A dictionary that is not citable has none: cleaning its author or its
    title raises. *)
Lemma generate_reference_citation_raises (d : Py.dict) :
  citable d = false -> exists e, generate_reference_citation d = inl e.
Proof.
  unfold citable. intros Hd. unfold generate_reference_citation.
  destruct (str_or_false (Py.get "author" d)) eqn:Ha.
  - cbn [andb] in Hd.
    assert (Hca : exists ca,
              clean_author_name (Py.get_default "author" (Py.VStr "Unknown") d)
              = inr ca).
    { destruct (get_default_str_or_false "author" "Unknown" d Ha) as [(a & ->) | ->];
        [apply clean_author_name_str | eexists; reflexivity]. }
    destruct Hca as (ca & ->). cbn [rbind].
    destruct (get_default_number "title" "Untitled" d Hd) as (z & Hz & ->).
    destruct (clean_title_number z Hz) as (e & ->). cbn [rbind]. eauto.
  - destruct (get_default_number "author" "Unknown" d Ha) as (z & Hz & ->).
    destruct (clean_author_name_number z Hz) as (e & ->). cbn [rbind]. eauto.
Qed.

Lemma has_key_seen (k : Py.value) (uc : citation_dict) :
  has_key k uc = existsb (Py.value_eqb k) (map fst uc).
Proof.
  unfold has_key. induction uc as [|kv uc IH]; cbn; [reflexivity|].
  now rewrite IH.
Qed.

Lemma collect_citations (sources : list Py.dict) :
  forall uc : citation_dict,
  forallb citable (first_seen_from (map fst uc) sources) = true ->
  exists cites,
    Forall2 (fun source c => generate_reference_citation source = inr c)
      (first_seen_from (map fst uc) sources) cites
    /\ exists uc',
         rfor_each unique_citations_body sources uc = inr uc'
         /\ map snd uc' = (map snd uc ++ cites)%list.
Proof.
  induction sources as [|source sources IH]; intros uc Hall.
  - exists []. split; [constructor|]. exists uc. cbn. now rewrite app_nil_r.
  - cbn [rfor_each first_seen_from] in *. unfold unique_citations_body at 1.
    fold (filename_of source). rewrite has_key_seen.
    destruct (existsb _ (map fst uc)) eqn:E; cbn [negb rbind].
    + now apply IH.
    + cbn [forallb] in Hall. apply andb_true_iff in Hall as (Hs & Hall).
      destruct (generate_reference_citation_total _ Hs) as (c & Hc).
      rewrite Hc. cbn [rbind].
      destruct (IH (uc ++ [(filename_of source, c)])%list)
        as (cites & HF & uc' & Hrun & Hsnd).
      { rewrite map_app. exact Hall. }
      rewrite map_app in HF. cbn [map fst] in HF.
      exists (c :: cites). split; [now constructor|].
      exists uc'. split; [exact Hrun|].
      rewrite Hsnd, map_app, <- app_assoc. reflexivity.
Qed.

(** The loop raises when one of the sources it cites is not citable. *)
Lemma collect_citations_raises (sources : list Py.dict) :
  forall uc : citation_dict,
  forallb citable (first_seen_from (map fst uc) sources) = false ->
  exists e, rfor_each unique_citations_body sources uc = inl e.
Proof.
  induction sources as [|source sources IH]; intros uc Hall; [discriminate|].
  cbn [rfor_each first_seen_from] in *. unfold unique_citations_body at 1.
  fold (filename_of source). rewrite has_key_seen.
  destruct (existsb _ (map fst uc)) eqn:E; cbn [negb rbind].
  - now apply IH.
  - cbn [forallb] in Hall. destruct (citable source) eqn:Hs.
    + destruct (generate_reference_citation_total _ Hs) as (c & Hc).
      rewrite Hc. cbn [rbind]. apply IH. rewrite map_app. exact Hall.
    + destruct (generate_reference_citation_raises _ Hs) as (e & He).
      rewrite He. cbn [rbind]. eauto.
Qed.

(** [format_citations_for_response] raises when one of the sources it cites,
    the first of a filename, is not citable. *)
Lemma format_citations_raises (sources : list Py.dict) :
  forallb citable (first_seen sources) = false ->
  exists e, format_citations_for_response sources = inl e.
Proof.
  intros Hall. unfold format_citations_for_response.
  destruct sources as [|s0 rest]; [discriminate|].
  destruct (collect_citations_raises (s0 :: rest) [] Hall) as (e & He).
  rewrite He. cbn [rbind]. eauto.
Qed.

Lemma numbered_lines (cites : list string) :
  forall i acc,
    fold_left
      (fun citations_text '(i, citation) =>
         citations_text ++ Py.str_of_nat i ++ ". " ++ citation ++ Py.LF)
      (combine (seq i (List.length cites)) cites) acc
    = acc ++ numbered_from i cites.
Proof.
  induction cites as [|c cites IH]; intros i acc.
  - cbn. now rewrite append_nil_r.
  - cbn [List.length seq combine fold_left numbered_from].
    rewrite IH. now rewrite !append_assoc.
Qed.

(** C4: [format_citations_for_response] cites the sources whose filename
    ([Unknown] when it has none) no earlier source has.  When the author
    and the title of these, where they have them, are strings (or the
    integer 0), it does not raise, whatever keys are missing and whatever
    the other keys hold, the integer [chunk_index] of the indexed chunks
    included; it gives the empty string for no source, and otherwise the
    header followed by one numbered line, from 1 on, for the reference
    citation of each source cited, in the order of the sources.  So two
    sources with the same filename give one line, and a source with no key
    at all is cited by the defaults.  The condition cannot be left out:
    without it the function raises ([format_citations_raises]). *)
Theorem format_citations_dedup (sources : list Py.dict) :
  forallb citable (first_seen sources) = true ->
  (exists cites,
     Forall2 (fun source c => generate_reference_citation source = inr c)
       (first_seen sources) cites
     /\ format_citations_for_response sources
        = inr (match sources with
               | [] => ""
               | _ => citations_header ++ numbered_from 1 cites
               end))
  /\ (forall a b,
        sources = [a; b] -> filename_of a = filename_of b ->
        exists c,
          generate_reference_citation a = inr c
          /\ format_citations_for_response sources
             = inr (citations_header ++ "1. " ++ c ++ Py.LF))
  /\ format_citations_for_response [[]]
     = inr (citations_header ++ "1. Unknown Author (n.d.). Untitled." ++ Py.LF).
Proof.
  intros Hs.
  assert (Hmain : exists cites,
     Forall2 (fun source c => generate_reference_citation source = inr c)
       (first_seen sources) cites
     /\ format_citations_for_response sources
        = inr (match sources with
               | [] => ""
               | _ => citations_header ++ numbered_from 1 cites
               end)).
  { destruct (collect_citations sources [] Hs) as (cites & HF & uc' & Hrun & Hsnd).
    exists cites. split; [exact HF|].
    unfold format_citations_for_response.
    destruct sources as [|s0 rest]; [reflexivity|].
    rewrite Hrun. cbn [rbind]. unfold enumerate.
    rewrite numbered_lines, Hsnd. reflexivity. }
  split; [exact Hmain|]. split; [|reflexivity].
  intros a b -> Hab.
  destruct Hmain as (cites & HF & Hrun).
  unfold first_seen in HF. cbn [first_seen_from existsb app] in HF.
  rewrite <- Hab in HF.
  assert (Hrefl : Py.value_eqb (filename_of a) (filename_of a) = true).
  { destruct (filename_of a); cbn; [apply String.eqb_refl | apply Z.eqb_refl]. }
  rewrite Hrefl in HF. cbn [orb] in HF.
  inversion HF as [|? c ? cs Hc Hnil]; subst. inversion Hnil; subst.
  exists c. split; [exact Hc|].
  rewrite Hrun. cbn [numbered_from]. now rewrite append_nil_r.
Qed.

End CitationProperties.

(* ===================================================================== *)
(** * Properties of [BatchIndexer]                                        *)
(* ===================================================================== *)

Section BatchIndexerProperties.

Import BatchIndexer.

Variable batch_size : Z.
Variable pdf_processor : PDFProcessor.t.
Variable extract_text_from_pdf : string -> string.
Variable vector_db_add_documents : list Document -> result unit.
Variable pdf_dir_exists : bool.
Variable pdf_dir_glob : list string.
Variable pdf_dir_name : string.
Variable time_sleep : result unit.

Local Abbreviation process_batch_body :=
  (BatchIndexer.process_batch_body pdf_processor extract_text_from_pdf
     vector_db_add_documents).
Local Abbreviation process_batch :=
  (BatchIndexer.process_batch pdf_processor extract_text_from_pdf
     vector_db_add_documents).
Local Abbreviation index_body :=
  (BatchIndexer.index_body pdf_processor extract_text_from_pdf
     vector_db_add_documents time_sleep).
Local Abbreviation index_all_documents :=
  (BatchIndexer.index_all_documents batch_size pdf_processor
     extract_text_from_pdf vector_db_add_documents pdf_dir_exists
     pdf_dir_glob pdf_dir_name time_sleep).

Lemma extract_text_and_metadata_returns (pdf_file : string) (s : state) :
  exists s',
    on_store (extract_text_and_metadata extract_text_from_pdf pdf_file) s
    = (inr (extract_text_from_pdf pdf_file, List.length (store s)), s').
Proof.
  unfold on_store, extract_text_and_metadata, bind, alloc, setitem, ret.
  eexists. reflexivity.
Qed.

(** A text that is not blank gives at least one chunk, or an exception. *)
Lemma chunk_text_not_nil (text : string) (metadata : loc) (h h' : heap) :
  Py.nonempty (Py.strip text) = true ->
  PDFProcessor.chunk_text pdf_processor text metadata h <> (inr [], h').
Proof.
  intros Hne Hrun.
  assert (Hb : blank text = false).
  { destruct (blank text) eqn:E; [|reflexivity].
    apply strip_nonempty_blank in E. congruence. }
  apply chunk_text_returns in Hrun as [(fn & _ & Hc & _) | (Hb' & _)];
    [|congruence].
  pose proof (chunk_buffers_nonempty pdf_processor _ Hb) as Hbufs.
  destruct (PDFProcessor.chunk_buffers pdf_processor text); [congruence|].
  discriminate.
Qed.

(** One turn of the loop of [process_batch] does not raise, and counts the
    file once, as processed or as failed. *)
Lemma process_batch_body_counts (br : batch_results) (pdf_file : string)
  (s : state) :
  exists br' s',
    process_batch_body br pdf_file s = (inr br', s')
    /\ processed br' + failed br' = S (processed br + failed br).
Proof.
  unfold BatchIndexer.process_batch_body, try_except.
  unfold bind at 1.
  destruct (extract_text_and_metadata_returns pdf_file s) as (s1 & ->).
  destruct (negb (Py.nonempty (Py.strip (extract_text_from_pdf pdf_file))))
    eqn:Hblank.
  { unfold bind, append_failed, ret. do 2 eexists.
    split; [reflexivity|]. cbn. lia. }
  apply negb_false_iff in Hblank.
  unfold bind at 1. unfold on_store at 1.
  destruct (PDFProcessor.chunk_text pdf_processor
              (extract_text_from_pdf pdf_file) (List.length (store s))
              (store s1)) as [[e|chunks] h2] eqn:Hct.
  { unfold bind, append_failed, ret. do 2 eexists.
    split; [reflexivity|]. cbn. lia. }
  destruct chunks as [|c chunks].
  { exfalso. eapply chunk_text_not_nil; eauto. }
  unfold bind at 1. unfold on_store at 1.
  match goal with |- context [for_each ?f ?l ?a ?h] =>
    destruct (for_each f l a h) as [[e|documents] h3] end.
  - unfold bind, append_failed, ret. do 2 eexists.
    split; [reflexivity|]. cbn. lia.
  - unfold bind, append_processed, ret. do 2 eexists.
    split; [reflexivity|]. cbn. lia.
Qed.

Lemma process_batch_loop_counts (pdf_files : list string) :
  forall br s,
  exists br' s',
    for_each process_batch_body pdf_files br s = (inr br', s')
    /\ processed br' + failed br'
       = processed br + failed br + List.length pdf_files.
Proof.
  induction pdf_files as [|f l IH]; intros br s.
  - exists br, s. split; [reflexivity | cbn; lia].
  - cbn [for_each]. unfold bind at 1.
    destruct (process_batch_body_counts br f s) as (br1 & s1 & -> & H1).
    destruct (IH br1 s1) as (br2 & s2 & -> & H2).
    exists br2, s2. split; [reflexivity | cbn; lia].
Qed.

Lemma process_batch_counts (pdf_files : list string) (s : state) :
  exists br s',
    process_batch pdf_files s = (inr br, s')
    /\ processed br + failed br = List.length pdf_files.
Proof.
  destruct (process_batch_loop_counts pdf_files
              {| processed := 0; failed := 0; total_chunks := 0; errors := [] |} s)
    as (br & s' & H & Hc).
  exists br, s'. split; [exact H | exact Hc].
Qed.

Lemma index_body_counts (n : nat) (tr : total_results) (i : nat)
  (batch : list string) (s : state) :
  exists tr' s',
    index_body n tr (i, batch) s = (inr tr', s')
    /\ tr_total_processed tr' + tr_total_failed tr'
       = tr_total_processed tr + tr_total_failed tr + List.length batch
    /\ (tr_total_processed tr <= tr_total_processed tr').
Proof.
  unfold BatchIndexer.index_body, try_except. unfold bind at 1.
  destruct (process_batch_counts batch s) as (br & s1 & -> & Hc).
  destruct (i <? n)%nat; [destruct time_sleep|];
    unfold ret; do 2 eexists; (split; [reflexivity | cbn; lia]).
Qed.

Lemma index_loop_counts (n : nat) (l : list (nat * list string)) :
  forall tr s,
  exists tr' s',
    for_each (index_body n) l tr s = (inr tr', s')
    /\ tr_total_processed tr' + tr_total_failed tr'
       = tr_total_processed tr + tr_total_failed tr
         + List.length (concat (map snd l)).
Proof.
  induction l as [|[i batch] l IH]; intros tr s.
  - exists tr, s. split; [reflexivity | cbn; lia].
  - cbn [for_each]. unfold bind at 1.
    destruct (index_body_counts n tr i batch s) as (tr1 & s1 & -> & H1 & _).
    destruct (IH tr1 s1) as (tr2 & s2 & -> & H2).
    exists tr2, s2. split; [reflexivity|].
    cbn [map snd concat]. rewrite length_app. lia.
Qed.

Lemma map_snd_enumerate {A} (l : list A) (i : nat) :
  map snd (enumerate l i) = l.
Proof.
  unfold enumerate. revert i.
  induction l as [|x l IH]; intros i; cbn; [reflexivity | now rewrite IH].
Qed.

(** ** The batches *)

Lemma slice_from_nat {A} (l : list A) (i b : nat) :
  slice l (Z.of_nat i) (Z.of_nat i + Z.of_nat b) = firstn b (skipn i l).
Proof. unfold slice. f_equal; [lia | f_equal; lia]. Qed.

Lemma batches_cover {A} (l : list A) (b : nat) :
  0 < b ->
  forall fuel i,
    List.length l - i <= fuel ->
    concat (map (fun j => slice l j (j + Z.of_nat b))
              (range_from fuel (Z.of_nat i) (Z.of_nat (List.length l))
                 (Z.of_nat b)))
    = skipn i l
    /\ Forall (fun batch : list A => List.length batch <= b)
         (map (fun j => slice l j (j + Z.of_nat b))
            (range_from fuel (Z.of_nat i) (Z.of_nat (List.length l))
               (Z.of_nat b))).
Proof.
  intros Hb. induction fuel as [|fuel IH]; intros i Hfuel; cbn [range_from].
  - cbn. split; [|constructor]. symmetry. apply skipn_all2. lia.
  - destruct (Z.ltb_spec (Z.of_nat i) (Z.of_nat (List.length l))).
    + cbn [map concat]. rewrite slice_from_nat.
      replace (Z.of_nat i + Z.of_nat b)%Z with (Z.of_nat (i + b)) by lia.
      destruct (IH (i + b)) as [IHc IHf]; [lia|].
      split.
      * rewrite IHc. rewrite Nat.add_comm, <- skipn_skipn.
        apply firstn_skipn.
      * constructor; [|exact IHf]. rewrite length_firstn. lia.
    + cbn. split; [|constructor]. symmetry. apply skipn_all2. lia.
Qed.

Lemma batches_of_ok (pdf_files : list string) :
  (0 < batch_size)%Z ->
  exists batches,
    batches_of batch_size pdf_files = inr batches
    /\ concat batches = pdf_files
    /\ Forall (fun batch => (Z.of_nat (List.length batch) <= batch_size)%Z)
         batches.
Proof.
  intros Hb. unfold batches_of, range0.
  destruct (Z.eqb_spec batch_size 0); [lia|].
  destruct (Z.ltb_spec batch_size 0); [lia|].
  cbn [rbind]. eexists. split; [reflexivity|].
  replace batch_size with (Z.of_nat (Z.to_nat batch_size)) by lia.
  destruct (batches_cover pdf_files (Z.to_nat batch_size) ltac:(lia)
              (List.length pdf_files) 0 ltac:(lia)) as [Hc Hf].
  split; [exact Hc|].
  eapply Forall_impl; [|exact Hf]. cbn. intros. lia.
Qed.

Lemma batches_of_returns (pdf_files : list string) :
  batch_size <> 0%Z ->
  exists batches, batches_of batch_size pdf_files = inr batches.
Proof.
  intros Hb. unfold batches_of, range0.
  destruct (Z.eqb_spec batch_size 0); [contradiction|].
  destruct (batch_size <? 0)%Z; cbn [rbind]; eauto.
Qed.

(** The run of [index_all_documents] on a directory that exists and has
    files, once the batches are known. *)
Lemma index_all_documents_run (batches : list (list string)) (s : state) :
  pdf_dir_exists = true ->
  pdf_dir_glob <> [] ->
  batches_of batch_size pdf_dir_glob = inr batches ->
  exists r s',
    index_all_documents s = (inr r, s')
    /\ success r = (0 <? total_processed r)%nat
    /\ total_processed r + total_failed r = List.length (concat batches).
Proof.
  intros Hex Hne Hb.
  unfold BatchIndexer.index_all_documents, get_pdf_files.
  rewrite Hex. cbn [negb].
  destruct pdf_dir_glob as [|f0 rest] eqn:Hglob; [congruence|].
  rewrite Hb. unfold bind at 1. unfold lift_result at 1.
  unfold bind at 1.
  destruct (index_loop_counts (List.length batches) (enumerate batches 1)
              {| tr_total_processed := 0; tr_total_failed := 0;
                 tr_total_chunks := 0; all_errors := [] |} s)
    as (tr & s' & -> & Hc).
  do 2 eexists. split; [reflexivity|].
  cbn [success total_processed total_failed] in *.
  split; [reflexivity|].
  rewrite map_snd_enumerate in Hc. cbn in Hc. exact Hc.
Qed.

(** C5: [index_all_documents] cuts the list of files into consecutive
    batches of at most [batch_size] files that make up the list in order,
    into batches of 3, 3 and 1 files for 7 files and a batch size of 3;
    it returns a report, and in it [total_processed + total_failed] is the
    number of files. *)
Theorem index_all_documents_counts_every_file (s : state) :
  (0 < batch_size)%Z ->
  pdf_dir_exists = true ->
  pdf_dir_glob <> [] ->
  exists batches r s',
    batches_of batch_size pdf_dir_glob = inr batches
    /\ concat batches = pdf_dir_glob
    /\ Forall (fun batch => (Z.of_nat (List.length batch) <= batch_size)%Z)
         batches
    /\ (batch_size = 3%Z -> List.length pdf_dir_glob = 7 ->
        map (@List.length string) batches = [3; 3; 1])
    /\ index_all_documents s = (inr r, s')
    /\ total_processed r + total_failed r = List.length pdf_dir_glob.
Proof.
  intros Hb Hex Hne.
  destruct (batches_of_ok pdf_dir_glob Hb) as (batches & Hbat & Hcat & Hsz).
  destruct (index_all_documents_run batches s Hex Hne Hbat)
    as (r & s' & Hrun & _ & Hcount).
  exists batches, r, s'. repeat split; try assumption.
  - intros H3 H7. rewrite H3 in Hbat. clear - Hbat H7.
    destruct pdf_dir_glob as [|a1 [|a2 [|a3 [|a4 [|a5 [|a6 [|a7 [|a8 l]]]]]]]];
      try discriminate.
    cbn in Hbat. injection Hbat as <-. reflexivity.
  - now rewrite Hcat in Hcount.
Qed.

Lemma index_all_documents_missing (s : state) :
  pdf_dir_exists = false ->
  exists msg, index_all_documents s = (inr (failure_report msg), s).
Proof.
  intros Hex. unfold BatchIndexer.index_all_documents, get_pdf_files.
  rewrite Hex. eexists. reflexivity.
Qed.

Lemma index_all_documents_empty (s : state) :
  pdf_dir_exists = true -> pdf_dir_glob = [] ->
  exists msg, index_all_documents s = (inr (failure_report msg), s).
Proof.
  intros Hex Hglob. unfold BatchIndexer.index_all_documents, get_pdf_files.
  rewrite Hex, Hglob. eexists. reflexivity.
Qed.

Lemma index_all_documents_raises (e : Py.exn) (s : state) :
  pdf_dir_exists = true -> pdf_dir_glob <> [] ->
  batches_of batch_size pdf_dir_glob = inl e ->
  index_all_documents s = (inl e, s).
Proof.
  intros Hex Hne Hb. unfold BatchIndexer.index_all_documents, get_pdf_files.
  rewrite Hex. cbn [negb].
  destruct pdf_dir_glob as [|f0 rest]; [congruence|].
  now rewrite Hb.
Qed.

Lemma dir_cases :
  pdf_dir_exists = false
  \/ (pdf_dir_exists = true /\ pdf_dir_glob = [])
  \/ (pdf_dir_exists = true /\ pdf_dir_glob <> []).
Proof.
  destruct pdf_dir_exists; [|now left].
  right. destruct pdf_dir_glob; [now left | right; split; [reflexivity | discriminate]].
Qed.

(** C6: when the directory of sources is missing, and when it holds no PDF
    file, [index_all_documents] returns a report whose [success] is false
    and raises nothing; whenever it returns a report, [success] is true
    exactly when [total_processed > 0]; and it returns a report for every
    batch size other than 0. *)
Theorem index_all_documents_reports (s : state) :
  (pdf_dir_exists = false ->
   exists r,
     index_all_documents s = (inr r, s)
     /\ success r = false /\ error r <> None /\ total_processed r = 0)
  /\ (pdf_dir_exists = true -> pdf_dir_glob = [] ->
      exists r,
        index_all_documents s = (inr r, s)
        /\ success r = false /\ error r <> None /\ total_processed r = 0)
  /\ (forall r s',
        index_all_documents s = (inr r, s') ->
        (success r = true <-> 0 < total_processed r))
  /\ (batch_size <> 0%Z ->
      exists r s', index_all_documents s = (inr r, s')).
Proof.
  split; [|split; [|split]].
  - intros Hex. destruct (index_all_documents_missing s Hex) as (msg & ->).
    eexists. repeat split. discriminate.
  - intros Hex Hglob.
    destruct (index_all_documents_empty s Hex Hglob) as (msg & ->).
    eexists. repeat split. discriminate.
  - intros r s' Hrun.
    destruct dir_cases as [Hex | [[Hex Hglob] | [Hex Hne]]].
    + destruct (index_all_documents_missing s Hex) as (msg & E).
      rewrite E in Hrun. injection Hrun as <- <-.
      cbn. split; [discriminate | lia].
    + destruct (index_all_documents_empty s Hex Hglob) as (msg & E).
      rewrite E in Hrun. injection Hrun as <- <-.
      cbn. split; [discriminate | lia].
    + destruct (batches_of batch_size pdf_dir_glob) as [e|batches] eqn:Hb.
      * rewrite (index_all_documents_raises e s Hex Hne Hb) in Hrun.
        discriminate.
      * destruct (index_all_documents_run batches s Hex Hne Hb)
          as (r1 & s1 & Hrun1 & Hs & _).
        rewrite Hrun1 in Hrun. injection Hrun as <- <-.
        rewrite Hs. apply Nat.ltb_lt.
  - intros Hb.
    destruct dir_cases as [Hex | [[Hex Hglob] | [Hex Hne]]].
    + destruct (index_all_documents_missing s Hex) as (msg & E). eauto.
    + destruct (index_all_documents_empty s Hex Hglob) as (msg & E). eauto.
    + destruct (batches_of_returns pdf_dir_glob Hb) as (batches & Hbat).
      destruct (index_all_documents_run batches s Hex Hne Hbat)
        as (r & s' & Hrun & _).
      eauto.
Qed.

End BatchIndexerProperties.

(* ===================================================================== *)
(** * Properties of [RAGEngine.generate_response]                         *)
(* ===================================================================== *)

Section RAGEngineProperties.

Import RAGEngine.

Variable similarity_search : string -> result (list Document).
Variable system_prompt_format : string -> string -> string.
Variable chat_completions_create : string -> string -> result (list string).

Local Abbreviation search_relevant_documents :=
  (RAGEngine.search_relevant_documents similarity_search).
Local Abbreviation generate_response :=
  (RAGEngine.generate_response similarity_search system_prompt_format
     chat_completions_create).
Local Abbreviation generation :=
  (RAGEngine.generation similarity_search system_prompt_format
     chat_completions_create).

(** C7: [generate_response] returns a dictionary for every query and raises
    nothing.  With no document found, it is the fixed message, no source
    and empty citations.  When the generation service fails, it is a
    response that is not empty, made of a fixed explanation and the text of
    the exception, with no source and empty citations.  When the service
    answers, it is the answer with the sources, and the citations are the
    formatted ones, or the empty string when formatting them raises. *)
Theorem generate_response_never_raises (query : string) :
  exists d,
    generate_response query = inr d
    /\
       match generation query with
       | None =>
           d = [ ("response", FStr no_match_message);
                 ("sources", FSources []);
                 ("citations", FStr "") ]
       | Some (inl e) =>
           exists msg,
             msg = "Chyba při generování odpovědi: " ++ Py.exn_str e
             /\ msg <> ""
             /\ d = [ ("response", FStr msg);
                      ("sources", FSources []);
                      ("citations", FStr "") ]
       | Some (inr response_text) =>
           let used_sources :=
             used_sources_of (search_relevant_documents query) in
           d = [ ("response", FStr response_text);
                 ("sources", FSources used_sources);
                 ("citations",
                  FStr match CitationGenerator.format_citations_for_response
                               used_sources with
                       | inr citations => citations
                       | inl _ => ""
                       end);
                 ("num_sources", FInt (List.length used_sources)) ]
       end.
Proof.
  unfold RAGEngine.generate_response, RAGEngine.generation.
  destruct (search_relevant_documents query) as [|doc docs];
    [eexists; split; reflexivity|].
  cbv zeta.
  destruct (chat_completions_create _ query) as [e|[|c choices]];
    cbn [rbind rtry].
  - eexists. split; [reflexivity|]. eexists. repeat split. discriminate.
  - eexists. split; [reflexivity|]. eexists. repeat split. discriminate.
  - destruct (CitationGenerator.format_citations_for_response _);
      cbn [rbind rtry]; eexists; split; reflexivity.
Qed.

(** C10: the dictionary that [generate_response] returns has the keys
    [response], [sources] and [citations], and after them the key
    [num_sources] when the generation service has answered, and only
    then. *)
Theorem generate_response_keys (query : string) :
  exists d,
    generate_response query = inr d
    /\ keys d
       = match generation query with
         | Some (inr _) => ["response"; "sources"; "citations"; "num_sources"]
         | _ => ["response"; "sources"; "citations"]
         end.
Proof.
  unfold RAGEngine.generate_response, RAGEngine.generation.
  destruct (search_relevant_documents query) as [|doc docs];
    [eexists; split; reflexivity|].
  cbv zeta.
  destruct (chat_completions_create _ query) as [e|[|c choices]];
    cbn [rbind rtry]; try (eexists; split; reflexivity).
  destruct (CitationGenerator.format_citations_for_response _);
    cbn [rbind rtry]; eexists; split; reflexivity.
Qed.

End RAGEngineProperties.

(* ===================================================================== *)
(** * [PDFProcessor.extract_metadata_from_filename] on names with commas  *)
(* ===================================================================== *)

Section FilenameMetadata.

Import PDFProcessor.

(** C8, at a name with two commas and no underscore: the author is what
    stands before the first comma, and the title is what stands between the
    first comma and the second, not all that follows the first comma. *)
Theorem extract_metadata_two_commas :
  Py.get "author"
    (extract_metadata_from_filename "Smith, War, Peace and Mediation.pdf")
  = Some (Py.VStr "Smith")
  /\ Py.get "title"
       (extract_metadata_from_filename "Smith, War, Peace and Mediation.pdf")
     = Some (Py.VStr "War")
  /\ Py.strip (Py.drop 6 "Smith, War, Peace and Mediation")
     = "War, Peace and Mediation".
Proof. repeat split. Qed.

(** The branch for underscores keeps all that follows the first one. *)
Example extract_metadata_two_underscores :
  Py.get "title" (extract_metadata_from_filename "Smith_War_Peace.pdf")
  = Some (Py.VStr "War Peace").
Proof. reflexivity. Qed.

(** With one comma the title is all that follows it. *)
Example extract_metadata_one_comma :
  Py.get "title" (extract_metadata_from_filename "Smith, War and Peace.pdf")
  = Some (Py.VStr "War and Peace").
Proof. reflexivity. Qed.

End FilenameMetadata.

(* ===================================================================== *)
(** * The properties at the inputs of the examples                        *)
(* ===================================================================== *)

Section AtExamples.

Import PDFProcessor Examples.

(** C1 as the specification has it fails: the last 4 characters of the
    first buffer, [" fgh"], are not a prefix of the text of the second
    chunk, which has lost the space. *)
Lemma chunk_text_overlap_prefix_counterexample :
  chunk_text overlap_cfg overlap_document 0 [metadata_a]
  = (inr [overlap_chunk0; overlap_chunk1],
     [metadata_a; metadata_a; metadata_a])
  /\ nth_error (chunk_buffers overlap_cfg overlap_document) 0
     = Some "abcde fgh"
  /\ last_chars 4 "abcde fgh" = " fgh"
  /\ prefix (last_chars 4 "abcde fgh") (c_text overlap_chunk1) = false.
Proof. repeat split. Qed.

Lemma chunk_text_overlap_prefix_witness :
  chunk_text overlap_cfg overlap_document 0 [metadata_a]
  = (inr [overlap_chunk0; overlap_chunk1],
     [metadata_a; metadata_a; metadata_a])
  /\ exists buf,
       nth_error (chunk_buffers overlap_cfg overlap_document) 0 = Some buf
       /\ c_text overlap_chunk0 = Py.strip buf
       /\ prefix
            (Py.lstrip (last_chars (Z.to_nat (chunk_overlap overlap_cfg)) buf))
            (c_text overlap_chunk1) = true.
Proof.
  split; [reflexivity|].
  apply (chunk_text_overlap_prefix overlap_cfg overlap_document 0 [metadata_a]
           [overlap_chunk0; overlap_chunk1]
           [metadata_a; metadata_a; metadata_a]);
    reflexivity.
Defined.

(** C2 as the specification has it fails: no paragraph is longer than the
    size of 8, and the second chunk has 11 characters. *)
Lemma chunk_text_length_counterexample :
  paragraphs_of size_document = ["aaaaaa"; "bbbbbb"]
  /\ Forall (fun p => (Z.of_nat (String.length p) <= chunk_size size_cfg)%Z)
       (paragraphs_of size_document)
  /\ chunk_text size_cfg size_document 0 [metadata_a]
     = (inr [size_chunk0; size_chunk1], [metadata_a; metadata_a; metadata_a])
  /\ String.length (c_text size_chunk1) = 11
  /\ (Z.of_nat (String.length (c_text size_chunk1)) > chunk_size size_cfg)%Z.
Proof.
  split; [reflexivity|]. split.
  - change (paragraphs_of size_document) with ["aaaaaa"; "bbbbbb"].
    repeat constructor; cbn; lia.
  - repeat split.
Qed.

Lemma chunk_text_length_bound_witness :
  (1 <= chunk_overlap size_cfg)%Z
  /\ chunk_text size_cfg size_document 0 [metadata_a]
     = (inr [size_chunk0; size_chunk1], [metadata_a; metadata_a; metadata_a])
  /\ (forall c,
        In c [size_chunk0; size_chunk1] ->
        (Z.of_nat (String.length (c_text c))
         <= Z.max (chunk_size size_cfg)
              (chunk_overlap size_cfg
               + Z.of_nat (longest (paragraphs_of size_document))) + 2)%Z)
  /\ (forall p,
        In p (paragraphs_of size_document) ->
        exists c, In c [size_chunk0; size_chunk1] /\ occurs_in p (c_text c)).
Proof.
  split; [cbn; lia|]. split; [reflexivity|].
  apply (chunk_text_length_bound size_cfg size_document 0 [metadata_a]
           [size_chunk0; size_chunk1] [metadata_a; metadata_a; metadata_a]);
    [cbn; lia | reflexivity].
Defined.

Lemma chunk_text_indices_and_ids_witness :
  Py.get "filename" (nth 0 [metadata_a] []) = Some (Py.VStr "a.pdf")
  /\ chunk_text size_cfg size_document 0 [metadata_a]
     = (inr [size_chunk0; size_chunk1], [metadata_a; metadata_a; metadata_a])
  /\ map c_chunk_index [size_chunk0; size_chunk1] = seq 0 2
  /\ (exists chunks h',
        chunk_text size_cfg size_document 0 [metadata_a] = (inr chunks, h'))
  /\ (blank (" " ++ Py.LF) = true
      /\ chunk_text size_cfg (" " ++ Py.LF) 0 [] = (inr [], [])).
Proof.
  split; [reflexivity|]. split; [reflexivity|].
  pose proof (chunk_text_indices_and_ids size_cfg size_document 0 [metadata_a])
    as (_ & Hidx & Hret).
  pose proof (chunk_text_indices_and_ids size_cfg (" " ++ Py.LF) 0 [])
    as (Hblank & _).
  split; [exact (proj1 (Hidx _ _ eq_refl))|].
  split; [exact (Hret _ eq_refl)|].
  split; [reflexivity | exact (Hblank eq_refl)].
Defined.

Lemma chunk_text_metadata_copies_witness :
  chunk_text size_cfg size_document 0 [metadata_a]
  = (inr [size_chunk0; size_chunk1], [metadata_a; metadata_a; metadata_a])
  /\ nth 0 [metadata_a; metadata_a; metadata_a] [] = metadata_a
  /\ nth 1 (snd (setitem 1 "author" (Py.VStr "Bush")
                   [metadata_a; metadata_a; metadata_a])) []
     = Py.set "author" (Py.VStr "Bush") metadata_a
  /\ nth 0 (snd (setitem 1 "author" (Py.VStr "Bush")
                   [metadata_a; metadata_a; metadata_a])) []
     = metadata_a
  /\ nth 2 (snd (setitem 1 "author" (Py.VStr "Bush")
                   [metadata_a; metadata_a; metadata_a])) []
     = metadata_a.
Proof.
  split; [reflexivity|].
  pose proof (chunk_text_metadata_copies size_cfg size_document 0 [metadata_a]
                _ _ eq_refl) as (Hin & Hchunks).
  split; [exact Hin|].
  pose proof (Hchunks _ eq_refl 0 size_chunk0 eq_refl) as (_ & _ & Hset).
  pose proof (Hset "author" (Py.VStr "Bush")) as (Hown & Hinput & Hothers).
  split; [exact Hown|]. split; [exact Hinput|].
  exact (proj2 (Hothers 1 size_chunk1 ltac:(discriminate) eq_refl)).
Defined.

(** The metadata of two chunks of the file [X.pdf], each with its integer
    [chunk_index], give one numbered line. *)
Lemma format_citations_dedup_witness :
  forallb citable (first_seen [indexed_chunk0; indexed_chunk1]) = true
  /\ filename_of indexed_chunk0 = filename_of indexed_chunk1
  /\ exists c,
       CitationGenerator.generate_reference_citation indexed_chunk0 = inr c
       /\ CitationGenerator.format_citations_for_response
            [indexed_chunk0; indexed_chunk1]
          = inr (CitationGenerator.citations_header ++ "1. " ++ c ++ Py.LF).
Proof.
  split; [reflexivity|]. split; [reflexivity|].
  exact (proj1 (proj2 (format_citations_dedup [indexed_chunk0; indexed_chunk1]
                         eq_refl))
           indexed_chunk0 indexed_chunk1 eq_refl eq_refl).
Defined.

Example format_citations_indexed_chunks :
  CitationGenerator.format_citations_for_response
    [indexed_chunk0; indexed_chunk1]
  = inr (CitationGenerator.citations_header
         ++ "1. Bush (2005). The Promise of Mediation." ++ Py.LF).
Proof. reflexivity. Qed.

Example format_citations_two_chunks_one_entry :
  CitationGenerator.format_citations_for_response [source_x1; source_x2]
  = inr (CitationGenerator.citations_header
         ++ "1. Bush (2005). The Promise of Mediation." ++ Py.LF).
Proof. reflexivity. Qed.

(** Seven files in batches of three. *)
Lemma index_all_documents_counts_every_file_witness :
  (0 < 3)%Z
  /\ seven_files <> []
  /\ exists batches r s',
       BatchIndexer.batches_of 3 seven_files = inr batches
       /\ concat batches = seven_files
       /\ Forall (fun batch => (Z.of_nat (List.length batch) <= 3)%Z) batches
       /\ (3%Z = 3%Z -> List.length seven_files = 7 ->
           map (@List.length string) batches = [3; 3; 1])
       /\ BatchIndexer.index_all_documents 3 configured text_of_file
            store_accepts true seven_files "/pdf" (inr tt) fresh_indexer
          = (inr r, s')
       /\ BatchIndexer.total_processed r + BatchIndexer.total_failed r
          = List.length seven_files.
Proof.
  split; [lia|]. split; [discriminate|].
  apply (index_all_documents_counts_every_file 3 configured text_of_file
           store_accepts true seven_files "/pdf" (inr tt) fresh_indexer);
    [lia | reflexivity | discriminate].
Defined.

Example index_seven_files_report :
  exists r s',
    BatchIndexer.index_all_documents 3 configured text_of_file
      store_accepts true seven_files "/pdf" (inr tt) fresh_indexer
    = (inr r, s')
    /\ BatchIndexer.success r = true
    /\ BatchIndexer.total_processed r = 6
    /\ BatchIndexer.total_failed r = 1
    /\ BatchIndexer.r_failed_files r = Some ["/pdf/c.pdf"].
Proof. do 2 eexists. split; [vm_compute; reflexivity|]. repeat split. Qed.

Lemma index_all_documents_reports_witness :
  (exists r,
     BatchIndexer.index_all_documents 3 configured text_of_file
       store_accepts false seven_files "/pdf" (inr tt) fresh_indexer
     = (inr r, fresh_indexer)
     /\ BatchIndexer.success r = false
     /\ BatchIndexer.error r <> None
     /\ BatchIndexer.total_processed r = 0)
  /\ (exists r,
        BatchIndexer.index_all_documents 3 configured text_of_file
          store_accepts true [] "/pdf" (inr tt) fresh_indexer
        = (inr r, fresh_indexer)
        /\ BatchIndexer.success r = false
        /\ BatchIndexer.error r <> None
        /\ BatchIndexer.total_processed r = 0)
  /\ (exists r s',
        BatchIndexer.index_all_documents 3 configured (fun _ => "")
          store_accepts true seven_files "/pdf" (inr tt) fresh_indexer
        = (inr r, s')
        /\ (BatchIndexer.success r = true
            <-> 0 < BatchIndexer.total_processed r)).
Proof.
  split; [|split].
  - exact (proj1 (index_all_documents_reports 3 configured text_of_file
                    store_accepts false seven_files "/pdf" (inr tt)
                    fresh_indexer) eq_refl).
  - exact (proj1 (proj2 (index_all_documents_reports 3 configured text_of_file
                           store_accepts true [] "/pdf" (inr tt)
                           fresh_indexer)) eq_refl eq_refl).
  - pose proof (index_all_documents_reports 3 configured (fun _ => "")
                  store_accepts true seven_files "/pdf" (inr tt)
                  fresh_indexer) as (_ & _ & Hiff & Hret).
    destruct (Hret ltac:(discriminate)) as (r & s' & Hrun).
    exists r, s'. split; [exact Hrun | exact (Hiff r s' Hrun)].
Defined.

(** A run in which every file fails is reported as unsuccessful. *)
Example index_all_fail_report :
  exists r s',
    BatchIndexer.index_all_documents 3 configured (fun _ => "")
      store_accepts true seven_files "/pdf" (inr tt) fresh_indexer
    = (inr r, s')
    /\ BatchIndexer.success r = false
    /\ BatchIndexer.total_processed r = 0
    /\ BatchIndexer.total_failed r = 7.
Proof. do 2 eexists. split; [vm_compute; reflexivity|]. repeat split. Qed.

(** A batch size of 0 makes [range] raise, and nothing catches it. *)
Example index_batch_size_zero_raises :
  fst (BatchIndexer.index_all_documents 0 configured text_of_file
         store_accepts true seven_files "/pdf" (inr tt) fresh_indexer)
  = inl (Py.Exn Py.ValueError "range() arg 3 must not be zero").
Proof. reflexivity. Qed.

(** The formatting of the citations raises on an author that is not a
    string; the answer and the sources stay, the citations are empty. *)
Example generate_response_citation_failure :
  CitationGenerator.format_citations_for_response [source_bad_author]
  = inl (Py.Exn Py.AttributeError "'int' object has no attribute 'split'")
  /\ RAGEngine.generate_response search_one prompt_of service_answers
       "Co je mediace?"
     = inr [ ("response", RAGEngine.FStr "Transformative mediation.");
             ("sources", RAGEngine.FSources [source_bad_author]);
             ("citations", RAGEngine.FStr "");
             ("num_sources", RAGEngine.FInt 1) ].
Proof. split; reflexivity. Qed.

End AtExamples.

(* ===================================================================== *)
(** * More on [PDFProcessor.extract_metadata_from_filename]               *)
(* ===================================================================== *)

Section FilenameMetadataMore.

Import PDFProcessor.

(** ** Splitting at a single character *)

Lemma split_aux_absent (sep : string) :
  Py.nonempty sep = true ->
  forall s cur,
    Py.contains sep s = false -> Py.split_aux sep s cur 0 = [cur ++ s].
Proof.
  intros Hsep. induction s as [|c s IH]; intros cur H.
  - cbn. now rewrite append_nil_r.
  - cbn [Py.contains] in H. apply orb_false_iff in H as [Hp Hc].
    cbn [Py.split_aux]. rewrite Hp, (IH _ Hc), append_assoc. reflexivity.
Qed.

Lemma split_absent (sep s : string) :
  Py.nonempty sep = true -> Py.contains sep s = false -> Py.split sep s = [s].
Proof. intros Hsep H. unfold Py.split. now rewrite split_aux_absent. Qed.

Lemma prefix_char (c : ascii) (s : string) :
  prefix (String c "") s = true -> exists s', s = String c s'.
Proof.
  destruct s as [|d s]; cbn; [discriminate|].
  destruct (ascii_dec c d); [subst; eauto | discriminate].
Qed.

Lemma split_aux_first (c : ascii) (a b : string) :
  forall cur,
    Py.contains (String c "") a = false ->
    Py.split_aux (String c "") (a ++ String c b) cur 0
    = (cur ++ a) :: Py.split_aux (String c "") b "" 0.
Proof.
  induction a as [|x a IH]; intros cur H.
  - cbn [append Py.split_aux prefix String.length].
    destruct (ascii_dec c c); [|congruence].
    rewrite append_nil_r. now destruct b.
  - cbn [Py.contains] in H. apply orb_false_iff in H as [Hp Hc].
    cbn [append Py.split_aux].
    assert (Hp' : prefix (String c "") (String x (a ++ String c b)) = false).
    { cbn in *. destruct (ascii_dec c x); [|reflexivity].
      now destruct a. }
    rewrite Hp', (IH _ Hc), append_assoc. reflexivity.
Qed.

Lemma split_first (c : ascii) (a b : string) :
  Py.contains (String c "") a = false ->
  Py.split (String c "") (a ++ String c b) = a :: Py.split (String c "") b.
Proof. intros H. unfold Py.split. now rewrite split_aux_first. Qed.

Lemma split_aux_cons (sep s cur : string) (skip : nat) :
  exists p l, Py.split_aux sep s cur skip = p :: l.
Proof.
  revert cur skip.
  induction s as [|c s IH]; intros cur skip; cbn [Py.split_aux]; [eauto|].
  destruct skip; [destruct (prefix sep (String c s))|]; eauto.
Qed.

(** Joining what a split at one character gives restores the string. *)
Lemma join_split_aux (c : ascii) :
  forall s cur,
    Py.join (String c "") (Py.split_aux (String c "") s cur 0) = cur ++ s.
Proof.
  induction s as [|x s IH]; intros cur.
  - cbn. now rewrite append_nil_r.
  - cbn [Py.split_aux].
    change (String.length (String c "") - 1) with 0.
    destruct (prefix (String c "") (String x s)) eqn:Hp.
    + apply prefix_char in Hp as (s' & [= -> ->]).
      destruct (split_aux_cons (String c "") s' "" 0) as (p & l & E).
      pose proof (IH "") as IH'. rewrite E in *.
      unfold Py.join in *.
      change (String.concat (String c "") (cur :: p :: l))
        with (cur ++ String c "" ++ String.concat (String c "") (p :: l)).
      rewrite IH'. reflexivity.
    + rewrite IH, append_assoc. reflexivity.
Qed.

Lemma join_split (c : ascii) (s : string) :
  Py.join (String c "") (Py.split (String c "") s) = s.
Proof. unfold Py.split. now rewrite join_split_aux. Qed.

Lemma replace_absent (old new s : string) :
  Py.nonempty old = true -> Py.contains old s = false ->
  Py.replace old new s = s.
Proof. intros Ho H. unfold Py.replace. now rewrite split_absent. Qed.

Lemma contains_append_l (sub a b : string) :
  Py.contains sub (a ++ b) = false -> Py.contains sub b = false.
Proof.
  induction a as [|x a IH]; [auto|].
  cbn [append Py.contains]. intros H.
  apply orb_false_iff in H as [_ H]. auto.
Qed.

Lemma contains_char_here (c : ascii) (a b : string) :
  Py.contains (String c "") (a ++ String c b) = true.
Proof.
  induction a as [|x a IH]; cbn [append Py.contains].
  - cbn. destruct (ascii_dec c c); [|congruence]. now destruct b.
  - rewrite IH. apply orb_true_r.
Qed.

(** ** The year *)

Lemma year_at_shape (s : string) :
  year_at s = true ->
  exists c d rest,
    Py.is_digit c = true /\ Py.is_digit d = true
    /\ (s = String "1" (String "9" (String c (String d rest)))
        \/ s = String "2" (String "0" (String c (String d rest)))).
Proof.
  destruct s as [|a [|b [|c [|d rest]]]]; try discriminate.
  unfold year_at. intros H.
  repeat (apply andb_true_iff in H as [H ?]).
  exists c, d, rest. repeat split; try assumption.
  apply orb_true_iff in H as [H|H];
    apply andb_true_iff in H as [Ha Hb];
    apply Ascii.eqb_eq in Ha, Hb; subst; auto.
Qed.

Lemma search_year_found (s : string) :
  forall prev_word y,
    search_year prev_word s = Some y ->
    exists c d,
      Py.is_digit c = true /\ Py.is_digit d = true
      /\ (y = String "1" (String "9" (String c (String d "")))
          \/ y = String "2" (String "0" (String c (String d ""))))
      /\ occurs_in y s.
Proof.
  induction s as [|x s IH]; intros pw y H; [discriminate|].
  cbn [search_year] in H.
  destruct (negb pw && year_at (String x s)) eqn:E.
  - apply andb_true_iff in E as [_ E].
    apply year_at_shape in E as (c & d & rest & Hc & Hd & Hs).
    assert (E0 : substring 0 0 rest = "") by now destruct rest.
    destruct Hs as [Hs|Hs]; rewrite Hs in *; injection H as <-;
      cbn [substring]; rewrite E0;
      exists c, d; repeat split; try assumption;
      solve [auto | exists "", rest; reflexivity].
  - apply IH in H as (c & d & Hc & Hd & Hy & (before & after & ->)).
    exists c, d. repeat split; try assumption.
    now exists (String x before), after.
Qed.

(** ** The dictionary *)

Lemma metadata_keys_of_filename (filename : string) :
  map fst (extract_metadata_from_filename filename)
  = ["filename"; "title"; "author"; "year"; "source_type"]
  /\ Py.get "filename" (extract_metadata_from_filename filename)
     = Some (Py.VStr filename).
Proof.
  unfold extract_metadata_from_filename.
  destruct (Py.contains "_" _); destruct (Py.contains "," _);
    repeat match goal with
           | |- context [if ?b then _ else _] => destruct b
           end;
    destruct (search_year false _); repeat split.
Qed.

(** X1: The metadata have the five keys of the dictionary display, in its
    order, whatever the filename; [filename] is the filename given and
    [source_type] is [document]. *)
Theorem extract_metadata_keys (filename : string) :
  map fst (extract_metadata_from_filename filename)
  = ["filename"; "title"; "author"; "year"; "source_type"]
  /\ Py.get "filename" (extract_metadata_from_filename filename)
     = Some (Py.VStr filename)
  /\ Py.get "source_type" (extract_metadata_from_filename filename)
     = Some (Py.VStr "document").
Proof.
  unfold extract_metadata_from_filename.
  destruct (Py.contains "_" _); destruct (Py.contains "," _);
    repeat match goal with
           | |- context [if ?b then _ else _] => destruct b
           end;
    destruct (search_year false _); repeat split.
Qed.

Ltac metadata_cases :=
  repeat match goal with
         | |- context [if ?b then _ else _] => destruct b
         end.

(** X2: The year is [Unknown], or four digits that begin with 19 or 20 and
    stand in the name. *)
Theorem extract_metadata_year (filename : string) :
  exists y,
    Py.get "year" (extract_metadata_from_filename filename) = Some (Py.VStr y)
    /\ (y = "Unknown"
        \/ exists c d,
             Py.is_digit c = true /\ Py.is_digit d = true
             /\ (y = String "1" (String "9" (String c (String d "")))
                 \/ y = String "2" (String "0" (String c (String d ""))))
             /\ occurs_in y (Py.replace ".pdf" "" filename)).
Proof.
  unfold extract_metadata_from_filename.
  destruct (search_year false (Py.replace ".pdf" "" filename)) as [y|] eqn:Hy.
  - exists y. split.
    + destruct (Py.contains "_" _); destruct (Py.contains "," _);
        metadata_cases; reflexivity.
    + right. apply search_year_found in Hy as (c & d & Hc & Hd & Hs & Hocc).
      exists c, d. auto.
  - exists "Unknown". split; [|now left].
    destruct (Py.contains "_" _); destruct (Py.contains "," _);
      metadata_cases; reflexivity.
Qed.

(** X3: A name with neither an underscore nor a comma keeps the defaults: the
    author is [Unknown] and the title is the name. *)
Theorem extract_metadata_plain_name (filename : string) :
  Py.contains "_" (Py.replace ".pdf" "" filename) = false ->
  Py.contains "," (Py.replace ".pdf" "" filename) = false ->
  Py.get "author" (extract_metadata_from_filename filename)
  = Some (Py.VStr "Unknown")
  /\ Py.get "title" (extract_metadata_from_filename filename)
     = Some (Py.VStr (Py.replace ".pdf" "" filename)).
Proof.
  intros Hu Hc. unfold extract_metadata_from_filename.
  rewrite Hu, Hc. cbn [andb].
  destruct (search_year false _); split; reflexivity.
Qed.

(** X4: A name with one comma and no underscore: the author is what stands
    before the comma and the title what stands after it, both stripped. *)
Theorem extract_metadata_one_comma_name (filename a b : string) :
  Py.replace ".pdf" "" filename = a ++ "," ++ b ->
  Py.contains "," a = false ->
  Py.contains "," b = false ->
  Py.contains "_" (a ++ "," ++ b) = false ->
  Py.get "author" (extract_metadata_from_filename filename)
  = Some (Py.VStr (Py.strip a))
  /\ Py.get "title" (extract_metadata_from_filename filename)
     = Some (Py.VStr (Py.strip b)).
Proof.
  intros Hname Ha Hb Hu. unfold extract_metadata_from_filename.
  rewrite Hname, Hu.
  change (a ++ "," ++ b) with (a ++ String "," b).
  rewrite contains_char_here, split_first, split_absent by (reflexivity || assumption).
  cbn [andb negb List.length Nat.leb nth].
  destruct (search_year false _); split; reflexivity.
Qed.

(** X5: A name with an underscore: when what stands before the first
    underscore has at most three words, it is the author, and the title is
    the rest with its underscores turned into spaces; otherwise the author
    is [Unknown] and the title is the name.  A comma in such a name plays no
    part. *)
Theorem extract_metadata_underscore_name (filename a rest : string) :
  Py.replace ".pdf" "" filename = a ++ "_" ++ rest ->
  Py.contains "_" a = false ->
  Py.get "author" (extract_metadata_from_filename filename)
  = Some (Py.VStr (if (List.length (Py.split_ws a) <=? 3)%nat
                   then a else "Unknown"))
  /\ Py.get "title" (extract_metadata_from_filename filename)
     = Some (Py.VStr (if (List.length (Py.split_ws a) <=? 3)%nat
                      then Py.replace "_" " " rest
                      else a ++ "_" ++ rest)).
Proof.
  intros Hname Ha. unfold extract_metadata_from_filename.
  rewrite Hname.
  change (a ++ "_" ++ rest) with (a ++ String "_" rest).
  rewrite contains_char_here, split_first by assumption.
  cbn [andb negb nth tl].
  rewrite join_split, (replace_absent "_" " " a) by (reflexivity || assumption).
  assert (H2 : (2 <=? List.length (a :: Py.split "_" rest))%nat = true).
  { unfold Py.split. destruct (split_aux_cons "_" rest "" 0) as (p & l & E).
    now rewrite E. }
  rewrite H2, andb_false_r.
  destruct (List.length (Py.split_ws a) <=? 3)%nat;
    destruct (search_year false _); split; reflexivity.
Qed.

End FilenameMetadataMore.

(* ===================================================================== *)
(** * More on [PDFProcessor.chunk_text]                                   *)
(* ===================================================================== *)

Section ChunkTextMore.

Import PDFProcessor.

Lemma append_cancel_l (a x y : string) : a ++ x = a ++ y -> x = y.
Proof. induction a as [|c a IH]; cbn; [auto|]. intros [= H]. auto. Qed.

Lemma str_of_nat_inj (n m : nat) : Py.str_of_nat n = Py.str_of_nat m -> n = m.
Proof.
  unfold Py.str_of_nat. intros H.
  assert (Hread : forall d,
             exists d',
               NilZero.uint_of_string (NilZero.string_of_uint d) = Some d'
               /\ Nat.of_uint d' = Nat.of_uint d).
  { intros d. destruct (Decimal.uint_eq_dec d Decimal.Nil) as [-> | Hd].
    - exists Decimal.zero. split; reflexivity.
    - exists d. split; [now apply NilZero.usu | reflexivity]. }
  destruct (Hread (Nat.to_uint n)) as (dn & Hn & En).
  destruct (Hread (Nat.to_uint m)) as (dm & Hm & Em).
  rewrite H, Hm in Hn. injection Hn as <-.
  rewrite <- (Unsigned.of_to n), <- (Unsigned.of_to m). congruence.
Qed.

Lemma chunks_of_buffers_ids (fn : Py.value) (bufs : list string) :
  forall l i c,
    In c (chunks_of_buffers fn l i bufs) ->
    exists n, i <= n /\ c_id c = Py.str fn ++ "_chunk_" ++ Py.str_of_nat n.
Proof.
  induction bufs as [|b bufs IH]; intros l i c []; subst.
  - exists i. split; [lia | reflexivity].
  - destruct (IH _ _ _ H) as (n & Hn & E). exists n. split; [lia | exact E].
Qed.

Lemma chunks_of_buffers_nodup (fn : Py.value) (bufs : list string) :
  forall l i, NoDup (map c_id (chunks_of_buffers fn l i bufs)).
Proof.
  induction bufs as [|b bufs IH]; intros l i; cbn; constructor; [|apply IH].
  intros Hin. apply in_map_iff in Hin as (c & E & Hc).
  apply chunks_of_buffers_ids in Hc as (n & Hn & E').
  rewrite E' in E. apply append_cancel_l in E.
  change ("_chunk_" ++ Py.str_of_nat n) with ("_chunk_" ++ Py.str_of_nat n) in E.
  apply (append_cancel_l "_chunk_") in E.
  apply str_of_nat_inj in E. lia.
Qed.

(** X6: The ids of the chunks of one run are pairwise different. *)
Theorem chunk_text_ids_distinct (self : t) (text : string) (metadata : loc)
  (h : heap) (chunks : list Chunk) (h' : heap) :
  chunk_text self text metadata h = (inr chunks, h') ->
  NoDup (map c_id chunks).
Proof.
  intros Hrun.
  apply chunk_text_returns in Hrun as [(fn & _ & -> & _) | (_ & -> & _)].
  - apply chunks_of_buffers_nodup.
  - constructor.
Qed.

Lemma strip_trimmed (b : string) : tight b -> trimmed (Py.strip b).
Proof.
  intros Hb. split.
  - apply strip_tight. now apply tight_strip_nonempty.
  - unfold Py.strip. apply lstrip_idem.
Qed.

Lemma strip_of_trimmed (s : string) : trimmed s -> Py.strip s = s.
Proof. intros [Ht Hl]. now rewrite (strip_of_tight _ Ht). Qed.

Lemma chunk_buffers_tight (self : t) (text : string) :
  Forall tight (chunk_buffers self text).
Proof.
  destruct (blank text) eqn:Hb.
  - rewrite chunk_buffers_blank by exact Hb. constructor.
  - destruct (chunk_buffers_bseq self _ Hb) as (p & ps & Hps & ->).
    pose proof (paragraphs_trimmed text) as Htr. rewrite Hps in Htr.
    inversion Htr as [|? ? [Hp _] Hps']; subst.
    now destruct (bseq_props self ps p Hps' Hp) as (Ht & _).
Qed.

(** X7: No chunk has an empty text, and no text starts or ends with
    whitespace. *)
Theorem chunk_text_texts_trimmed (self : t) (text : string) (metadata : loc)
  (h : heap) (chunks : list Chunk) (h' : heap) :
  chunk_text self text metadata h = (inr chunks, h') ->
  forall c,
    In c chunks ->
    Py.nonempty (c_text c) = true
    /\ Py.lstrip (c_text c) = c_text c
    /\ Py.rstrip (c_text c) = c_text c.
Proof.
  intros Hrun c Hc.
  apply chunk_text_returns in Hrun as [(fn & _ & -> & _) | (_ & -> & _)];
    [|destruct Hc].
  apply In_nth_error in Hc as (n & Hn).
  apply chunks_of_buffers_nth in Hn as (b & Hb & ->). cbn [c_text].
  pose proof (chunk_buffers_tight self text) as Ht.
  rewrite Forall_forall in Ht.
  destruct (strip_trimmed b (Ht _ (nth_error_In _ _ Hb))) as [[Hne Hr] Hl].
  auto.
Qed.

Lemma bseq_length (self : t) (ps : list string) :
  forall cur, 1 <= List.length (bseq self ps cur) <= S (List.length ps).
Proof.
  induction ps as [|p ps IH]; intros cur.
  - rewrite bseq_nil. cbn. lia.
  - destruct ((Z.of_nat (String.length cur) + Z.of_nat (String.length p)
               >? chunk_size self)%Z && Py.nonempty cur)%bool eqn:Hc.
    + rewrite (bseq_close _ _ _ _ Hc). cbn [List.length].
      specialize (IH (overlap_text self cur ++ Py.LF ++ Py.LF ++ p)). lia.
    + rewrite (bseq_extend _ _ _ _ Hc). cbn [List.length].
      specialize (IH (if Py.nonempty cur
                      then cur ++ Py.LF ++ Py.LF ++ p else p)). lia.
Qed.

(** X8: A text that is not blank gives at least one chunk and at most one
    chunk for each paragraph; a blank text gives none. *)
Theorem chunk_text_count (self : t) (text : string) (metadata : loc)
  (h : heap) (chunks : list Chunk) (h' : heap) :
  chunk_text self text metadata h = (inr chunks, h') ->
  (blank text = true -> chunks = [])
  /\ (blank text = false ->
      1 <= List.length chunks <= List.length (paragraphs_of text)).
Proof.
  intros Hrun.
  apply chunk_text_returns in Hrun as [(fn & _ & -> & _) | (Hb & -> & _)].
  - split; intros Hb.
    + now rewrite chunk_buffers_blank.
    + rewrite chunks_of_buffers_length.
      destruct (chunk_buffers_bseq self _ Hb) as (p & ps & -> & ->).
      pose proof (bseq_length self ps p). cbn [List.length]. lia.
  - split; [reflexivity | congruence].
Qed.

(** ** A text of one paragraph *)

Lemma paragraphs_single (text : string) :
  Py.contains (Py.LF ++ Py.LF) text = false ->
  blank text = false ->
  paragraphs_of text = [Py.strip text].
Proof.
  intros Hc Hb. unfold paragraphs_of.
  rewrite split_absent by (reflexivity || assumption).
  cbn [filter]. destruct (Py.nonempty (Py.strip text)) eqn:E; [reflexivity|].
  apply strip_nonempty_blank in E. congruence.
Qed.

(** X9: A text with no blank line in it is one paragraph, and it is not cut,
    whatever its length and the chunk size: the run gives one chunk, whose
    text is the stripped text. *)
Theorem chunk_text_single_paragraph (self : t) (text : string)
  (metadata : loc) (h : heap) (fn : Py.value) :
  Py.contains (Py.LF ++ Py.LF) text = false ->
  blank text = false ->
  Py.get "filename" (nth metadata h []) = Some fn ->
  chunk_text self text metadata h
  = (inr [ {| c_id := Py.str fn ++ "_chunk_0";
              c_text := Py.strip text;
              c_metadata := List.length h;
              c_chunk_index := 0 |} ],
     (h ++ [nth metadata h []])%list).
Proof.
  intros Hc Hb Hfn. rewrite (chunk_text_ok _ _ _ _ _ Hfn).
  destruct (chunk_buffers_bseq self _ Hb) as (p & ps & Hps & ->).
  rewrite (paragraphs_single _ Hc Hb) in Hps. injection Hps as <- <-.
  rewrite bseq_nil. cbn [chunks_of_buffers List.length repeat].
  pose proof (paragraphs_trimmed text) as Htr.
  rewrite (paragraphs_single _ Hc Hb) in Htr. inversion Htr; subst.
  now rewrite strip_of_trimmed.
Qed.

(** ** A text that fits *)

Lemma join_cons (sep p q : string) (l : list string) :
  Py.join sep (p :: q :: l) = p ++ sep ++ Py.join sep (q :: l).
Proof. reflexivity. Qed.

Lemma join_trimmed (ps : list string) :
  forall p,
    trimmed p -> Forall trimmed ps ->
    trimmed (Py.join (Py.LF ++ Py.LF) (p :: ps))
    /\ exists rest, Py.join (Py.LF ++ Py.LF) (p :: ps) = p ++ rest.
Proof.
  induction ps as [|q ps IH]; intros p Hp Hps.
  - split; [exact Hp|]. exists "". cbn. now rewrite append_nil_r.
  - inversion Hps as [|? ? Hq Hps']; subst.
    destruct (IH q Hq Hps') as ([Ht Hl] & _).
    rewrite join_cons. split; [|eauto].
    split.
    + now repeat apply tight_append.
    + rewrite lstrip_append by (apply tight_not_blank, Hp).
      now rewrite (proj2 Hp).
Qed.

Lemma nonempty_append_l (a b : string) :
  Py.nonempty a = true -> Py.nonempty (a ++ b) = true.
Proof. now destruct a. Qed.

Lemma join_merge (sep cur p : string) (ps : list string) :
  Py.join sep ((cur ++ sep ++ p) :: ps) = Py.join sep (cur :: p :: ps).
Proof.
  destruct ps as [|q ps]; [reflexivity|].
  rewrite !join_cons. now rewrite !append_assoc.
Qed.

Lemma join_head_length (sep p : string) (ps : list string) :
  String.length p <= String.length (Py.join sep (p :: ps)).
Proof.
  destruct ps as [|q ps]; [cbn; lia|].
  rewrite join_cons, length_append. lia.
Qed.

Lemma buffers_loop_fits (self : t) (ps : list string) :
  forall cur,
    Py.nonempty cur = true ->
    (Z.of_nat (String.length (Py.join (Py.LF ++ Py.LF) (cur :: ps)))
     <= chunk_size self)%Z ->
    buffers_loop self ps cur = ([], Py.join (Py.LF ++ Py.LF) (cur :: ps)).
Proof.
  induction ps as [|p ps IH]; intros cur Hne Hlen; [reflexivity|].
  cbn [buffers_loop]. rewrite Hne.
  assert (Hfit : (Z.of_nat (String.length cur) + Z.of_nat (String.length p)
                  >? chunk_size self)%Z = false).
  { rewrite join_cons, !length_append in Hlen.
    pose proof (join_head_length (Py.LF ++ Py.LF) p ps).
    destruct (Z.gtb_spec (Z.of_nat (String.length cur)
                          + Z.of_nat (String.length p)) (chunk_size self));
      [lia | reflexivity]. }
  rewrite Hfit. cbn [andb].
  change (cur ++ Py.LF ++ Py.LF ++ p) with (cur ++ (Py.LF ++ Py.LF) ++ p).
  rewrite IH.
  - now rewrite join_merge.
  - now apply nonempty_append_l.
  - now rewrite join_merge.
Qed.

(** X10: When the paragraphs, joined by blank lines, fit in [chunk_size], the
    run gives one chunk, and its text is the paragraphs joined. *)
Theorem chunk_text_fits (self : t) (text : string) (metadata : loc)
  (h : heap) (fn : Py.value) :
  blank text = false ->
  Py.get "filename" (nth metadata h []) = Some fn ->
  (Z.of_nat (String.length (Py.join (Py.LF ++ Py.LF) (paragraphs_of text)))
   <= chunk_size self)%Z ->
  chunk_text self text metadata h
  = (inr [ {| c_id := Py.str fn ++ "_chunk_0";
              c_text := Py.join (Py.LF ++ Py.LF) (paragraphs_of text);
              c_metadata := List.length h;
              c_chunk_index := 0 |} ],
     (h ++ [nth metadata h []])%list).
Proof.
  intros Hb Hfn Hlen. rewrite (chunk_text_ok _ _ _ _ _ Hfn).
  destruct (chunk_buffers_bseq self _ Hb) as (p & ps & Hps & ->).
  rewrite Hps in *.
  pose proof (paragraphs_trimmed text) as Htr. rewrite Hps in Htr.
  inversion Htr as [|? ? Hp Hps']; subst.
  unfold bseq. rewrite buffers_loop_fits; [|apply Hp|exact Hlen].
  cbn [fst snd app chunks_of_buffers List.length repeat].
  rewrite strip_of_trimmed; [reflexivity|].
  now apply join_trimmed.
Qed.

(** ** An overlap of 0 *)

Lemma overlap_text_zero (self : t) (cur : string) :
  chunk_overlap self = 0%Z -> overlap_text self cur = cur.
Proof.
  intros Ho. unfold overlap_text, Py.slice_from. rewrite Ho. cbn.
  destruct (Z.of_nat (String.length cur) >? 0)%Z; [|reflexivity].
  now destruct cur.
Qed.

(** X11: With [chunk_overlap = 0] the slice [current_chunk[-0:]] is the whole
    buffer: nothing is dropped when a chunk is closed, and the text of each
    chunk is a prefix of the text of the next. *)
Theorem chunk_text_zero_overlap_accumulates (self : t) (text : string)
  (metadata : loc) (h : heap) (chunks : list Chunk) (h' : heap) :
  chunk_overlap self = 0%Z ->
  chunk_text self text metadata h = (inr chunks, h') ->
  forall i c d,
    nth_error chunks i = Some c ->
    nth_error chunks (S i) = Some d ->
    prefix (c_text c) (c_text d) = true
    /\ String.length (c_text c) < String.length (c_text d).
Proof.
  intros Ho Hrun i c d Hc Hd.
  apply chunk_text_returns in Hrun as [(fn & _ & -> & _) | (_ & -> & _)];
    [|now destruct i].
  apply chunks_of_buffers_nth in Hc as (b & Hb & ->).
  apply chunks_of_buffers_nth in Hd as (b' & Hb' & ->).
  cbn [c_text].
  destruct (blank text) eqn:Hblank.
  { rewrite chunk_buffers_blank in Hb by exact Hblank. now destruct i. }
  pose proof (chunk_buffers_tight self text) as Ht.
  rewrite Forall_forall in Ht.
  pose proof (Ht _ (nth_error_In _ _ Hb)) as Htb.
  pose proof (Ht _ (nth_error_In _ _ Hb')) as Htb'.
  destruct (chunk_buffers_bseq self _ Hblank) as (p & ps & Hps & E).
  rewrite E in Hb, Hb'.
  pose proof (paragraphs_trimmed text) as Htr. rewrite Hps in Htr.
  inversion Htr as [|? ? [Hp _] Hps']; subst.
  destruct (bseq_props self ps p Hps' Hp) as (_ & Hch & _).
  destruct (chain_nth _ _ Hch _ _ _ Hb Hb') as (rest & ->).
  rewrite overlap_text_zero in * by exact Ho.
  rewrite (strip_of_tight _ Htb), (strip_of_tight _ Htb').
  rewrite lstrip_append by now apply tight_not_blank.
  split; [apply prefix_append|].
  rewrite !length_append, LF_length. lia.
Qed.

End ChunkTextMore.

(* ===================================================================== *)
(** * More on [BatchIndexer]                                              *)
(* ===================================================================== *)

Section BatchIndexerMore.

Import BatchIndexer.

Variable batch_size : Z.
Variable pdf_processor : PDFProcessor.t.
Variable extract_text_from_pdf : string -> string.
Variable vector_db_add_documents : list Document -> result unit.
Variable pdf_dir_exists : bool.
Variable pdf_dir_glob : list string.
Variable pdf_dir_name : string.
Variable time_sleep : result unit.

Local Abbreviation process_batch_body :=
  (BatchIndexer.process_batch_body pdf_processor extract_text_from_pdf
     vector_db_add_documents).
Local Abbreviation process_batch :=
  (BatchIndexer.process_batch pdf_processor extract_text_from_pdf
     vector_db_add_documents).
Local Abbreviation index_body :=
  (BatchIndexer.index_body pdf_processor extract_text_from_pdf
     vector_db_add_documents time_sleep).
Local Abbreviation index_all_documents :=
  (BatchIndexer.index_all_documents batch_size pdf_processor
     extract_text_from_pdf vector_db_add_documents pdf_dir_exists
     pdf_dir_glob pdf_dir_name time_sleep).
Local Abbreviation with_text := (has_text extract_text_from_pdf).
Local Abbreviation without_text :=
  (fun f => negb (has_text extract_text_from_pdf f)).

(** ** The metadata object of a file *)

Lemma setitem_last (k : string) (v : Py.value) (h : heap) (d : Py.dict) :
  setitem (List.length h) k v (h ++ [d])%list
  = (inr tt, (h ++ [Py.set k v d])%list).
Proof.
  unfold setitem. f_equal.
  rewrite firstn_app, firstn_all, Nat.sub_diag. cbn [firstn].
  rewrite nth_error_app2, Nat.sub_diag by lia. cbn [nth_error].
  rewrite skipn_all2 by (rewrite length_app; cbn; lia).
  now rewrite app_nil_r.
Qed.

Lemma extract_text_and_metadata_run (pdf_file : string) (h : heap) :
  extract_text_and_metadata extract_text_from_pdf pdf_file h
  = (inr (extract_text_from_pdf pdf_file, List.length h),
     (h ++ [metadata_of_path pdf_file])%list).
Proof.
  unfold extract_text_and_metadata, bind, alloc. cbn beta iota.
  rewrite setitem_last. reflexivity.
Qed.

Lemma get_set_other (k k' : string) (v : Py.value) (d : Py.dict) :
  k <> k' -> Py.get k (Py.set k' v d) = Py.get k d.
Proof.
  intros Hk. induction d as [|[k0 v0] d IH]; cbn.
  - destruct (String.eqb_spec k k'); [contradiction | reflexivity].
  - destruct (String.eqb_spec k' k0) as [<-|Hne]; cbn.
    + destruct (String.eqb_spec k k'); [contradiction | reflexivity].
    + destruct (String.eqb k k0); [reflexivity | exact IH].
Qed.

Lemma metadata_of_path_fields (pdf_file : string) :
  Py.get "filename" (metadata_of_path pdf_file)
  = Some (Py.VStr (PDFProcessor.basename pdf_file))
  /\ (exists v, Py.get "author" (metadata_of_path pdf_file) = Some v)
  /\ (exists v, Py.get "title" (metadata_of_path pdf_file) = Some v)
  /\ (exists v, Py.get "year" (metadata_of_path pdf_file) = Some v).
Proof.
  unfold metadata_of_path.
  rewrite !get_set_other by discriminate.
  destruct (metadata_keys_of_filename (PDFProcessor.basename pdf_file))
    as (Hkeys & Hfn).
  split; [exact Hfn|].
  destruct (PDFProcessor.extract_metadata_from_filename _)
    as [|[k1 v1] [|[k2 v2] [|[k3 v3] [|[k4 v4] m]]]]; try discriminate.
  injection Hkeys as -> -> -> -> _. cbn. repeat split; eexists; reflexivity.
Qed.

(** ** The documents of the chunks *)

Lemma getitem_found (l : loc) (k : string) (h : heap) (v : Py.value) :
  Py.get k (nth l h []) = Some v -> getitem l k h = (inr v, h).
Proof. intros H. unfold getitem, bind, deref, ret. now rewrite H. Qed.

Lemma document_of_chunk_run (md : Py.dict) (h : heap)
  (c : PDFProcessor.Chunk) :
  (exists v, Py.get "filename" md = Some v) ->
  (exists v, Py.get "author" md = Some v) ->
  (exists v, Py.get "title" md = Some v) ->
  (exists v, Py.get "year" md = Some v) ->
  nth (PDFProcessor.c_metadata c) h [] = md ->
  exists doc, document_of_chunk c h = (inr doc, h).
Proof.
  intros (v1 & H1) (v2 & H2) (v3 & H3) (v4 & H4) Hc.
  unfold document_of_chunk, bind, ret.
  rewrite !(getitem_found _ _ _ v1) by now rewrite Hc.
  rewrite !(getitem_found _ _ _ v2) by now rewrite Hc.
  rewrite !(getitem_found _ _ _ v3) by now rewrite Hc.
  rewrite !(getitem_found _ _ _ v4) by now rewrite Hc.
  eauto.
Qed.

Lemma documents_loop (md : Py.dict) (h : heap)
  (chunks : list PDFProcessor.Chunk) :
  (exists v, Py.get "filename" md = Some v) ->
  (exists v, Py.get "author" md = Some v) ->
  (exists v, Py.get "title" md = Some v) ->
  (exists v, Py.get "year" md = Some v) ->
  Forall (fun c => nth (PDFProcessor.c_metadata c) h [] = md) chunks ->
  forall acc,
  exists documents,
    for_each
      (fun documents chunk =>
         doc <- document_of_chunk chunk ;; ret (documents ++ [doc])%list)
      chunks acc h
    = (inr documents, h).
Proof.
  intros H1 H2 H3 H4 HF.
  induction HF as [|c cs Hc HF IH]; intros acc; [eexists; reflexivity|].
  cbn [for_each].
  destruct (document_of_chunk_run md h c H1 H2 H3 H4 Hc) as (doc & Hdoc).
  unfold bind at 1. unfold bind at 1. rewrite Hdoc. unfold ret at 1.
  apply IH.
Qed.

Lemma chunks_metadata_in_store (fn : Py.value) (md : Py.dict)
  (bufs : list string) (h : heap) :
  Forall (fun c => nth (PDFProcessor.c_metadata c)
                     (h ++ repeat md (List.length bufs))%list [] = md)
    (PDFProcessor.chunks_of_buffers fn (List.length h) 0 bufs).
Proof.
  apply Forall_forall. intros c Hc.
  apply In_nth_error in Hc as (n & Hn).
  pose proof (proj1 (nth_error_Some _ _) ltac:(rewrite Hn; discriminate)) as Hi.
  rewrite chunks_of_buffers_length in Hi.
  apply chunks_of_buffers_nth in Hn as (b & _ & ->).
  cbn [PDFProcessor.c_metadata].
  rewrite app_nth2 by lia.
  replace (List.length h + n - List.length h) with n by lia.
  now apply nth_repeat_lt.
Qed.

(** ** One file *)

Lemma process_file_without_text (br : batch_results) (pdf_file : string)
  (s : state) :
  with_text pdf_file = false ->
  exists s',
    process_batch_body br pdf_file s
    = (inr {| processed := processed br;
              failed := failed br + 1;
              total_chunks := total_chunks br;
              errors := errors br |}, s')
    /\ processed_files s' = processed_files s
    /\ failed_files s' = (failed_files s ++ [pdf_file])%list.
Proof.
  unfold has_text. intros Hblank.
  unfold BatchIndexer.process_batch_body, try_except.
  unfold bind at 1. unfold on_store at 1.
  rewrite extract_text_and_metadata_run, Hblank. cbn [negb].
  unfold bind, append_failed, ret. eexists. repeat split.
Qed.

Lemma process_file_with_text (br : batch_results) (pdf_file : string)
  (s : state) :
  with_text pdf_file = true ->
  exists s',
    process_batch_body br pdf_file s
    = (inr {| processed := processed br + 1;
              failed := failed br;
              total_chunks :=
                total_chunks br
                + chunk_count pdf_processor extract_text_from_pdf pdf_file;
              errors := errors br |}, s')
    /\ processed_files s' = (processed_files s ++ [pdf_file])%list
    /\ failed_files s' = failed_files s
    /\ 1 <= chunk_count pdf_processor extract_text_from_pdf pdf_file.
Proof.
  unfold has_text, chunk_count. intros Htext.
  assert (Hb : blank (extract_text_from_pdf pdf_file) = false).
  { destruct (blank _) eqn:E; [|reflexivity].
    apply strip_nonempty_blank in E. congruence. }
  pose proof (chunk_buffers_nonempty pdf_processor _ Hb) as Hne.
  destruct (metadata_of_path_fields pdf_file) as (Hfn & Ha & Ht & Hy).
  unfold BatchIndexer.process_batch_body, try_except.
  unfold bind at 1. unfold on_store at 1.
  rewrite extract_text_and_metadata_run, Htext. cbn [negb store].
  unfold bind at 1. unfold on_store at 1. cbn [store].
  rewrite (chunk_text_ok pdf_processor (List.length (store s)) _ _
             (Py.VStr (PDFProcessor.basename pdf_file)))
    by (rewrite nth_middle; exact Hfn).
  rewrite nth_middle.
  destruct (PDFProcessor.chunk_buffers pdf_processor
              (extract_text_from_pdf pdf_file)) as [|b bufs] eqn:Ebufs;
    [congruence|].
  rewrite <- Ebufs.
  set (chunks := PDFProcessor.chunks_of_buffers _ _ 0 _).
  assert (Hchunks : exists c cs, chunks = c :: cs).
  { subst chunks. rewrite Ebufs. cbn. eauto. }
  destruct Hchunks as (c & cs & Echunks). rewrite Echunks.
  unfold bind at 1. unfold on_store at 1. cbn [store].
  destruct (documents_loop (metadata_of_path pdf_file)
              ((store s ++ [metadata_of_path pdf_file])
               ++ repeat (metadata_of_path pdf_file)
                    (List.length (PDFProcessor.chunk_buffers pdf_processor
                                    (extract_text_from_pdf pdf_file))))%list
              chunks (ex_intro _ _ Hfn) Ha Ht Hy
              (chunks_metadata_in_store _ _ _ _) [])
    as (documents & Hdocs).
  rewrite Echunks in Hdocs. rewrite Hdocs.
  assert (Hlen : List.length (c :: cs)
                 = List.length (PDFProcessor.chunk_buffers pdf_processor
                                  (extract_text_from_pdf pdf_file))).
  { rewrite <- Echunks. subst chunks. apply chunks_of_buffers_length. }
  unfold bind, append_processed, ret. rewrite Hlen.
  eexists. split; [reflexivity|]. cbn [processed_files failed_files].
  repeat split. rewrite Ebufs. cbn. lia.
Qed.

(** ** One batch *)

Lemma list_sum_cons (x : nat) (l : list nat) :
  list_sum (x :: l) = x + list_sum l.
Proof. reflexivity. Qed.

Lemma process_batch_loop_exact (pdf_files : list string) :
  forall br s,
  exists s',
    for_each process_batch_body pdf_files br s
    = (inr {| processed :=
                processed br + List.length (filter with_text pdf_files);
              failed :=
                failed br + List.length (filter without_text pdf_files);
              total_chunks :=
                total_chunks br
                + list_sum (map (chunk_count pdf_processor extract_text_from_pdf)
                              (filter with_text pdf_files));
              errors := errors br |}, s')
    /\ processed_files s'
       = (processed_files s ++ filter with_text pdf_files)%list
    /\ failed_files s'
       = (failed_files s ++ filter without_text pdf_files)%list.
Proof.
  induction pdf_files as [|f l IH]; intros br s.
  - exists s. cbn. rewrite !Nat.add_0_r, !app_nil_r. now destruct br.
  - cbn [for_each filter]. unfold bind at 1.
    destruct (with_text f) eqn:Hf; cbn [negb].
    + destruct (process_file_with_text br f s Hf) as (s1 & -> & Hp & Hfl & _).
      destruct (IH {| processed := processed br + 1;
                      failed := failed br;
                      total_chunks :=
                        total_chunks br
                        + chunk_count pdf_processor extract_text_from_pdf f;
                      errors := errors br |} s1) as (s2 & -> & Hp2 & Hf2).
      exists s2. cbn [processed failed total_chunks errors map list_sum
                        List.length].
      split; [do 2 f_equal; f_equal; rewrite ?list_sum_cons; lia|].
      rewrite Hp2, Hf2, Hp, Hfl, <- app_assoc. split; reflexivity.
    + destruct (process_file_without_text br f s Hf) as (s1 & -> & Hp & Hfl).
      destruct (IH {| processed := processed br;
                      failed := failed br + 1;
                      total_chunks := total_chunks br;
                      errors := errors br |} s1) as (s2 & -> & Hp2 & Hf2).
      exists s2. cbn [processed failed total_chunks errors List.length].
      split; [do 2 f_equal; f_equal; rewrite ?list_sum_cons; lia|].
      rewrite Hp2, Hf2, Hp, Hfl, <- app_assoc. split; reflexivity.
Qed.

(** X16: [process_batch] counts as processed the files whose text is not blank
    and as failed the others, whatever the vector store answers; it records
    no error; it appends the files, in order, to [processed_files] and to
    [failed_files]; and [total_chunks] is at least the number of processed
    files. *)
Theorem process_batch_exact (pdf_files : list string) (s : state) :
  exists br s',
    process_batch pdf_files s = (inr br, s')
    /\ processed br = List.length (filter with_text pdf_files)
    /\ failed br = List.length (filter without_text pdf_files)
    /\ errors br = []
    /\ total_chunks br
       = list_sum (map (chunk_count pdf_processor extract_text_from_pdf)
                     (filter with_text pdf_files))
    /\ processed br <= total_chunks br
    /\ processed_files s'
       = (processed_files s ++ filter with_text pdf_files)%list
    /\ failed_files s'
       = (failed_files s ++ filter without_text pdf_files)%list.
Proof.
  destruct (process_batch_loop_exact pdf_files
              {| processed := 0; failed := 0; total_chunks := 0; errors := [] |} s)
    as (s' & Hrun & Hp & Hf).
  do 2 eexists. split; [exact Hrun|].
  cbn [processed failed total_chunks errors]. repeat split; try assumption.
  clear Hrun Hp Hf. induction pdf_files as [|f l IH]; cbn [filter]; [cbn; lia|].
  destruct (with_text f) eqn:Hf; [|exact IH].
  cbn [List.length map]. rewrite list_sum_cons.
  assert (1 <= chunk_count pdf_processor extract_text_from_pdf f).
  { destruct (process_file_with_text
                {| processed := 0; failed := 0; total_chunks := 0; errors := [] |}
                f {| store := []; processed_files := []; failed_files := [] |} Hf)
      as (_ & _ & _ & _ & H). exact H. }
  lia.
Qed.

(** ** All the batches *)

Lemma index_body_exact (n : nat) (tr : total_results) (i : nat)
  (batch : list string) (s : state) :
  exists tr' s',
    index_body n tr (i, batch) s = (inr tr', s')
    /\ tr_total_processed tr'
       = tr_total_processed tr + List.length (filter with_text batch)
    /\ tr_total_failed tr'
       = tr_total_failed tr + List.length (filter without_text batch)
    /\ tr_total_chunks tr'
       = tr_total_chunks tr
         + list_sum (map (chunk_count pdf_processor extract_text_from_pdf)
                       (filter with_text batch))
    /\ processed_files s' = (processed_files s ++ filter with_text batch)%list
    /\ failed_files s' = (failed_files s ++ filter without_text batch)%list.
Proof.
  unfold BatchIndexer.index_body, try_except. unfold bind at 1.
  destruct (process_batch_loop_exact batch
              {| processed := 0; failed := 0; total_chunks := 0; errors := [] |} s)
    as (s1 & Hrun & Hp & Hf).
  unfold BatchIndexer.process_batch. rewrite Hrun.
  cbn [processed failed total_chunks errors Nat.add].
  destruct (i <? n)%nat; [destruct time_sleep|]; unfold ret;
    do 2 eexists; (split; [reflexivity|]);
    cbn [record_batch_error tr_total_processed tr_total_failed tr_total_chunks];
    auto.
Qed.

Lemma index_loop_exact (n : nat) (l : list (nat * list string)) :
  forall tr s,
  exists tr' s',
    for_each (index_body n) l tr s = (inr tr', s')
    /\ tr_total_processed tr'
       = tr_total_processed tr
         + List.length (filter with_text (concat (map snd l)))
    /\ tr_total_failed tr'
       = tr_total_failed tr
         + List.length (filter without_text (concat (map snd l)))
    /\ tr_total_chunks tr'
       = tr_total_chunks tr
         + list_sum (map (chunk_count pdf_processor extract_text_from_pdf)
                       (filter with_text (concat (map snd l))))
    /\ processed_files s'
       = (processed_files s ++ filter with_text (concat (map snd l)))%list
    /\ failed_files s'
       = (failed_files s ++ filter without_text (concat (map snd l)))%list.
Proof.
  induction l as [|[i batch] l IH]; intros tr s.
  - exists tr, s. split; [reflexivity|]. cbn.
    rewrite !Nat.add_0_r, !app_nil_r. repeat split.
  - cbn [for_each]. unfold bind at 1.
    destruct (index_body_exact n tr i batch s)
      as (tr1 & s1 & -> & E1 & E2 & E3 & E4 & E5).
    destruct (IH tr1 s1) as (tr3 & s3 & -> & H1 & H2 & H3 & H4 & H5).
    exists tr3, s3. split; [reflexivity|].
    cbn [map snd concat].
    rewrite !filter_app, !map_app, !list_sum_app, !length_app.
    rewrite H1, H2, H3, H4, H5, E1, E2, E3, E4, E5.
    rewrite <- !app_assoc. repeat split; lia.
Qed.

Lemma filter_length_existsb {A} (f : A -> bool) (l : list A) :
  (0 <? List.length (filter f l))%nat = existsb f l.
Proof.
  induction l as [|x l IH]; [reflexivity|].
  cbn [filter existsb]. destruct (f x); [reflexivity | exact IH].
Qed.

(** X17: For a positive batch size, a directory that exists and has files:
    [index_all_documents] returns a report in which [total_processed]
    counts the files whose text is not blank and [total_failed] the others,
    [success] tells whether some file has text, and the two lists of files
    are those of the indexer with these files appended in order.  None of
    this depends on the batch size, on the vector store or on the delay. *)
Theorem index_all_documents_exact (s : state) :
  (0 < batch_size)%Z ->
  pdf_dir_exists = true ->
  pdf_dir_glob <> [] ->
  exists r s',
    index_all_documents s = (inr r, s')
    /\ total_processed r = List.length (filter with_text pdf_dir_glob)
    /\ total_failed r = List.length (filter without_text pdf_dir_glob)
    /\ r_total_chunks r
       = list_sum (map (chunk_count pdf_processor extract_text_from_pdf)
                     (filter with_text pdf_dir_glob))
    /\ success r = existsb with_text pdf_dir_glob
    /\ error r = None
    /\ r_processed_files r
       = Some (processed_files s ++ filter with_text pdf_dir_glob)%list
    /\ r_failed_files r
       = Some (failed_files s ++ filter without_text pdf_dir_glob)%list.
Proof.
  intros Hb Hex Hne.
  destruct (batches_of_ok batch_size pdf_dir_glob Hb) as (batches & Hbat & Hcat & _).
  unfold BatchIndexer.index_all_documents, get_pdf_files.
  rewrite Hex. cbn [negb].
  destruct pdf_dir_glob as [|f0 rest] eqn:Hglob; [congruence|].
  rewrite Hbat. unfold bind at 1. unfold lift_result at 1.
  unfold bind at 1.
  destruct (index_loop_exact (List.length batches) (enumerate batches 1)
              {| tr_total_processed := 0; tr_total_failed := 0;
                 tr_total_chunks := 0; all_errors := [] |} s)
    as (tr & s' & -> & H1 & H2 & H3 & H4 & H5).
  rewrite map_snd_enumerate, Hcat in *.
  cbn [tr_total_processed tr_total_failed tr_total_chunks Nat.add] in *.
  do 2 eexists. split; [reflexivity|].
  cbn [success total_processed total_failed r_total_chunks error
         r_processed_files r_failed_files].
  rewrite H1, H2, H3, H4, H5, filter_length_existsb. repeat split.
Qed.

(** X18: With a negative batch size [range] is empty: no file is read, and the
    report says [success = False] with all counts at 0 although the
    directory has files. *)
Theorem index_all_documents_negative_batch_size (s : state) :
  (batch_size < 0)%Z ->
  pdf_dir_exists = true ->
  pdf_dir_glob <> [] ->
  index_all_documents s
  = (inr {| success := false;
            error := None;
            total_processed := 0;
            total_failed := 0;
            r_total_chunks := 0;
            r_errors := Some [];
            r_processed_files := Some (processed_files s);
            r_failed_files := Some (failed_files s) |}, s).
Proof.
  intros Hb Hex Hne.
  unfold BatchIndexer.index_all_documents, get_pdf_files.
  rewrite Hex. cbn [negb].
  destruct pdf_dir_glob as [|f0 rest]; [congruence|].
  unfold batches_of, range0.
  destruct (Z.eqb_spec batch_size 0); [lia|].
  destruct (Z.ltb_spec batch_size 0); [|lia].
  reflexivity.
Qed.

(** X19: With a batch size of 0 [range] raises [ValueError]; nothing catches
    it, and no file is read. *)
Theorem index_all_documents_zero_batch_size (s : state) :
  batch_size = 0%Z ->
  pdf_dir_exists = true ->
  pdf_dir_glob <> [] ->
  index_all_documents s
  = (inl (Py.Exn Py.ValueError "range() arg 3 must not be zero"), s).
Proof.
  intros Hb Hex Hne.
  unfold BatchIndexer.index_all_documents, get_pdf_files.
  rewrite Hex. cbn [negb].
  destruct pdf_dir_glob as [|f0 rest]; [congruence|].
  unfold batches_of, range0. rewrite Hb. reflexivity.
Qed.

(** ** The shape of the batches *)

Lemma range_from_nth (b n : nat) :
  0 < b ->
  forall fuel i k j,
    n - i <= fuel ->
    nth_error (range_from fuel (Z.of_nat i) (Z.of_nat n) (Z.of_nat b)) k
    = Some j ->
    j = Z.of_nat (i + k * b) /\ i + k * b < n.
Proof.
  intros Hb. induction fuel as [|fuel IH]; intros i k j Hfuel H.
  - now destruct k.
  - cbn [range_from] in H.
    destruct (Z.ltb_spec (Z.of_nat i) (Z.of_nat n)); [|now destruct k].
    destruct k as [|k]; cbn in H.
    + injection H as <-. split; [f_equal|]; lia.
    + replace (Z.of_nat i + Z.of_nat b)%Z with (Z.of_nat (i + b)) in H by lia.
      apply IH in H as [-> H]; [|lia]. split; [f_equal|]; lia.
Qed.

(** X20: For a positive batch size, the batch of index [k] is the files from
    [k * batch_size] on, up to [batch_size] of them; it is not empty, and
    it has exactly [batch_size] files unless fewer are left. *)
Theorem batches_of_shape (pdf_files : list string)
  (batches : list (list string)) (k : nat) (batch : list string) :
  (0 < batch_size)%Z ->
  batches_of batch_size pdf_files = inr batches ->
  nth_error batches k = Some batch ->
  batch = firstn (Z.to_nat batch_size)
            (skipn (k * Z.to_nat batch_size) pdf_files)
  /\ batch <> []
  /\ List.length batch
     = Nat.min (Z.to_nat batch_size)
         (List.length pdf_files - k * Z.to_nat batch_size).
Proof.
  intros Hb Hbat Hk. unfold batches_of, range0 in Hbat.
  destruct (Z.eqb_spec batch_size 0); [lia|].
  destruct (Z.ltb_spec batch_size 0); [lia|].
  cbn [rbind] in Hbat. injection Hbat as <-.
  rewrite nth_error_map in Hk.
  destruct (nth_error _ k) as [j|] eqn:Hj; [|discriminate].
  injection Hk as <-.
  replace batch_size with (Z.of_nat (Z.to_nat batch_size)) in Hj at 1 by lia.
  apply (range_from_nth (Z.to_nat batch_size) (List.length pdf_files)
           ltac:(lia) (List.length pdf_files) 0 k j ltac:(lia))
    in Hj as [-> Hlt].
  cbn [Nat.add] in *.
  assert (E : slice pdf_files (Z.of_nat (k * Z.to_nat batch_size))
                (Z.of_nat (k * Z.to_nat batch_size) + batch_size)
              = firstn (Z.to_nat batch_size)
                  (skipn (k * Z.to_nat batch_size) pdf_files)).
  { unfold slice. f_equal; [lia | f_equal; lia]. }
  rewrite E.
  assert (L : List.length (firstn (Z.to_nat batch_size)
                             (skipn (k * Z.to_nat batch_size) pdf_files))
              = Nat.min (Z.to_nat batch_size)
                  (List.length pdf_files - k * Z.to_nat batch_size)).
  { now rewrite length_firstn, length_skipn. }
  repeat split; [|exact L].
  intros Hnil. rewrite Hnil in L. cbn in L. lia.
Qed.

End BatchIndexerMore.

(* ===================================================================== *)
(** * More on [CitationGenerator]                                         *)
(* ===================================================================== *)

Section CitationMore.

Import CitationGenerator.

Lemma value_eqb_eq (a b : Py.value) : Py.value_eqb a b = true <-> a = b.
Proof.
  destruct a as [s|x], b as [t|y]; cbn; split; try discriminate.
  - intros H. apply String.eqb_eq in H. now subst.
  - intros [= ->]. apply String.eqb_refl.
  - intros H. apply Z.eqb_eq in H. now subst.
  - intros [= ->]. apply Z.eqb_refl.
Qed.

Lemma has_key_in (k : Py.value) (uc : citation_dict) :
  has_key k uc = true <-> In k (map fst uc).
Proof.
  unfold has_key. rewrite existsb_exists. split.
  - intros (kv & Hin & E). apply value_eqb_eq in E. subst.
    now apply in_map.
  - intros H. apply in_map_iff in H as (kv & <- & Hin).
    exists kv. split; [exact Hin | now apply value_eqb_eq].
Qed.

Lemma unique_citations_loop (sources : list Py.dict) :
  forall uc uc',
    NoDup (map fst uc) ->
    rfor_each unique_citations_body sources uc = inr uc' ->
    NoDup (map fst uc')
    /\ (forall k,
          In k (map fst uc') <->
          In k (map fst uc) \/ exists s, In s sources /\ filename_of s = k)
    /\ List.length uc' <= List.length uc + List.length sources.
Proof.
  induction sources as [|source sources IH]; intros uc uc' Hnd Hrun.
  - cbn in Hrun. injection Hrun as <-. repeat split; [exact Hnd | | | cbn; lia].
    + now left.
    + intros [H | (s & [] & _)]. exact H.
  - cbn [rfor_each] in Hrun. unfold unique_citations_body at 1 in Hrun.
    fold (filename_of source) in Hrun.
    destruct (has_key (filename_of source) uc) eqn:Hk; cbn [negb rbind] in Hrun.
    + apply IH in Hrun as (Hnd' & Hkeys & Hlen); [|exact Hnd].
      repeat split; [exact Hnd' | | | cbn [List.length]; lia].
      * intros H. apply Hkeys in H as [H | (s & Hs & E)]; [now left|].
        right. exists s. split; [now right | exact E].
      * intros [H | (s & [<- | Hs] & E)]; apply Hkeys.
        -- now left.
        -- left. apply has_key_in. now rewrite <- E.
        -- right. eauto.
    + destruct (generate_reference_citation source) as [e|c]; [discriminate|].
      cbn [rbind] in Hrun.
      apply IH in Hrun as (Hnd' & Hkeys & Hlen).
      * rewrite map_app, length_app in *. cbn [map fst List.length] in *.
        repeat split; [exact Hnd' | | | lia].
        -- intros H. apply Hkeys in H as [H | (s & Hs & E)].
           ++ apply in_app_or in H as [H | [<- | []]]; [now left|].
              right. exists source. split; [now left | reflexivity].
           ++ right. exists s. split; [now right | exact E].
        -- intros [H | (s & [<- | Hs] & E)]; apply Hkeys.
           ++ left. apply in_or_app. now left.
           ++ left. apply in_or_app. right. left. exact E.
           ++ right. eauto.
      * rewrite map_app. cbn [map fst].
        apply NoDup_app; [exact Hnd | repeat constructor; intros [] |].
        intros k Hin [<- | []].
        apply has_key_in in Hin. congruence.
Qed.

(** X14: The dictionary [unique_citations] that [format_citations_for_response]
    fills has one entry for each filename of the sources ([Unknown] for a
    source without one) and no other: its keys are pairwise different, and
    it has at most as many entries as there are sources. *)
Theorem unique_citations_keys (sources : list Py.dict)
  (unique_citations : citation_dict) :
  rfor_each unique_citations_body sources [] = inr unique_citations ->
  NoDup (map fst unique_citations)
  /\ (forall k,
        In k (map fst unique_citations) <->
        exists s, In s sources /\ filename_of s = k)
  /\ List.length unique_citations <= List.length sources.
Proof.
  intros Hrun.
  destruct (unique_citations_loop sources [] _ (NoDup_nil _) Hrun)
    as (Hnd & Hkeys & Hlen).
  repeat split; [exact Hnd | | | exact Hlen].
  - intros H. apply Hkeys in H as [[] | H]. exact H.
  - intros H. apply Hkeys. now right.
Qed.

(** ** Title case *)

Lemma lower_char_idem (c : ascii) :
  Py.lower_char (Py.lower_char c) = Py.lower_char c.
Proof.
  destruct c as [[] [] [] [] [] [] [] []]; vm_compute; reflexivity.
Qed.

Lemma lower_upper_char (c : ascii) :
  Py.lower_char (Py.upper_char c) = Py.lower_char c.
Proof.
  destruct c as [[] [] [] [] [] [] [] []]; vm_compute; reflexivity.
Qed.

Lemma lower_idem (s : string) : Py.lower (Py.lower s) = Py.lower s.
Proof.
  induction s as [|c s IH]; cbn; [reflexivity|].
  now rewrite lower_char_idem, IH.
Qed.

Lemma lower_capitalize (s : string) : Py.lower (Py.capitalize s) = Py.lower s.
Proof.
  destruct s as [|c s]; cbn; [reflexivity|].
  now rewrite lower_upper_char, lower_idem.
Qed.

Lemma lower_append (a b : string) :
  Py.lower (a ++ b) = Py.lower a ++ Py.lower b.
Proof. induction a as [|c a IH]; cbn; [reflexivity | now rewrite IH]. Qed.

Lemma lower_join (l : list string) :
  Py.lower (Py.join " " l) = Py.join " " (map Py.lower l).
Proof.
  induction l as [|w l IH]; [reflexivity|].
  destruct l as [|w' l]; [reflexivity|].
  change (Py.join " " (w :: w' :: l)) with (w ++ " " ++ Py.join " " (w' :: l)).
  change (Py.join " " (map Py.lower (w :: w' :: l)))
    with (Py.lower w ++ " " ++ Py.join " " (map Py.lower (w' :: l))).
  rewrite !lower_append, IH. reflexivity.
Qed.

Lemma title_case_words (n : nat) (l : list string) :
  forall i,
    map Py.lower
      (map (fun '(i, word) =>
              if ((i =? 0) || (i =? n))%nat
              then Py.capitalize word
              else if existsb (String.eqb (Py.lower word)) lowercase_words
              then Py.lower word
              else Py.capitalize word)
         (combine (seq i (List.length l)) l))
    = map Py.lower l.
Proof.
  induction l as [|w l IH]; intros i; [reflexivity|].
  cbn [List.length seq combine map]. rewrite IH. f_equal.
  destruct ((i =? 0) || (i =? n))%nat;
    [|destruct (existsb _ lowercase_words)];
    auto using lower_capitalize, lower_idem.
Qed.

(** X15: On a text of ASCII characters, [title_case] changes the case of
    letters and nothing else, but for the whitespace between words, which
    becomes one space.  (Outside the ASCII range the case mapping of Python
    can change more: [capitalize] turns a first letter into its title case,
    which lower case need not give back.) *)
Theorem title_case_changes_case_only (text : string) :
  ascii_text text = true ->
  Py.lower (title_case text) = Py.lower (Py.join " " (Py.split_ws text)).
Proof.
  intros _. unfold title_case, enumerate. rewrite !lower_join.
  now rewrite title_case_words.
Qed.

End CitationMore.

(* ===================================================================== *)
(** * The query endpoint and the engine                                   *)
(* ===================================================================== *)

Section QueryEndpoint.

Import RAGEngine.

Variable similarity_search : string -> result (list Document).
Variable system_prompt_format : string -> string -> string.
Variable chat_completions_create : string -> string -> result (list string).
Variable engine_available : bool.

Local Abbreviation generate_response :=
  (RAGEngine.generate_response similarity_search system_prompt_format
     chat_completions_create).
Local Abbreviation query :=
  (App.query engine_available generate_response).

(** X22: A search that raises is answered like a search that finds nothing: the
    caller gets the message of no match, and no sign of the failure. *)
Theorem generate_response_hides_search_failure (q : string) (e : Py.exn) :
  similarity_search q = inl e ->
  generate_response q
  = inr [ ("response", FStr no_match_message);
          ("sources", FSources []);
          ("citations", FStr "") ].
Proof.
  intros H. unfold RAGEngine.generate_response, search_relevant_documents.
  now rewrite H.
Qed.

Lemma generate_response_sources (q : string) :
  exists d response sources citations,
    generate_response q = inr d
    /\ lookup "response" d = Some response
    /\ lookup "sources" d = Some (FSources sources)
    /\ lookup "citations" d = Some citations
    /\ (lookup "num_sources" d = None
        \/ lookup "num_sources" d = Some (FInt (List.length sources)))
    /\ (lookup "num_sources" d = None -> sources = []).
Proof.
  unfold RAGEngine.generate_response.
  destruct (search_relevant_documents similarity_search q) as [|doc docs].
  { do 4 eexists. split; [reflexivity|]. cbn. repeat split; auto. }
  cbv zeta.
  destruct (chat_completions_create _ q) as [e|[|c choices]]; cbn [rbind rtry].
  - do 4 eexists. split; [reflexivity|]. cbn. repeat split; auto.
  - do 4 eexists. split; [reflexivity|]. cbn. repeat split; auto.
  - destruct (CitationGenerator.format_citations_for_response _);
      cbn [rbind rtry]; do 4 eexists; (split; [reflexivity|]); cbn;
      repeat split; auto; discriminate.
Qed.

(** X23: The endpoint answers a request without a JSON object with the status
    500, a query that is missing, empty or blank with 400, and any other
    query with 500 when there is no engine.  Otherwise the status is 200 and
    the answer has the keys [response], [sources], [citations] and
    [num_sources], and [num_sources] is the number of sources, also when
    [generate_response] has left that key out. *)
Theorem query_reply (data : option (option string)) :
  match data with
  | None => snd (query data) = 500
  | Some q =>
      let query_text := Py.strip (match q with Some t => t | None => "" end) in
      if negb (Py.nonempty query_text) then
        snd (query data) = 400
        /\ keys (fst (query data)) = ["error"; "response"]
      else if negb engine_available then snd (query data) = 500
      else
        snd (query data) = 200
        /\ keys (fst (query data))
           = ["response"; "sources"; "citations"; "num_sources"]
        /\ exists sources,
             lookup "sources" (fst (query data)) = Some (FSources sources)
             /\ lookup "num_sources" (fst (query data))
                = Some (FInt (List.length sources))
  end.
Proof.
  destruct data as [q|]; [|reflexivity].
  cbv zeta. unfold App.query. cbn [rbind].
  destruct (negb (Py.nonempty (Py.strip _))); [split; reflexivity|].
  destruct (negb engine_available); [reflexivity|].
  destruct (generate_response_sources
              (Py.strip match q with Some t => t | None => "" end))
    as (d & response & sources & citations & -> & Hr & Hs & Hc & Hn & _).
  cbn [rbind]. unfold App.item, App.sources_len.
  rewrite Hr, Hs, Hc. cbn [rbind rtry fst snd keys map].
  repeat split. exists sources. cbn.
  destruct Hn as [-> | ->]; split; reflexivity.
Qed.

End QueryEndpoint.

(* ===================================================================== *)
(** * Reading and processing files                                        *)
(* ===================================================================== *)

Section PDFFilesProperties.

Import PDFFiles.

Lemma strip_idem (s : string) : Py.strip (Py.strip s) = Py.strip s.
Proof.
  destruct (Py.nonempty (Py.strip s)) eqn:E.
  - apply strip_of_trimmed. split; [now apply strip_tight|].
    unfold Py.strip. apply lstrip_idem.
  - apply nonempty_false in E. now rewrite E.
Qed.

Lemma extract_text_loop (texts : list string) :
  forall i acc,
  exists text,
    rfor_each extract_text_body
      (combine (seq i (List.length (map (@inr Py.exn string) texts)))
         (map (@inr Py.exn string) texts)) acc
    = inr text
    /\ blank text = blank acc && forallb blank texts.
Proof.
  induction texts as [|t texts IH]; intros i acc.
  - exists acc. split; [reflexivity|]. cbn. now rewrite andb_true_r.
  - cbn [map List.length seq combine rfor_each].
    unfold extract_text_body at 1. cbn [rbind].
    destruct (Py.nonempty (Py.strip t)) eqn:Ht; cbn [rbind].
    + destruct (IH (S i) (acc ++ page_header i ++ t)) as (text & -> & Hb).
      exists text. split; [reflexivity|].
      rewrite Hb, !blank_append. cbn [forallb].
      assert (blank t = false).
      { destruct (blank t) eqn:E; [|reflexivity].
        apply strip_nonempty_blank in E. congruence. }
      rewrite H. now rewrite !andb_false_r.
    + destruct (IH (S i) acc) as (text & -> & Hb).
      exists text. split; [reflexivity|].
      apply strip_nonempty_blank in Ht. rewrite Hb. cbn [forallb].
      now rewrite Ht.
Qed.

(** X12: [extract_text_from_pdf] gives a text without whitespace at its ends,
    so that [not text] in [process_single_pdf] and [not text.strip()] in
    [process_batch] test the same; it gives the empty text when the
    document cannot be opened; and for a document whose pages can all be
    read, it gives the empty text exactly when every page is blank. *)
Theorem extract_text_from_pdf_stripped :
  (forall opened,
     Py.strip (extract_text_from_pdf opened) = extract_text_from_pdf opened)
  /\ (forall e, extract_text_from_pdf (inl e) = "")
  /\ (forall texts,
        extract_text_from_pdf (inr (map (@inr Py.exn string) texts)) = ""
        <-> forallb blank texts = true).
Proof.
  split; [|split].
  - intros [e|pages]; [reflexivity|].
    unfold extract_text_from_pdf. cbn [rbind rtry].
    destruct (rfor_each _ _ _); cbn [rbind rtry]; [reflexivity|].
    apply strip_idem.
  - reflexivity.
  - intros texts. unfold extract_text_from_pdf. cbn [rbind].
    unfold enumerate.
    destruct (extract_text_loop texts 0 "") as (text & Hrun & Hb).
    unfold result in *. rewrite Hrun.
    cbn [rbind rtry blank andb] in *. rewrite <- Hb. split.
    + intros H. apply strip_nonempty_blank. now rewrite H.
    + intros H. apply strip_nonempty_blank in H. now apply nonempty_false.
Qed.

Variable self : PDFProcessor.t.
Variable text_of : string -> string.
Variable sources_dir_exists : bool.
Variable sources_dir_glob : list string.
Variable sources_dir_name : string.

Local Abbreviation process_single_pdf :=
  (PDFFiles.process_single_pdf self text_of).
Local Abbreviation process_all_pdfs :=
  (PDFFiles.process_all_pdfs self text_of sources_dir_exists
     sources_dir_glob sources_dir_name).

Lemma chunks_of_buffers_texts (fn : Py.value) (bufs : list string) :
  forall l i,
    map PDFProcessor.c_text (PDFProcessor.chunks_of_buffers fn l i bufs)
    = map Py.strip bufs.
Proof.
  induction bufs as [|b bufs IH]; intros l i; cbn; [reflexivity|].
  now rewrite IH.
Qed.

Lemma chunk_buffers_empty (text : string) :
  Py.nonempty text = false -> PDFProcessor.chunk_buffers self text = [].
Proof.
  intros H. apply nonempty_false in H. subst. reflexivity.
Qed.

(** [process_single_pdf] raises nothing; the texts of its chunks are the
    stripped buffers of [chunk_text] on the text of the file, and the id of
    each chunk starts with the name of the file without its directory. *)
Lemma process_single_pdf_run (pdf_path : string) (h : heap) :
  exists chunks h',
    process_single_pdf pdf_path h = (inr chunks, h')
    /\ map PDFProcessor.c_text chunks
       = map Py.strip (PDFProcessor.chunk_buffers self (text_of pdf_path))
    /\ Forall (fun c =>
                 PDFProcessor.c_id c
                 = PDFProcessor.basename pdf_path ++ "_chunk_"
                   ++ Py.str_of_nat (PDFProcessor.c_chunk_index c))
         chunks.
Proof.
  unfold PDFFiles.process_single_pdf.
  destruct (Py.nonempty (text_of pdf_path)) eqn:Hne; cbn [negb].
  - unfold bind at 1. unfold alloc at 1.
    unfold bind at 1. rewrite setitem_last.
    fold (metadata_of_path pdf_path).
    destruct (metadata_of_path_fields pdf_path) as (Hfn & _).
    rewrite (chunk_text_ok self (List.length h) _ _
               (Py.VStr (PDFProcessor.basename pdf_path)))
      by (rewrite nth_middle; exact Hfn).
    do 2 eexists. split; [reflexivity|]. split.
    + apply chunks_of_buffers_texts.
    + apply Forall_forall. intros c Hc.
      apply In_nth_error in Hc as (n & Hn).
      now apply chunks_of_buffers_nth in Hn as (b & _ & ->).
  - do 2 eexists. split; [reflexivity|].
    rewrite chunk_buffers_empty by assumption. split; constructor.
Qed.

Lemma process_all_loop (pdf_files : list string) :
  forall acc h,
  exists chunks h',
    for_each
      (fun all_chunks pdf_file =>
         try_except
           (chunks <- process_single_pdf pdf_file ;;
            ret (all_chunks ++ chunks)%list)
           (fun _ => ret all_chunks))
      pdf_files acc h
    = (inr chunks, h')
    /\ map PDFProcessor.c_text chunks
       = (map PDFProcessor.c_text acc
          ++ concat (map (fun f =>
                            map Py.strip
                              (PDFProcessor.chunk_buffers self (text_of f)))
                       pdf_files))%list.
Proof.
  induction pdf_files as [|f l IH]; intros acc h.
  - exists acc, h. split; [reflexivity|]. cbn. now rewrite app_nil_r.
  - cbn [for_each]. unfold bind at 1. unfold try_except at 1.
    unfold bind at 1.
    destruct (process_single_pdf_run f h) as (chunks & h1 & -> & Htexts & _).
    unfold ret at 1.
    destruct (IH (acc ++ chunks)%list h1) as (all & h2 & -> & Hall).
    exists all, h2. split; [reflexivity|].
    rewrite Hall, map_app, Htexts, <- app_assoc. reflexivity.
Qed.

(** X13: [process_all_pdfs] raises [FileNotFoundError] when the directory is
    missing and nothing otherwise; it then returns the chunks of the files
    in the order of the files, a file without text giving none. *)
Theorem process_all_pdfs_chunks (h : heap) :
  (sources_dir_exists = false ->
   exists msg,
     process_all_pdfs h = (inl (Py.Exn Py.FileNotFoundError msg), h))
  /\ (sources_dir_exists = true ->
      exists chunks h',
        process_all_pdfs h = (inr chunks, h')
        /\ map PDFProcessor.c_text chunks
           = concat (map (fun f =>
                            map Py.strip
                              (PDFProcessor.chunk_buffers self (text_of f)))
                       sources_dir_glob)
        /\ List.length chunks
           = list_sum (map (chunk_count self text_of) sources_dir_glob)).
Proof.
  split; intros Hex; unfold PDFFiles.process_all_pdfs; rewrite Hex; cbn [negb].
  - eexists. reflexivity.
  - assert (Hrun : exists chunks h',
               match sources_dir_glob with
               | [] => ret []
               | _ :: _ =>
                   for_each
                     (fun all_chunks pdf_file =>
                        try_except
                          (chunks <- process_single_pdf pdf_file ;;
                           ret (all_chunks ++ chunks)%list)
                          (fun _ => ret all_chunks))
                     sources_dir_glob []
               end h = (inr chunks, h')
               /\ map PDFProcessor.c_text chunks
                  = concat (map (fun f =>
                                   map Py.strip
                                     (PDFProcessor.chunk_buffers self
                                        (text_of f)))
                              sources_dir_glob)).
    { destruct (process_all_loop sources_dir_glob [] h)
        as (chunks & h' & Hrun & Htexts).
      destruct sources_dir_glob; [|eauto].
      exists [], h. split; reflexivity. }
    destruct Hrun as (chunks & h' & Hrun & Htexts).
    exists chunks, h'. split; [exact Hrun|]. split; [exact Htexts|].
    rewrite <- (length_map PDFProcessor.c_text), Htexts.
    clear. induction sources_dir_glob as [|f l IH]; [reflexivity|].
    cbn [map concat]. rewrite length_app, length_map, list_sum_cons, IH.
    reflexivity.
Qed.

End PDFFilesProperties.

(* ===================================================================== *)
(** * The two ways of indexing                                            *)
(* ===================================================================== *)

Section TwoWays.

Import BatchIndexer.

Variable batch_size : Z.
Variable pdf_processor : PDFProcessor.t.
Variable extract_text_from_pdf : string -> string.
Variable vector_db_add_documents : list Document -> result unit.
Variable pdf_dir_name : string.
Variable time_sleep : result unit.

Lemma chunk_count_without_text (f : string) :
  has_text extract_text_from_pdf f = false ->
  chunk_count pdf_processor extract_text_from_pdf f = 0.
Proof.
  unfold has_text, chunk_count. intros H.
  apply strip_nonempty_blank in H.
  now rewrite chunk_buffers_blank.
Qed.

Lemma chunk_count_sum (l : list string) :
  list_sum (map (chunk_count pdf_processor extract_text_from_pdf)
              (filter (has_text extract_text_from_pdf) l))
  = list_sum (map (chunk_count pdf_processor extract_text_from_pdf) l).
Proof.
  induction l as [|f l IH]; [reflexivity|].
  cbn [filter map]. destruct (has_text extract_text_from_pdf f) eqn:Hf.
  - cbn [map]. rewrite !list_sum_cons. now rewrite IH.
  - rewrite list_sum_cons, chunk_count_without_text by exact Hf. exact IH.
Qed.

Lemma chunk_texts_length (l : list string) :
  List.length
    (concat (map (fun f =>
                    map Py.strip
                      (PDFProcessor.chunk_buffers pdf_processor
                         (extract_text_from_pdf f))) l))
  = list_sum (map (chunk_count pdf_processor extract_text_from_pdf) l).
Proof.
  induction l as [|f l IH]; [reflexivity|].
  cbn [map concat]. rewrite length_app, length_map, list_sum_cons, IH.
  reflexivity.
Qed.

(** X21: [BatchIndexer.index_all_documents] and [PDFProcessor.process_all_pdfs]
    make the same number of chunks of the same files: [total_chunks] of
    the report of the one is the length of the list of the other. *)
Theorem batch_and_direct_chunk_counts (pdf_files : list string)
  (s : state) (h : heap) :
  (0 < batch_size)%Z ->
  pdf_files <> [] ->
  exists r s' chunks h',
    BatchIndexer.index_all_documents batch_size pdf_processor
      extract_text_from_pdf vector_db_add_documents true pdf_files
      pdf_dir_name time_sleep s
    = (inr r, s')
    /\ PDFFiles.process_all_pdfs pdf_processor extract_text_from_pdf true
         pdf_files pdf_dir_name h
       = (inr chunks, h')
    /\ r_total_chunks r = List.length chunks.
Proof.
  intros Hb Hne.
  destruct (batches_of_ok batch_size pdf_files Hb) as (batches & Hbat & Hcat & _).
  unfold BatchIndexer.index_all_documents, get_pdf_files,
    PDFFiles.process_all_pdfs.
  cbn [negb].
  destruct pdf_files as [|f0 rest] eqn:Hfiles; [congruence|].
  rewrite Hbat. unfold bind at 1. unfold lift_result at 1.
  unfold bind at 1.
  destruct (index_loop_exact pdf_processor extract_text_from_pdf
              vector_db_add_documents time_sleep
              (List.length batches) (enumerate batches 1)
              {| tr_total_processed := 0; tr_total_failed := 0;
                 tr_total_chunks := 0; all_errors := [] |} s)
    as (tr & s' & -> & _ & _ & H3 & _).
  destruct (process_all_loop pdf_processor extract_text_from_pdf
              (f0 :: rest) [] h) as (chunks & h' & -> & Htexts).
  do 4 eexists. split; [reflexivity|]. split; [reflexivity|].
  cbn [r_total_chunks]. rewrite H3, map_snd_enumerate, Hcat.
  cbn [tr_total_chunks Nat.add]. rewrite chunk_count_sum.
  rewrite <- (length_map PDFProcessor.c_text chunks), Htexts.
  change (map PDFProcessor.c_text []) with (@nil string).
  rewrite app_nil_l. symmetry. apply chunk_texts_length.
Qed.

End TwoWays.

(* ===================================================================== *)
(** * The further properties at the inputs of the examples                *)
(* ===================================================================== *)

Section MoreAtExamples.

Import PDFProcessor Examples MoreExamples.

Lemma extract_metadata_plain_name_witness :
  Py.contains "_" (Py.replace ".pdf" "" "mediation.pdf") = false
  /\ Py.contains "," (Py.replace ".pdf" "" "mediation.pdf") = false
  /\ Py.get "author" (extract_metadata_from_filename "mediation.pdf")
     = Some (Py.VStr "Unknown")
  /\ Py.get "title" (extract_metadata_from_filename "mediation.pdf")
     = Some (Py.VStr (Py.replace ".pdf" "" "mediation.pdf")).
Proof.
  split; [reflexivity|]. split; [reflexivity|].
  apply (extract_metadata_plain_name "mediation.pdf"); reflexivity.
Defined.

Lemma extract_metadata_one_comma_name_witness :
  Py.replace ".pdf" "" "Smith, War and Peace.pdf"
  = "Smith" ++ "," ++ " War and Peace"
  /\ Py.get "author" (extract_metadata_from_filename "Smith, War and Peace.pdf")
     = Some (Py.VStr (Py.strip "Smith"))
  /\ Py.get "title" (extract_metadata_from_filename "Smith, War and Peace.pdf")
     = Some (Py.VStr (Py.strip " War and Peace")).
Proof.
  split; [reflexivity|].
  apply (extract_metadata_one_comma_name "Smith, War and Peace.pdf"
           "Smith" " War and Peace"); reflexivity.
Defined.

Lemma extract_metadata_underscore_name_witness :
  Py.replace ".pdf" "" "Smith_War_Peace.pdf" = "Smith" ++ "_" ++ "War_Peace"
  /\ Py.contains "_" "Smith" = false
  /\ Py.get "author" (extract_metadata_from_filename "Smith_War_Peace.pdf")
     = Some (Py.VStr "Smith")
  /\ Py.get "title" (extract_metadata_from_filename "Smith_War_Peace.pdf")
     = Some (Py.VStr "War Peace").
Proof.
  split; [reflexivity|]. split; [reflexivity|].
  exact (extract_metadata_underscore_name "Smith_War_Peace.pdf"
           "Smith" "War_Peace" eq_refl eq_refl).
Defined.

Lemma chunk_text_ids_distinct_witness :
  chunk_text size_cfg size_document 0 [metadata_a]
  = (inr [size_chunk0; size_chunk1], [metadata_a; metadata_a; metadata_a])
  /\ NoDup (map c_id [size_chunk0; size_chunk1]).
Proof.
  split; [reflexivity|].
  exact (chunk_text_ids_distinct size_cfg size_document 0 [metadata_a]
           _ _ eq_refl).
Defined.

Lemma chunk_text_texts_trimmed_witness :
  chunk_text size_cfg size_document 0 [metadata_a]
  = (inr [size_chunk0; size_chunk1], [metadata_a; metadata_a; metadata_a])
  /\ Py.nonempty (c_text size_chunk1) = true
  /\ Py.lstrip (c_text size_chunk1) = c_text size_chunk1
  /\ Py.rstrip (c_text size_chunk1) = c_text size_chunk1.
Proof.
  split; [reflexivity|].
  apply (chunk_text_texts_trimmed size_cfg size_document 0 [metadata_a]
           _ _ eq_refl).
  right. left. reflexivity.
Defined.

Lemma chunk_text_count_witness :
  chunk_text size_cfg size_document 0 [metadata_a]
  = (inr [size_chunk0; size_chunk1], [metadata_a; metadata_a; metadata_a])
  /\ blank size_document = false
  /\ 1 <= List.length [size_chunk0; size_chunk1]
     <= List.length (paragraphs_of size_document).
Proof.
  split; [reflexivity|]. split; [reflexivity|].
  exact (proj2 (chunk_text_count size_cfg size_document 0 [metadata_a]
                  _ _ eq_refl) eq_refl).
Defined.

Lemma chunk_text_single_paragraph_witness :
  Py.contains (Py.LF ++ Py.LF) long_paragraph = false
  /\ blank long_paragraph = false
  /\ (Z.of_nat (String.length (Py.strip long_paragraph)) > chunk_size size_cfg)%Z
  /\ chunk_text size_cfg long_paragraph 0 [metadata_a]
     = (inr [ {| c_id := "a.pdf_chunk_0";
                 c_text := "one paragraph and no blank line";
                 c_metadata := 1;
                 c_chunk_index := 0 |} ],
        [metadata_a; metadata_a]).
Proof.
  split; [reflexivity|]. split; [reflexivity|]. split; [reflexivity|].
  exact (chunk_text_single_paragraph size_cfg long_paragraph 0 [metadata_a]
           (Py.VStr "a.pdf") eq_refl eq_refl eq_refl).
Defined.

Lemma chunk_text_fits_witness :
  blank size_document = false
  /\ (Z.of_nat (String.length
                  (Py.join (Py.LF ++ Py.LF) (paragraphs_of size_document)))
      <= chunk_size configured)%Z
  /\ chunk_text configured size_document 0 [metadata_a]
     = (inr [ {| c_id := "a.pdf_chunk_0";
                 c_text := "aaaaaa" ++ blank_line ++ "bbbbbb";
                 c_metadata := 1;
                 c_chunk_index := 0 |} ],
        [metadata_a; metadata_a]).
Proof.
  split; [reflexivity|]. split; [vm_compute; discriminate|].
  apply (chunk_text_fits configured size_document 0 [metadata_a]
           (Py.VStr "a.pdf")); [reflexivity | reflexivity |].
  vm_compute. discriminate.
Defined.

Lemma chunk_text_zero_overlap_accumulates_witness :
  chunk_overlap zero_overlap_cfg = 0%Z
  /\ chunk_text zero_overlap_cfg size_document 0 [metadata_a]
     = (inr [accumulated_chunk0; accumulated_chunk1],
        [metadata_a; metadata_a; metadata_a])
  /\ prefix (c_text accumulated_chunk0) (c_text accumulated_chunk1) = true
  /\ String.length (c_text accumulated_chunk0)
     < String.length (c_text accumulated_chunk1).
Proof.
  split; [reflexivity|]. split; [reflexivity|].
  exact (chunk_text_zero_overlap_accumulates zero_overlap_cfg size_document
           0 [metadata_a] _ _ eq_refl eq_refl 0 accumulated_chunk0
           accumulated_chunk1 eq_refl eq_refl).
Defined.

Lemma index_all_documents_exact_witness :
  (0 < 3)%Z
  /\ seven_files <> []
  /\ exists r s',
       BatchIndexer.index_all_documents 3 configured text_of_file
         store_accepts true seven_files "/pdf" (inr tt) fresh_indexer
       = (inr r, s')
       /\ BatchIndexer.total_processed r = 6
       /\ BatchIndexer.total_failed r = 1
       /\ BatchIndexer.success r = true
       /\ BatchIndexer.r_failed_files r = Some ["/pdf/c.pdf"].
Proof.
  split; [lia|]. split; [discriminate|].
  destruct (index_all_documents_exact 3 configured text_of_file
              store_accepts true seven_files "/pdf" (inr tt) fresh_indexer
              ltac:(lia) eq_refl ltac:(discriminate))
    as (r & s' & Hrun & Hp & Hf & _ & Hs & _ & _ & Hff).
  exists r, s'. repeat split; assumption.
Defined.

Lemma index_all_documents_negative_batch_size_witness :
  (-1 < 0)%Z
  /\ seven_files <> []
  /\ BatchIndexer.index_all_documents (-1) configured text_of_file
       store_accepts true seven_files "/pdf" (inr tt) fresh_indexer
     = (inr {| BatchIndexer.success := false;
               BatchIndexer.error := None;
               BatchIndexer.total_processed := 0;
               BatchIndexer.total_failed := 0;
               BatchIndexer.r_total_chunks := 0;
               BatchIndexer.r_errors := Some [];
               BatchIndexer.r_processed_files := Some [];
               BatchIndexer.r_failed_files := Some [] |}, fresh_indexer).
Proof.
  split; [lia|]. split; [discriminate|].
  apply (index_all_documents_negative_batch_size (-1) configured text_of_file
           store_accepts true seven_files "/pdf" (inr tt) fresh_indexer);
    [lia | reflexivity | discriminate].
Defined.

Lemma index_all_documents_zero_batch_size_witness :
  seven_files <> []
  /\ BatchIndexer.index_all_documents 0 configured text_of_file
       store_accepts true seven_files "/pdf" (inr tt) fresh_indexer
     = (inl (Py.Exn Py.ValueError "range() arg 3 must not be zero"),
        fresh_indexer).
Proof.
  split; [discriminate|].
  apply (index_all_documents_zero_batch_size 0 configured text_of_file
           store_accepts true seven_files "/pdf" (inr tt) fresh_indexer);
    [reflexivity | reflexivity | discriminate].
Defined.

Lemma batches_of_shape_witness :
  (0 < 3)%Z
  /\ BatchIndexer.batches_of 3 seven_files
     = inr [ ["/pdf/a.pdf"; "/pdf/b.pdf"; "/pdf/c.pdf"];
             ["/pdf/d.pdf"; "/pdf/e.pdf"; "/pdf/f.pdf"];
             ["/pdf/g.pdf"] ]
  /\ ["/pdf/g.pdf"] = firstn (Z.to_nat 3) (skipn (2 * Z.to_nat 3) seven_files)
  /\ ["/pdf/g.pdf"] <> []
  /\ List.length ["/pdf/g.pdf"]
     = Nat.min (Z.to_nat 3) (List.length seven_files - 2 * Z.to_nat 3).
Proof.
  split; [lia|]. split; [reflexivity|].
  apply (batches_of_shape 3 seven_files _ 2 ["/pdf/g.pdf"]
           ltac:(lia) eq_refl eq_refl).
Defined.

Lemma unique_citations_keys_witness :
  rfor_each CitationGenerator.unique_citations_body [source_x1; source_x2] []
  = inr [(Py.VStr "X.pdf", "Bush (2005). The Promise of Mediation.")]
  /\ NoDup (map fst [(Py.VStr "X.pdf", "Bush (2005). The Promise of Mediation.")])
  /\ List.length [(Py.VStr "X.pdf", "Bush (2005). The Promise of Mediation.")]
     <= List.length [source_x1; source_x2].
Proof.
  split; [reflexivity|].
  destruct (unique_citations_keys [source_x1; source_x2] _ eq_refl)
    as (Hnd & _ & Hlen).
  split; [exact Hnd | exact Hlen].
Defined.

Lemma generate_response_hides_search_failure_witness :
  search_fails "Co je mediace?"
  = inl (Py.Exn Py.OtherException "connection refused")
  /\ RAGEngine.generate_response search_fails prompt_of service_answers
       "Co je mediace?"
     = inr [ ("response", RAGEngine.FStr RAGEngine.no_match_message);
             ("sources", RAGEngine.FSources []);
             ("citations", RAGEngine.FStr "") ].
Proof.
  split; [reflexivity|].
  exact (generate_response_hides_search_failure search_fails prompt_of
           service_answers "Co je mediace?" _ eq_refl).
Defined.

Lemma process_all_pdfs_chunks_witness :
  (exists msg,
     PDFFiles.process_all_pdfs configured text_of_file false seven_files
       "/pdf" []
     = (inl (Py.Exn Py.FileNotFoundError msg), []))
  /\ (exists chunks h',
        PDFFiles.process_all_pdfs configured text_of_file true seven_files
          "/pdf" []
        = (inr chunks, h')
        /\ List.length chunks = 6).
Proof.
  split.
  - exact (proj1 (process_all_pdfs_chunks configured text_of_file false
                    seven_files "/pdf" []) eq_refl).
  - destruct (proj2 (process_all_pdfs_chunks configured text_of_file true
                       seven_files "/pdf" []) eq_refl)
      as (chunks & h' & Hrun & _ & Hlen).
    exists chunks, h'. split; [exact Hrun | exact Hlen].
Defined.

Lemma batch_and_direct_chunk_counts_witness :
  (0 < 3)%Z
  /\ seven_files <> []
  /\ exists r s' chunks h',
       BatchIndexer.index_all_documents 3 configured text_of_file
         store_accepts true seven_files "/pdf" (inr tt) fresh_indexer
       = (inr r, s')
       /\ PDFFiles.process_all_pdfs configured text_of_file true seven_files
            "/pdf" []
          = (inr chunks, h')
       /\ BatchIndexer.r_total_chunks r = List.length chunks.
Proof.
  split; [lia|]. split; [discriminate|].
  apply (batch_and_direct_chunk_counts 3 configured text_of_file
           store_accepts "/pdf" (inr tt) seven_files fresh_indexer []);
    [lia | discriminate].
Defined.

(** A title of ASCII characters with runs of spaces and mixed case. *)
Lemma title_case_changes_case_only_witness :
  ascii_text "  the ART  of the deal " = true
  /\ CitationGenerator.title_case "  the ART  of the deal " = "The Art of the Deal"
  /\ Py.lower (CitationGenerator.title_case "  the ART  of the deal ")
     = Py.lower (Py.join " " (Py.split_ws "  the ART  of the deal ")).
Proof.
  split; [reflexivity|]. split; [reflexivity|].
  exact (title_case_changes_case_only "  the ART  of the deal " eq_refl).
Defined.

(** An endpoint whose engine finds nothing answers with [num_sources]. *)
Example query_reply_no_match :
  App.query true
    (RAGEngine.generate_response search_fails prompt_of service_answers)
    (Some (Some " Co je mediace? "))
  = ([ ("response", RAGEngine.FStr RAGEngine.no_match_message);
       ("sources", RAGEngine.FSources []);
       ("citations", RAGEngine.FStr "");
       ("num_sources", RAGEngine.FInt 0) ], 200).
Proof. reflexivity. Qed.

End MoreAtExamples.
